(** * Pipeline generation for camera streams: a shallow embedding

    This development embeds [manager/src/django/ppl_generator.py]
    (classes [InferenceModel] and [PipelineGenerator]) and proves the
    properties its design document states about it.

    Conventions of the embedding.
    - A Python [str] is a [string]; each character stands for one code point
      below 256, so the strings covered are the Latin-1 ones.
    - A Python value is a [pyval]; a [dict] is an association list kept in
      insertion order, updated in place the way Python updates a dict.
    - A call that may raise returns a [result]: [inl e] is the exception
      raised, [inr v] the value returned.
    - The builtins [float] (on strings) and [str] (on floats and containers)
      are not expanded here: the program is parameterised by them through the
      class [Builtins]. *)

From Stdlib Require Import String Ascii List ZArith Bool Lia.
From Stdlib Require Import Floats.SpecFloat DecimalString.
Import ListNotations.
Local Open Scope list_scope.
Local Open Scope string_scope.

(* ===================================================================== *)
(** * Exceptions and the error monad *)

Inductive exn : Type :=
| ValueError (msg : string)
| TypeError
| AttributeError
| KeyError (key : string)
| OverflowError.

Definition result (A : Type) : Type := (exn + A)%type.

Definition ret {A : Type} (a : A) : result A := inr a.
Definition raise {A : Type} (e : exn) : result A := inl e.

Definition bind {A B : Type} (m : result A) (k : A -> result B) : result B :=
  match m with
  | inl e => inl e
  | inr a => k a
  end.

Declare Scope result_scope.
Delimit Scope result_scope with result.
Notation "x <- m ;; k" := (bind m (fun x => k))
  (at level 61, m at next level, right associativity) : result_scope.
Notation "' p <- m ;; k" := (bind m (fun x => match x with p => k end))
  (at level 61, p pattern, m at next level, right associativity) : result_scope.
Local Open Scope result_scope.

(** [try: body except Exception: handler]. *)
Definition try_except {A : Type} (body : result A) (handler : result A) : result A :=
  match body with
  | inl _ => handler
  | inr a => inr a
  end.

Definition raises {A : Type} (r : result A) : Prop := exists e, r = inl e.
Definition returns {A : Type} (r : result A) : Prop := exists a, r = inr a.

Definition is_ValueError (e : exn) : Prop := exists msg, e = ValueError msg.

(* ===================================================================== *)
(** * Python strings *)

Module PyStr.

Definition code (c : ascii) : nat := nat_of_ascii c.

Definition in_range (lo hi : nat) (c : ascii) : bool :=
  (lo <=? code c)%nat && (code c <=? hi)%nat.

(** [str.isspace] on the code points below 256: TAB..CR, FS..US, space,
    NEL and the no-break space. *)
Definition is_space (c : ascii) : bool :=
  in_range 9 13 c || in_range 28 32 c
  || (code c =? 133)%nat || (code c =? 160)%nat.

Definition is_upper (c : ascii) : bool := in_range 65 90 c.
Definition is_lower (c : ascii) : bool := in_range 97 122 c.
Definition is_digit (c : ascii) : bool := in_range 48 57 c.
Definition is_alpha (c : ascii) : bool := is_upper c || is_lower c.

(** [c in s] for a one-character [c]. *)
Fixpoint contains (c : ascii) (s : string) : bool :=
  match s with
  | EmptyString => false
  | String a s' => Ascii.eqb a c || contains c s'
  end.

(** [s.split(c, 1)] on a string that contains [c]: the text before the
    first [c] and the text after it. *)
Fixpoint split_once (c : ascii) (s : string) : string * string :=
  match s with
  | EmptyString => (EmptyString, EmptyString)
  | String a s' =>
      if Ascii.eqb a c then (EmptyString, s')
      else let '(l, r) := split_once c s' in (String a l, r)
  end.

Fixpoint lstrip (s : string) : string :=
  match s with
  | EmptyString => EmptyString
  | String a s' => if is_space a then lstrip s' else s
  end.

Fixpoint rstrip (s : string) : string :=
  match s with
  | EmptyString => EmptyString
  | String a s' =>
      match rstrip s' with
      | EmptyString => if is_space a then EmptyString else String a EmptyString
      | r => String a r
      end
  end.

(** [s.strip()] *)
Definition strip (s : string) : string := rstrip (lstrip s).

(** [s.startswith(p)] *)
Fixpoint startswith (p s : string) : bool :=
  match p with
  | EmptyString => true
  | String a p' =>
      match s with
      | EmptyString => false
      | String b s' => Ascii.eqb a b && startswith p' s'
      end
  end.

(** [s[n:]] *)
Fixpoint drop (n : nat) (s : string) : string :=
  match n, s with
  | O, _ => s
  | S n', String _ s' => drop n' s'
  | S _, EmptyString => EmptyString
  end.

(** [sep.join(l)] *)
Definition join (sep : string) (l : list string) : string := String.concat sep l.

(** [any(c in value for c in chars)] *)
Fixpoint any_in (chars : string) (value : string) : bool :=
  match chars with
  | EmptyString => false
  | String c cs => contains c value || any_in cs value
  end.

(** [s.split(c)]: the pieces between the occurrences of [c]. *)
Fixpoint split (c : ascii) (s : string) : list string :=
  match s with
  | EmptyString => [EmptyString]
  | String a s' =>
      if Ascii.eqb a c then EmptyString :: split c s'
      else match split c s' with
           | [] => [String a EmptyString]
           | p :: ps => String a p :: ps
           end
  end.

(** [sub in s] *)
Fixpoint has_substring (sub s : string) : bool :=
  startswith sub s ||
  match s with
  | EmptyString => false
  | String _ s' => has_substring sub s'
  end.

End PyStr.

(* ===================================================================== *)
(** * The regular expression of model names *)

Module NameRegex.
Import PyStr.

(** The class [[A-Za-z0-9_-]]. *)
Definition is_name_char (c : ascii) : bool :=
  is_alpha c || is_digit c || Ascii.eqb c "_" || Ascii.eqb c "-".

Definition newline : ascii := "010".

(** [[A-Za-z0-9_-]*$]: in Python [$] matches at the end of the string and
    also just before a newline that ends the string. *)
Fixpoint match_tail (s : string) : bool :=
  match s with
  | EmptyString => true
  | String c s' =>
      if is_name_char c then match_tail s'
      else Ascii.eqb c newline && String.eqb s' EmptyString
  end.

(** [re.match(r'^[A-Za-z][A-Za-z0-9_-]*$', s)] is not [None]. *)
Definition re_match (s : string) : bool :=
  match s with
  | EmptyString => false
  | String c s' => is_alpha c && match_tail s'
  end.

End NameRegex.

(* ===================================================================== *)
(** * Python values and dictionaries *)

#[warnings="-register-all"]
Inductive pyval : Type :=
| VNone
| VBool (b : bool)
| VInt (z : Z)
| VFloat (f : spec_float)
| VStr (s : string)
| VList (l : list pyval)
| VDict (d : list (string * pyval)).

(** A [dict] with string keys, in insertion order. *)
Definition dict : Type := list (string * pyval).

Module Dict.

(** [d.get(k)] *)
Fixpoint get (k : string) (d : dict) : option pyval :=
  match d with
  | [] => None
  | (k', v) :: d' => if String.eqb k' k then Some v else get k d'
  end.

(** [k in d] *)
Definition mem (k : string) (d : dict) : bool :=
  match get k d with Some _ => true | None => false end.

(** [d.get(k, default)] *)
Definition get_default (k : string) (default : pyval) (d : dict) : pyval :=
  match get k d with Some v => v | None => default end.

(** [d[k]] *)
Definition getitem (k : string) (d : dict) : result pyval :=
  match get k d with Some v => ret v | None => raise (KeyError k) end.

(** [d[k] = v]: an existing key keeps its place, a new key goes last. *)
Fixpoint set (k : string) (v : pyval) (d : dict) : dict :=
  match d with
  | [] => [(k, v)]
  | (k', v') :: d' =>
      if String.eqb k' k then (k', v) :: d' else (k', v') :: set k v d'
  end.

(** [d.update(other)] *)
Definition update (d other : dict) : dict :=
  fold_left (fun acc kv => set (fst kv) (snd kv) acc) other d.

(** [list(d.keys())] *)
Definition keys (d : dict) : list string := map fst d.

(** A list of items is a dict when no key occurs twice. *)
Definition wf (d : dict) : Prop := NoDup (keys d).

End Dict.

(** [all(k in d for k in ks)] *)
Definition all_in (ks : list string) (d : dict) : bool :=
  forallb (fun k => Dict.mem k d) ks.

(** [v == s] for a string literal [s]. *)
Definition eq_str (v : pyval) (s : string) : bool :=
  match v with
  | VStr t => String.eqb t s
  | _ => false
  end.

(** [v in l] for a list [l] of string literals. *)
Definition in_strs (v : pyval) (l : list string) : bool :=
  existsb (eq_str v) l.

Definition dquote : string := String "034" EmptyString.

(* ===================================================================== *)
(** * pathlib: pure POSIX paths *)

Module PurePath.
Import PyStr.

Record t : Type := { root : string; parts : list string }.

Definition is_component (p : string) : bool :=
  negb (String.eqb p "" || String.eqb p ".").

(** [Path(s)]: one leading slash or three and more make the root [/],
    exactly two make the root [//]; empty and [.] components vanish. *)
Definition parse (s : string) : t :=
  {| root := if startswith "/" s
             then if startswith "//" s && negb (startswith "///" s)
                  then "//" else "/"
             else "";
     parts := filter is_component (split "/" s) |}.

(** [a / b] *)
Definition truediv (a b : t) : t :=
  if String.eqb (root b) ""
  then {| root := root a; parts := (parts a ++ parts b)%list |}
  else b.

(** [str(p)] *)
Definition to_str (p : t) : string :=
  match root p, parts p with
  | EmptyString, [] => "."
  | r, ps => r ++ join "/" ps
  end.

(** [str(Path(a) / Path(b))] *)
Definition join_str (a b : string) : string :=
  to_str (truediv (parse a) (parse b)).

End PurePath.

(* ===================================================================== *)
(** * Builtins *)

(** The two builtins the program calls that are left abstract:
    [float(s)] on a string ([None] when it raises [ValueError]), and
    [str(v)] on a float, a list or a dict. *)
Class Builtins : Type := {
  float_of_str : string -> option spec_float;
  repr_other : pyval -> string
}.

Definition float_zero : spec_float := S754_zero false.
Definition float_one : spec_float := Eval cbv in binary_normalize 53 1024 1 0 false.

(** [int.__float__]: round to the nearest double, [OverflowError] beyond. *)
Definition float_of_int (z : Z) : result spec_float :=
  match binary_normalize 53 1024 z 0 false with
  | S754_infinity _ => raise OverflowError
  | f => ret f
  end.

Definition str_of_int (z : Z) : string :=
  DecimalString.NilZero.string_of_int (Z.to_int z).

(** [bool(v)] *)
Definition truthy (v : pyval) : bool :=
  match v with
  | VNone => false
  | VBool b => b
  | VInt z => negb (Z.eqb z 0)
  | VFloat f => negb (SFeqb f float_zero)
  | VStr s => negb (String.eqb s "")
  | VList l => match l with [] => false | _ => true end
  | VDict d => match d with [] => false | _ => true end
  end.

Section WithBuiltins.
Context {B : Builtins}.

(** [str(v)], also what an f-string does with [{v}]. *)
Definition py_str (v : pyval) : string :=
  match v with
  | VStr s => s
  | VNone => "None"
  | VBool true => "True"
  | VBool false => "False"
  | VInt z => str_of_int z
  | _ => repr_other v
  end.

(** [float(v)] *)
Definition py_float (v : pyval) : result spec_float :=
  match v with
  | VFloat f => ret f
  | VInt z => float_of_int z
  | VBool b => ret (if b then float_one else float_zero)
  | VStr s =>
      match float_of_str s with
      | Some f => ret f
      | None => raise (ValueError ("could not convert string to float: '" ++ s ++ "'"))
      end
  | _ => raise TypeError
  end.

(* ------------------------------------------------------------------- *)
(** ** class InferenceModel *)

Definition DEFAULT_PARAMS : dict :=
  [ ("scheduling-policy", VStr "latency");
    ("batch-size", VStr "1");
    ("inference-interval", VStr "1") ].

(** The dict [self.params] built by [_load_params]. *)
Record Params : Type := {
  input_format : string;
  model_type : pyval;
  model_params : dict
}.

Record InferenceModel : Type := {
  models_folder : string;
  model_expr : pyval;
  model_config : dict;
  model_name : string;
  device : option string;
  params : Params;
  inference_element : string
}.

Definition _parse_model_expr (model_expr : string)
  : result (string * option string) :=
  '(model_name, device) <-
    (if PyStr.contains "=" model_expr then
       let '(model_name, device) := PyStr.split_once "=" model_expr in
       let model_name := PyStr.strip model_name in
       let device := PyStr.strip device in
       if String.eqb device "" then
         raise (ValueError ("Device name cannot be empty in model expression '"
                            ++ model_expr ++ "'"))
       else ret (model_name, Some device)
     else ret (PyStr.strip model_expr, None)) ;;
  if negb (NameRegex.re_match model_name) then
    raise (ValueError ("Invalid model name '" ++ model_name
      ++ "'. Model name must start with a letter and contain only letters, numbers, underscores, and hyphens."))
  else ret (model_name, device).

(** The same call on whatever value the camera settings hold: ['=' in v]
    raises [TypeError] on a value that is not a container, and a list or a
    dict has neither [split] nor [strip]. *)
Definition _parse_model_expr_dyn (model_expr : pyval)
  : result (string * option string) :=
  match model_expr with
  | VStr s => _parse_model_expr s
  | VList _ | VDict _ => raise AttributeError
  | _ => raise TypeError
  end.

(** [v.get(k, default)] on a value that has to be a dict. *)
Definition call_get (v : pyval) (k : string) (default : pyval) : result pyval :=
  match v with
  | VDict d => ret (Dict.get_default k default d)
  | _ => raise AttributeError
  end.

Fixpoint _resolve_paths_loop (models_folder : string)
  (items : list (string * pyval)) (converted : dict) : result dict :=
  match items with
  | [] => ret converted
  | (key, value) :: rest =>
      if existsb (String.eqb key) ["model"; "model_proc"] then
        match value with
        | VStr p =>
            _resolve_paths_loop models_folder rest
              (Dict.set key (VStr (PurePath.join_str models_folder p)) converted)
        | _ => raise TypeError
        end
      else _resolve_paths_loop models_folder rest (Dict.set key value converted)
  end.

Definition _resolve_paths (models_folder : string) (params : pyval) : result dict :=
  match params with
  | VDict items => _resolve_paths_loop models_folder items []
  | _ => raise AttributeError
  end.

Definition _set_default_params (params : dict) : dict :=
  let result := DEFAULT_PARAMS in
  Dict.update result params.

Definition _load_params (models_folder : string) (model_config : dict)
  (model_name : string) : result Params :=
  if String.eqb model_name "" then
    raise (ValueError "No model name provided for model expression")
  else
    match Dict.get model_name model_config with
    | Some config =>
        input_format_dict <- call_get config "input-format" (VDict []) ;;
        color_space <- call_get input_format_dict "color-space" (VStr "") ;;
        let input_format :=
          if truthy color_space then "format=" ++ py_str color_space else "" in
        raw_params <- call_get config "params" (VDict []) ;;
        model_params <- _resolve_paths models_folder raw_params ;;
        let model_params := _set_default_params model_params in
        model_type <- call_get config "type" VNone ;;
        ret {| input_format := input_format;
               model_type := model_type;
               model_params := model_params |}
    | None =>
        raise (ValueError ("Model " ++ model_name
                           ++ " not found in model config file."))
    end.

Definition with_model_params (p : Params) (mp : dict) : Params :=
  {| input_format := input_format p;
     model_type := model_type p;
     model_params := mp |}.

Definition with_params (self : InferenceModel) (p : Params) : InferenceModel :=
  {| models_folder := models_folder self;
     model_expr := model_expr self;
     model_config := model_config self;
     model_name := model_name self;
     device := device self;
     params := p;
     inference_element := inference_element self |}.

(** [self.params['model_params'][k] = v] *)
Definition set_model_param (self : InferenceModel) (k : string) (v : pyval)
  : InferenceModel :=
  with_params self
    (with_model_params (params self) (Dict.set k v (model_params (params self)))).

(** [if self.device:] on a device that is [None] or a string. *)
Definition _set_target_device (self : InferenceModel) : InferenceModel :=
  match device self with
  | Some d => if negb (String.eqb d "")
              then set_model_param self "device" (VStr d) else self
  | None => self
  end.

(** [self.device or 'CPU'] *)
Definition get_target_device (self : InferenceModel) : string :=
  match device self with
  | Some d => if negb (String.eqb d "") then d else "CPU"
  | None => "CPU"
  end.

Definition _get_inference_element_name (model_type : pyval) : result string :=
  if eq_str model_type "detect" then ret "gvadetect"
  else if eq_str model_type "classify" then ret "gvaclassify"
  else raise (ValueError ("Unsupported model type: " ++ py_str model_type
                ++ ". Supported types are 'detect', 'classify'.")).

Definition InferenceModel_init (models_folder : string) (model_expr : pyval)
  (model_config : dict) : result InferenceModel :=
  '(model_name, device) <- _parse_model_expr_dyn model_expr ;;
  loaded <- _load_params models_folder model_config model_name ;;
  let self := _set_target_device
    {| models_folder := models_folder;
       model_expr := model_expr;
       model_config := model_config;
       model_name := model_name;
       device := device;
       params := loaded;
       inference_element := "" |} in
  inference_element <- _get_inference_element_name (model_type (params self)) ;;
  ret {| models_folder := models_folder;
         model_expr := model_expr;
         model_config := model_config;
         model_name := model_name;
         device := device;
         params := params self;
         inference_element := inference_element |}.

Definition set_preprocessing_backend (self : InferenceModel)
  (preprocessing_backend : string) : InferenceModel :=
  if negb (String.eqb preprocessing_backend "") then
    set_model_param self "pre-process-backend" (VStr preprocessing_backend)
  else self.

Definition _format_value (value : pyval) : string :=
  match value with
  | VStr s =>
      if PyStr.any_in " ;!" s || String.eqb s ""
      then dquote ++ s ++ dquote
      else py_str value
  | _ => py_str value
  end.

Definition serialize (self : InferenceModel) : list string :=
  let params_str :=
    PyStr.join " "
      (map (fun kv => fst kv ++ "=" ++ _format_value (snd kv))
           (model_params (params self))) in
  [inference_element self ++ " " ++ params_str].

(* ------------------------------------------------------------------- *)
(** ** class PipelineGenerator *)

Definition PipelineGenerator_models_folder : string := "/home/pipeline-server/models".
Definition gva_python_path : string := "/home/pipeline-server/user_scripts/gvapython/sscape".
Definition video_path : string := "/home/pipeline-server/videos".

(** What [_apply_device_rule_set] stores in [self]. *)
Record DeviceRules : Type := {
  rule_decode : list string;
  rule_memory_uses_va_surfaces : bool;
  rule_memory_caps : list string;
  rule_preprocessing_backend : string;
  rule_post_gpu_inference_conversion : bool
}.

Record PipelineGenerator : Type := {
  camera_settings : dict;
  inference_model : InferenceModel;
  input : list string;
  decode : list string;
  memory_uses_va_surfaces : bool;
  memory_caps : list string;
  preprocessing_backend : string;
  post_gpu_inference_conversion : bool;
  timestamp : list string;
  undistort : list string;
  adapter : list string;
  metadata_conversion : list string;
  sink : list string
}.

Definition _apply_device_rule_set (camera_settings : dict)
  (inference_model : InferenceModel) : result DeviceRules :=
  let decode_device := Dict.get_default "cv_subsystem" (VStr "AUTO") camera_settings in
  let inference_device := get_target_device inference_model in
  if negb (in_strs decode_device ["CPU"; "GPU"; "AUTO"]) then
    raise (ValueError ("Unsupported decode device: " ++ py_str decode_device
                       ++ ". Supported values are 'CPU', 'GPU', 'AUTO'."))
  else
    let decode :=
      if eq_str decode_device "CPU" then
        ["decodebin force-sw-decoders=true"; "videoconvert"]
      else if eq_str decode_device "GPU" then
        ["decodebin3"; "vapostproc"]
      else ["decodebin3"] in
    let memory_uses_va_surfaces :=
      negb (eq_str decode_device "CPU") && String.eqb inference_device "GPU" in
    let '(memory_caps, preprocessing_backend) :=
      if memory_uses_va_surfaces then
        (["video/x-raw(memory:VAMemory)"], "va-surface-sharing")
      else
        (["video/x-raw"],
         if String.eqb inference_device "GPU" then "opencv" else "") in
    ret {| rule_decode := decode;
           rule_memory_uses_va_surfaces := memory_uses_va_surfaces;
           rule_memory_caps := memory_caps;
           rule_preprocessing_backend := preprocessing_backend;
           rule_post_gpu_inference_conversion := String.eqb inference_device "GPU" |}.

Definition _parse_source (source : string) (video_volume_path : string)
  : result (list string) :=
  if PyStr.startswith "rtsp://" source then
    ret [ "rtspsrc location=" ++ source ++ " latency=200 name=source";
          "rtph264depay";
          "h264parse" ]
  else if PyStr.startswith "file://" source then
    let filepath :=
      PurePath.join_str video_volume_path
        (PyStr.drop (String.length "file://") source) in
    ret [ "multifilesrc loop=TRUE location=" ++ filepath ++ " name=source" ]
  else if PyStr.startswith "http://" source || PyStr.startswith "https://" source then
    ret [ "curlhttpsrc location=" ++ source ++ " name=source";
          "multipartdemux" ]
  else
    raise (ValueError ("Unsupported source type in " ++ source
      ++ ". Supported types are 'rtsp://...' (raw H.264), 'http(s)://...' (MJPEG) and 'file://... (relative to video folder)'.")).

(** The same call on whatever value [camera_settings['command']] holds:
    only a string has [startswith]. *)
Definition _parse_source_dyn (source : pyval) (video_volume_path : string)
  : result (list string) :=
  match source with
  | VStr s => _parse_source s video_volume_path
  | _ => raise AttributeError
  end.

Definition intrinsics_keys : list string :=
  ["intrinsics_fx"; "intrinsics_fy"; "intrinsics_cx"; "intrinsics_cy"].

Definition dist_coeffs_keys : list string :=
  ["distortion_k1"; "distortion_k2"; "distortion_p1"; "distortion_p2";
   "distortion_k3"].

(** [[f(k) for k in ks]] *)
Fixpoint list_comp {A : Type} (f : string -> result A) (ks : list string)
  : result (list A) :=
  match ks with
  | [] => ret []
  | k :: ks' => a <- f k ;; l <- list_comp f ks' ;; ret (a :: l)
  end.

Definition undistort_element : string := "cameraundistort settings=cameraundistort0".

Definition add_camera_undistort (camera_settings : dict) : result (list string) :=
  if negb (all_in intrinsics_keys camera_settings) then ret []
  else if negb (all_in dist_coeffs_keys camera_settings) then ret []
  else
    (* [inl l]: the [except] clause returned [l]; [inr c]: the list built. *)
    tried <- try_except
               (c <- list_comp
                       (fun key => v <- Dict.getitem key camera_settings ;; py_float v)
                       dist_coeffs_keys ;;
                ret (inr c))
               (ret (inl [])) ;;
    match tried with
    | inl early => ret early
    | inr dist_coeffs =>
        if forallb (fun coef => SFeqb coef float_zero) dist_coeffs then ret []
        else ret [undistort_element]
    end.

Definition PipelineGenerator_init (camera_settings model_config : dict)
  : result PipelineGenerator :=
  let camera_chain := Dict.get_default "camerachain" VNone camera_settings in
  inference_model <-
    InferenceModel_init PipelineGenerator_models_folder camera_chain model_config ;;
  command <- Dict.getitem "command" camera_settings ;;
  input <- _parse_source_dyn command video_path ;;
  rules <- _apply_device_rule_set camera_settings inference_model ;;
  let timestamp :=
    ["gvapython class=PostDecodeTimestampCapture function=processFrame module="
     ++ gva_python_path ++ "/sscape_adapter.py name=timesync"] in
  undistort <-
    (if truthy (Dict.get_default "undistort" VNone camera_settings)
     then add_camera_undistort camera_settings
     else ret []) ;;
  ret {| camera_settings := camera_settings;
         inference_model := inference_model;
         input := input;
         decode := rule_decode rules;
         memory_uses_va_surfaces := rule_memory_uses_va_surfaces rules;
         memory_caps := rule_memory_caps rules;
         preprocessing_backend := rule_preprocessing_backend rules;
         post_gpu_inference_conversion := rule_post_gpu_inference_conversion rules;
         timestamp := timestamp;
         undistort := undistort;
         adapter :=
           [ "videoconvert";
             "video/x-raw,format=BGR";
             "gvapython class=PostInferenceDataPublish function=processFrame module="
             ++ gva_python_path ++ "/sscape_adapter.py name=datapublisher" ];
         metadata_conversion := ["gvametaconvert add-tensor-data=true name=metaconvert"];
         sink := ["appsink sync=true"] |}.

Definition with_inference_model (self : PipelineGenerator) (m : InferenceModel)
  : PipelineGenerator :=
  {| camera_settings := camera_settings self;
     inference_model := m;
     input := input self;
     decode := decode self;
     memory_uses_va_surfaces := memory_uses_va_surfaces self;
     memory_caps := memory_caps self;
     preprocessing_backend := preprocessing_backend self;
     post_gpu_inference_conversion := post_gpu_inference_conversion self;
     timestamp := timestamp self;
     undistort := undistort self;
     adapter := adapter self;
     metadata_conversion := metadata_conversion self;
     sink := sink self |}.

Definition override_sink (self : PipelineGenerator) (new_sink : string)
  : PipelineGenerator :=
  {| camera_settings := camera_settings self;
     inference_model := inference_model self;
     input := input self;
     decode := decode self;
     memory_uses_va_surfaces := memory_uses_va_surfaces self;
     memory_caps := memory_caps self;
     preprocessing_backend := preprocessing_backend self;
     post_gpu_inference_conversion := post_gpu_inference_conversion self;
     timestamp := timestamp self;
     undistort := undistort self;
     adapter := adapter self;
     metadata_conversion := metadata_conversion self;
     sink := [new_sink] |}.

(** The list [pipeline_components] that [generate] builds, with the object
    as [generate] leaves it (the backend is written into the model). *)
Definition generate_components (self : PipelineGenerator)
  : PipelineGenerator * list string :=
  let pipeline_components := [] in
  let pipeline_components := (pipeline_components ++ input self)%list in
  let pipeline_components := (pipeline_components ++ decode self)%list in
  let pipeline_components := (pipeline_components ++ memory_caps self)%list in
  let pipeline_components := (pipeline_components ++ undistort self)%list in
  let pipeline_components := (pipeline_components ++ timestamp self)%list in
  let self :=
    if negb (String.eqb (preprocessing_backend self) "") then
      with_inference_model self
        (set_preprocessing_backend (inference_model self) (preprocessing_backend self))
    else self in
  let model_chain := serialize (inference_model self) in
  let pipeline_components := (pipeline_components ++ model_chain)%list in
  let pipeline_components := (pipeline_components ++ ["queue"])%list in
  let pipeline_components := (pipeline_components ++ metadata_conversion self)%list in
  let pipeline_components :=
    if post_gpu_inference_conversion self then
      (pipeline_components ++ ["vapostproc"; "video/x-raw,format=BGRA"])%list
    else pipeline_components in
  let pipeline_components := (pipeline_components ++ adapter self)%list in
  let pipeline_components := (pipeline_components ++ sink self)%list in
  (self, pipeline_components).

Definition generate (self : PipelineGenerator) : PipelineGenerator * string :=
  let '(self, pipeline_components) := generate_components self in
  (self, PyStr.join " ! " pipeline_components).

(** [PipelineGenerator(camera_settings, model_config).generate()], the
    call made by [generate_pipeline_string_from_dict] once the model
    configuration file is loaded. *)
Definition generate_pipeline (camera_settings model_config : dict) : result string :=
  self <- PipelineGenerator_init camera_settings model_config ;;
  ret (snd (generate self)).

End WithBuiltins.

(* ===================================================================== *)
(** * An instance of the builtins *)

(** [float(s)] for the literals of CPython's grammar: surrounding white
    space, a sign, [inf], [infinity] or [nan] in any case, or decimal digits
    with an optional fraction and exponent, underscores allowed between
    digits; the value is rounded to the nearest double, ties to even. *)
Module FloatLiteral.
Import PyStr.

Definition is_float_space (c : ascii) : bool :=
  in_range 9 13 c || (code c =? 32)%nat || (code c =? 133)%nat || (code c =? 160)%nat.

Fixpoint lskip (s : string) : string :=
  match s with
  | EmptyString => EmptyString
  | String a s' => if is_float_space a then lskip s' else s
  end.

Fixpoint rskip (s : string) : string :=
  match s with
  | EmptyString => EmptyString
  | String a s' =>
      match rskip s' with
      | EmptyString => if is_float_space a then EmptyString else String a EmptyString
      | r => String a r
      end
  end.

(** An underscore stands after a digit and before a digit. *)
Fixpoint underscores_ok (prev : ascii) (s : string) : bool :=
  match s with
  | EmptyString => negb (Ascii.eqb prev "_")
  | String c s' =>
      (if Ascii.eqb c "_" then is_digit prev
       else negb (Ascii.eqb prev "_") || is_digit c)
      && underscores_ok c s'
  end.

Fixpoint remove_underscores (s : string) : string :=
  match s with
  | EmptyString => EmptyString
  | String c s' =>
      if Ascii.eqb c "_" then remove_underscores s' else String c (remove_underscores s')
  end.

Definition lower (c : ascii) : ascii :=
  if is_upper c then ascii_of_nat (code c + 32) else c.

Fixpoint lowercase (s : string) : string :=
  match s with
  | EmptyString => EmptyString
  | String c s' => String (lower c) (lowercase s')
  end.

(** The leading digits of [s] as a number, how many there are, the rest. *)
Fixpoint digits (acc : Z) (n : Z) (s : string) : Z * Z * string :=
  match s with
  | String c s' =>
      if is_digit c then digits (10 * acc + Z.of_nat (code c - 48)) (n + 1) s'
      else (acc, n, s)
  | EmptyString => (acc, n, s)
  end.

Definition sign (s : string) : bool * string :=
  match s with
  | String "-" s' => (true, s')
  | String "+" s' => (false, s')
  | _ => (false, s)
  end.

(** [e], a sign and at least one digit, up to the end of the string. *)
Definition exponent (s : string) : option Z :=
  match s with
  | EmptyString => Some 0%Z
  | String c s' =>
      if Ascii.eqb (lower c) "e" then
        let '(neg, s'') := sign s' in
        match digits 0 0 s'' with
        | (e, n, EmptyString) =>
            if (0 <? n)%Z then Some (if neg then (- e)%Z else e) else None
        | _ => None
        end
      else None
  end.

(** [m * 10 ^ e] rounded to a double. *)
Definition round_decimal (neg : bool) (m : Z) (e : Z) : spec_float :=
  match m with
  | Zpos p =>
      if (0 <=? e)%Z then
        binary_normalize 53 1024 (if neg then (- (m * 10 ^ e))%Z else (m * 10 ^ e)%Z) 0 neg
      else
        SFdiv 53 1024 (S754_finite neg p 0)
              (S754_finite false (Z.to_pos (10 ^ (- e))) 0)
  | _ => S754_zero neg
  end.

Definition decimal (neg : bool) (s : string) : option spec_float :=
  let '(ip, ni, s1) := digits 0 0 s in
  let '(m, nf, s2) :=
    match s1 with
    | String "." s1' => digits ip 0 s1'
    | _ => (ip, 0%Z, s1)
    end in
  if (0 <? ni + nf)%Z then
    match exponent s2 with
    | Some e => Some (round_decimal neg m (e - nf))
    | None => None
    end
  else None.

Definition parse (s : string) : option spec_float :=
  let s := rskip (lskip s) in
  if underscores_ok "000" s then
    let '(neg, body) := sign (remove_underscores s) in
    let word := lowercase body in
    if String.eqb word "inf" || String.eqb word "infinity" then Some (S754_infinity neg)
    else if String.eqb word "nan" then Some S754_nan
    else decimal neg body
  else None.

End FloatLiteral.

(** Builtins for programs whose parameters hold no float, list or dict:
    [str] is never asked for one of those. *)
Definition literal_builtins : Builtins :=
  {| float_of_str := FloatLiteral.parse;
     repr_other := fun _ => "" |}.

(* ===================================================================== *)
(** * The rest of the module: the configuration document *)

(** What the host can raise besides the exceptions of the generator:
    a missing list item, an integer key missing from a dict, and the
    failures of the file system, the JSON reader and OpenCV. *)
Inductive host_error : Type :=
| Raised (e : exn)
| IndexError
| IntKeyError (key : Z)
| OSError (msg : string)
| JSONDecodeError (msg : string)
| CvError (msg : string).

Definition outcome (A : Type) : Type := (host_error + A)%type.

Definition lift {A : Type} (r : result A) : outcome A :=
  match r with
  | inl e => inl (Raised e)
  | inr a => inr a
  end.

Definition obind {A B : Type} (m : outcome A) (k : A -> outcome B) : outcome B :=
  match m with
  | inl e => inl e
  | inr a => k a
  end.

Declare Scope outcome_scope.
Delimit Scope outcome_scope with outcome.
Notation "x <~ m ;; k" := (obind m (fun x => k))
  (at level 61, m at next level, right associativity) : outcome_scope.

(** What the module takes from its host: [os.environ.get(name)],
    [Path(p).is_file()], [json.load(open(p))], and the NumPy and OpenCV part
    of [generate_xml] (the two [np.array] conversions, the in-memory
    [cv2.FileStorage], its two writes and [releaseAndGetString]). *)
Class Host : Type := {
  environ : string -> option string;
  is_file : string -> bool;
  load_json : string -> outcome pyval;
  cv_write : pyval -> pyval -> outcome string
}.

Section WithHost.
Context {B : Builtins} {H : Host}.
Local Open Scope outcome_scope.

Definition get_input_format (self : InferenceModel) : string :=
  input_format (params self).

(** What [_load_params] raises when the loaded JSON document is no dict:
    [model_name in model_config] is a substring test on a string, a
    membership test on a list and a [TypeError] on anything else, and a
    string or a list cannot be indexed by the name. *)
Definition _load_params_nondict (model_config : pyval) (model_name : string) : exn :=
  if String.eqb model_name "" then
    ValueError "No model name provided for model expression"
  else
    match model_config with
    | VStr s =>
        if PyStr.has_substring model_name s then TypeError
        else ValueError ("Model " ++ model_name ++ " not found in model config file.")
    | VList l =>
        if existsb (fun item => eq_str item model_name) l then TypeError
        else ValueError ("Model " ++ model_name ++ " not found in model config file.")
    | _ => TypeError
    end.

(** [PipelineGenerator(form, model_config).generate()] on whatever the JSON
    document is. *)
Definition generate_with_config (form_data_dict : dict) (model_config : pyval)
  : result string :=
  match model_config with
  | VDict d => generate_pipeline form_data_dict d
  | _ =>
      let camera_chain := Dict.get_default "camerachain" VNone form_data_dict in
      (parsed <- _parse_model_expr_dyn camera_chain ;;
       raise (_load_params_nondict model_config (fst parsed)))%result
  end.

Definition generate_pipeline_string_from_dict (form_data_dict : dict)
  : outcome string :=
  let folder :=
    match environ "MODEL_CONFIGS_FOLDER" with
    | Some f => f
    | None => "/models/model_configs"
    end in
  let chosen := Dict.get_default "modelconfig" VNone form_data_dict in
  let file_name := if truthy chosen then chosen else VStr "model_config.json" in
  match file_name with
  | VStr n =>
      let model_config_path := PurePath.join_str folder n in
      if negb (is_file model_config_path) then
        inl (Raised (ValueError ("Model config file '" ++ model_config_path
                                 ++ "' does not exist.")))
      else
        model_config <~ load_json model_config_path ;;
        lift (generate_with_config form_data_dict model_config)
  | _ => inl (Raised TypeError)
  end.

(* ------------------------------------------------------------------- *)
(** ** class PipelineConfigGenerator *)

Definition CONFIG_TEMPLATE : pyval :=
  VDict
    [ ("config",
       VDict
         [ ("logging",
            VDict [ ("C_LOG_LEVEL", VStr "INFO"); ("PY_LOG_LEVEL", VStr "INFO") ]);
           ("pipelines",
            VList
              [ VDict
                  [ ("name", VStr "");
                    ("source", VStr "gstreamer");
                    ("pipeline", VStr "");
                    ("auto_start", VBool true);
                    ("parameters",
                     VDict
                       [ ("type", VStr "object");
                         ("properties",
                          VDict
                            [ ("undistort_config",
                               VDict
                                 [ ("element",
                                    VDict [ ("name", VStr "cameraundistort0");
                                            ("property", VStr "settings");
                                            ("format", VStr "xml") ]);
                                   ("type", VStr "string") ]);
                              ("camera_config",
                               VDict
                                 [ ("element",
                                    VDict [ ("name", VStr "datapublisher");
                                            ("property", VStr "kwarg");
                                            ("format", VStr "json") ]);
                                   ("type", VStr "object");
                                   ("properties",
                                    VDict
                                      [ ("cameraid", VDict [ ("type", VStr "string") ]);
                                        ("metadatagenpolicy",
                                         VDict
                                           [ ("type", VStr "string");
                                             ("description",
                                              VStr "Meta data generation policy, one of detectionPolicy(default),reidPolicy,classificationPolicy") ]);
                                        ("publish_frame",
                                         VDict
                                           [ ("type", VStr "boolean");
                                             ("description", VStr "Publish frame to mqtt") ]) ]) ]) ]) ]);
                    ("payload",
                     VDict
                       [ ("parameters",
                          VDict
                            [ ("undistort_config", VStr "");
                              ("camera_config",
                               VDict [ ("cameraid", VStr "");
                                       ("metadatagenpolicy", VStr "") ]) ]) ]) ] ]) ]) ].

Record PipelineConfigGenerator : Type := {
  name : pyval;
  camera_id : pyval;
  pipeline : pyval;
  metadata_policy : string;
  config_dict : pyval
}.

(** [v[k]] for a string [k]: only a dict can be read so. *)
Definition subscript (v : pyval) (k : string) : outcome pyval :=
  match v with
  | VDict d => lift (Dict.getitem k d)
  | _ => inl (Raised TypeError)
  end.

(** [v[0]] *)
Definition first_item (v : pyval) : outcome pyval :=
  match v with
  | VList (x :: _) => inr x
  | VList [] => inl IndexError
  | VStr (String c _) => inr (VStr (String c EmptyString))
  | VStr EmptyString => inl IndexError
  | VDict _ => inl (IntKeyError 0)
  | _ => inl (Raised TypeError)
  end.

(** [v[k] = x] for a string [k]: only a dict can be written so. *)
Definition store (k : string) (x : pyval) (v : pyval) : outcome pyval :=
  match v with
  | VDict d => inr (VDict (Dict.set k x d))
  | _ => inl (Raised TypeError)
  end.

(** One step from a container to an object it holds: [v[key]] or [v[0]]. *)
Inductive step : Type :=
| Key (key : string)
| Item0.

Definition follow (s : step) (v : pyval) : outcome pyval :=
  match s with
  | Key k => subscript v k
  | Item0 => first_item v
  end.

(** The container [v] once the object one step away has become [x]: the
    object is shared, not copied, so its container shows the change. *)
Definition shared (s : step) (x : pyval) (v : pyval) : pyval :=
  match s, v with
  | Key k, VDict d => VDict (Dict.set k x d)
  | Item0, VList (_ :: rest) => VList (x :: rest)
  | _, _ => v
  end.

(** [v[s1]...[sn][k] = x] *)
Fixpoint store_at (path : list step) (k : string) (x : pyval) (v : pyval)
  : outcome pyval :=
  match path with
  | [] => store k x v
  | s :: rest =>
      child <~ follow s v ;;
      child <~ store_at rest k x child ;;
      inr (shared s child v)
  end.

(** [pipeline_cfg = self.config_dict["config"]["pipelines"][0]] *)
Definition pipeline_cfg : list step := [Key "config"; Key "pipelines"; Item0].

(** [sub in v] *)
Definition py_contains (sub : string) (v : pyval) : outcome bool :=
  match v with
  | VStr s => inr (PyStr.has_substring sub s)
  | VList l => inr (existsb (fun item => eq_str item sub) l)
  | VDict d => inr (Dict.mem sub d)
  | _ => inl (Raised TypeError)
  end.

Definition get_camera_intrinsics_matrix (camera_settings : dict) : outcome pyval :=
  fx <~ lift (Dict.getitem "intrinsics_fx" camera_settings) ;;
  cx <~ lift (Dict.getitem "intrinsics_cx" camera_settings) ;;
  fy <~ lift (Dict.getitem "intrinsics_fy" camera_settings) ;;
  cy <~ lift (Dict.getitem "intrinsics_cy" camera_settings) ;;
  inr (VList [ VList [fx; VInt 0; cx];
               VList [VInt 0; fy; cy];
               VList [VInt 0; VInt 0; VInt 1] ]).

Definition get_camera_dist_coeffs (camera_settings : dict) : outcome pyval :=
  k1 <~ lift (Dict.getitem "distortion_k1" camera_settings) ;;
  k2 <~ lift (Dict.getitem "distortion_k2" camera_settings) ;;
  p1 <~ lift (Dict.getitem "distortion_p1" camera_settings) ;;
  p2 <~ lift (Dict.getitem "distortion_p2" camera_settings) ;;
  k3 <~ lift (Dict.getitem "distortion_k3" camera_settings) ;;
  inr (VList [k1; k2; p1; p2; k3]).

(** [s.replace(c, '')] for a one-character [c]. *)
Fixpoint remove_char (c : ascii) (s : string) : string :=
  match s with
  | EmptyString => EmptyString
  | String a s' => if Ascii.eqb a c then remove_char c s' else String a (remove_char c s')
  end.

Definition generate_xml (camera_intrinsics dist_coeffs : pyval) : outcome string :=
  xml_string <~ cv_write camera_intrinsics dist_coeffs ;;
  inr (remove_char "013" (remove_char "010" xml_string)).

(** The constructor.  [pipeline_cfg] names the dict inside the copy of the
    template, so an assignment through it is an assignment at that place of
    [self.config_dict]. *)
Definition PipelineConfigGenerator_init (camera_settings : dict)
  : outcome PipelineConfigGenerator :=
  name <~ lift (Dict.getitem "name" camera_settings) ;;
  camera_id <~ lift (Dict.getitem "sensor_id" camera_settings) ;;
  pipeline <~
    (if negb (truthy (Dict.get_default "camera_pipeline" VNone camera_settings)) then
       generated <~ generate_pipeline_string_from_dict camera_settings ;;
       inr (VStr generated)
     else lift (Dict.getitem "camera_pipeline" camera_settings)) ;;
  let metadata_policy := "detectionPolicy" in
  let config_dict := CONFIG_TEMPLATE in
  config_dict <~ store_at pipeline_cfg "name" name config_dict ;;
  config_dict <~ store_at pipeline_cfg "pipeline" pipeline config_dict ;;
  undistorted <~ py_contains "cameraundistort" pipeline ;;
  config_dict <~
    (if undistorted then
       intrinsics <~ get_camera_intrinsics_matrix camera_settings ;;
       dist_coeffs <~ get_camera_dist_coeffs camera_settings ;;
       xml <~ generate_xml intrinsics dist_coeffs ;;
       store_at (pipeline_cfg ++ [Key "payload"; Key "parameters"])%list
         "undistort_config" (VStr xml) config_dict
     else inr config_dict) ;;
  config_dict <~
    store_at (pipeline_cfg ++ [Key "payload"; Key "parameters"; Key "camera_config"])%list
      "cameraid" camera_id config_dict ;;
  config_dict <~
    store_at (pipeline_cfg ++ [Key "payload"; Key "parameters"; Key "camera_config"])%list
      "metadatagenpolicy" (VStr metadata_policy) config_dict ;;
  inr {| name := name;
         camera_id := camera_id;
         pipeline := pipeline;
         metadata_policy := metadata_policy;
         config_dict := config_dict |}.

Definition get_config_as_dict (self : PipelineConfigGenerator) : pyval :=
  config_dict self.

End WithHost.

(* ===================================================================== *)
(** * What the design document says, in its own terms *)

Module Spec.
Import PyStr.

Fixpoint all_chars (p : ascii -> bool) (s : string) : bool :=
  match s with
  | EmptyString => true
  | String c s' => p c && all_chars p s'
  end.

Definition first_char (s : string) : option ascii :=
  match s with
  | EmptyString => None
  | String c _ => Some c
  end.

Fixpoint last_char (s : string) : option ascii :=
  match s with
  | EmptyString => None
  | String c EmptyString => Some c
  | String _ s' => last_char s'
  end.

(** [c] occurs in [s]. *)
Definition Occurs (c : ascii) (s : string) : Prop :=
  exists a b, s = a ++ String c b.

(** [t] is [s] without its surrounding white space. *)
Definition Trimmed (s t : string) : Prop :=
  exists l r,
    s = l ++ t ++ r /\
    all_chars is_space l = true /\ all_chars is_space r = true /\
    (forall c, first_char t = Some c -> is_space c = false) /\
    (forall c, last_char t = Some c -> is_space c = false).

(** The two shapes of a model expression: no ['='] at all, or a name
    segment free of ['='] followed by ['='] and a device segment. *)
Inductive Segments : string -> string -> option string -> Prop :=
| Segments_name : forall e,
    ~ Occurs "=" e -> Segments e e None
| Segments_name_device : forall n d,
    ~ Occurs "=" n -> Segments (n ++ String "=" d) n (Some d).

Definition TrimmedOpt (o o' : option string) : Prop :=
  match o, o' with
  | None, None => True
  | Some d, Some d' => Trimmed d d'
  | _, _ => False
  end.

(** [^[A-Za-z][A-Za-z0-9_-]*$] read as: a letter, then only letters,
    digits, underscores and hyphens up to the end. *)
Definition name_pattern (s : string) : bool :=
  match s with
  | EmptyString => false
  | String c s' => is_alpha c && all_chars NameRegex.is_name_char s'
  end.

End Spec.

Module ConfigSpec.

(** The default set of the design document. *)
Definition default_set : dict :=
  [ ("scheduling-policy", VStr "latency");
    ("batch-size", VStr "1");
    ("inference-interval", VStr "1") ].

(** The two messages by which resolution reports a model it cannot find. *)
Definition ModelNotFound (name : string) (e : exn) : Prop :=
  e = ValueError "No model name provided for model expression" \/
  e = ValueError ("Model " ++ name ++ " not found in model config file.").

(** [merged] is [base] overlaid with [over]: the value of [over] wins on a
    shared key, every other key keeps the value of [base], and the keys
    come in insertion order, those of [base] first, then the keys only
    [over] has, in the order of [over]. *)
Definition Overlay (base over merged : dict) : Prop :=
  (forall k v, Dict.get k over = Some v -> Dict.get k merged = Some v) /\
  (forall k, Dict.get k over = None -> Dict.get k merged = Dict.get k base) /\
  Dict.keys merged =
    (Dict.keys base ++ filter (fun k => negb (Dict.mem k base)) (Dict.keys over))%list.

Definition example_model_config : dict :=
  [ ("retail",
     VDict [ ("type", VStr "detect");
             ("params", VDict [ ("model", VStr "intel/retail.xml");
                                ("batch-size", VInt 4);
                                ("threshold", VStr "0.5") ]) ]);
    ("bare", VDict [ ("type", VStr "classify") ]) ].

Definition example_loaded : Params :=
  {| input_format := "";
     model_type := VStr "detect";
     model_params :=
       [ ("scheduling-policy", VStr "latency");
         ("batch-size", VInt 4);
         ("inference-interval", VStr "1");
         ("model", VStr "/home/pipeline-server/models/intel/retail.xml");
         ("threshold", VStr "0.5") ] |}.

End ConfigSpec.

Module SerializeSpec.
Import Spec.

(** A string value is quoted when it holds a space, [;] or [!], or is
    empty. *)
Definition NeedsQuotes (s : string) : Prop :=
  s = "" \/ Occurs " " s \/ Occurs ";" s \/ Occurs "!" s.

End SerializeSpec.

Module DeviceSpec.

Inductive DecodeDevice : Type := CPU | GPU | AUTO.

Definition decode_name (d : DecodeDevice) : string :=
  match d with CPU => "CPU" | GPU => "GPU" | AUTO => "AUTO" end.

(** The camera settings select decode device [d]; unset means [AUTO]. *)
Definition Selects (cs : dict) (d : DecodeDevice) : Prop :=
  Dict.get "cv_subsystem" cs = Some (VStr (decode_name d)) \/
  (d = AUTO /\ Dict.get "cv_subsystem" cs = None).

(** The decision table of decode stages. *)
Definition decode_stages (d : DecodeDevice) : list string :=
  match d with
  | CPU => ["decodebin force-sw-decoders=true"; "videoconvert"]
  | GPU => ["decodebin3"; "vapostproc"]
  | AUTO => ["decodebin3"]
  end.

Definition device_surface_marker : string := "video/x-raw(memory:VAMemory)".
Definition raw_frame_marker : string := "video/x-raw".

(** The model that [InferenceModel(models_folder, "retail=GPU", config)]
    builds from [ConfigSpec.example_model_config]. *)
Definition example_model_gpu : InferenceModel :=
  {| models_folder := "/home/pipeline-server/models";
     model_expr := VStr "retail=GPU";
     model_config := ConfigSpec.example_model_config;
     model_name := "retail";
     device := Some "GPU";
     params :=
       {| input_format := "";
          model_type := VStr "detect";
          model_params :=
            [ ("scheduling-policy", VStr "latency");
              ("batch-size", VInt 4);
              ("inference-interval", VStr "1");
              ("model", VStr "/home/pipeline-server/models/intel/retail.xml");
              ("threshold", VStr "0.5");
              ("device", VStr "GPU") ] |};
     inference_element := "gvadetect" |}.

End DeviceSpec.

Module SourceSpec.

(** The tail of the message raised for an unsupported source. *)
Definition supported_sources : string :=
  ". Supported types are 'rtsp://...' (raw H.264), 'http(s)://...' (MJPEG) and 'file://... (relative to video folder)'.".

End SourceSpec.

Module UndistortSpec.

Definition KeysPresent (ks : list string) (cs : dict) : Prop :=
  forall k, In k ks -> exists v, Dict.get k cs = Some v.

Definition AllZero (coefs : list spec_float) : Prop :=
  Forall (fun c => SFeqb c float_zero = true) coefs.

(** Calibrated settings whose intrinsics are not numbers. *)
Definition example_bad_intrinsics : dict :=
  [ ("intrinsics_fx", VStr "wide"); ("intrinsics_fy", VNone);
    ("intrinsics_cx", VInt 320); ("intrinsics_cy", VInt 240);
    ("distortion_k1", VStr "-0.12"); ("distortion_k2", VInt 0);
    ("distortion_p1", VInt 0); ("distortion_p2", VInt 0);
    ("distortion_k3", VInt 0) ].

End UndistortSpec.

Module AssemblySpec.

Definition chain_link : string := " ! ".

Definition timestamp_stage : string :=
  "gvapython class=PostDecodeTimestampCapture function=processFrame module=/home/pipeline-server/user_scripts/gvapython/sscape/sscape_adapter.py name=timesync".

Definition queue_stage : string := "queue".

Definition metadata_conversion_stage : string :=
  "gvametaconvert add-tensor-data=true name=metaconvert".

Definition post_inference_conversion : list string :=
  ["vapostproc"; "video/x-raw,format=BGRA"].

Definition adapter_stages : list string :=
  [ "videoconvert";
    "video/x-raw,format=BGR";
    "gvapython class=PostInferenceDataPublish function=processFrame module=/home/pipeline-server/user_scripts/gvapython/sscape/sscape_adapter.py name=datapublisher" ].

Definition sink_stage : string := "appsink sync=true".

(** The fixed order of the stages of a pipeline. *)
Definition stage_order (source decode : list string) (memory : string)
  (undistort : list string) (inference : string) (gpu_inference : bool)
  : list string :=
  (source ++ decode ++ [memory] ++ undistort ++ [timestamp_stage]
   ++ [inference] ++ [queue_stage] ++ [metadata_conversion_stage]
   ++ (if gpu_inference then post_inference_conversion else [])
   ++ adapter_stages ++ [sink_stage])%list.

Definition calibration_keys : list string :=
  [ "intrinsics_fx"; "intrinsics_fy"; "intrinsics_cx"; "intrinsics_cy";
    "distortion_k1"; "distortion_k2"; "distortion_p1"; "distortion_p2";
    "distortion_k3" ].

(** The ['undistort'] entry is absent or falsy. *)
Definition UndistortOff (cs : dict) : Prop :=
  Dict.get "undistort" cs = None \/
  exists v, Dict.get "undistort" cs = Some v /\ truthy v = false.

(** The object the constructor returns once its four parts are computed. *)
Definition built (cs : dict) (im : InferenceModel) (source : list string)
  (rules : DeviceRules) (und : list string) : PipelineGenerator :=
  {| camera_settings := cs;
     inference_model := im;
     input := source;
     decode := rule_decode rules;
     memory_uses_va_surfaces := rule_memory_uses_va_surfaces rules;
     memory_caps := rule_memory_caps rules;
     preprocessing_backend := rule_preprocessing_backend rules;
     post_gpu_inference_conversion := rule_post_gpu_inference_conversion rules;
     timestamp := [timestamp_stage];
     undistort := und;
     adapter := adapter_stages;
     metadata_conversion := [metadata_conversion_stage];
     sink := [sink_stage] |}.

(** No stage but the undistortion stage begins with [ca]. *)
Definition other_stage (s : string) : Prop := PyStr.startswith "ca" s = false.

(** A calibrated RTSP camera with GPU decode and GPU inference. *)
Definition example_camera (undistort_flag : pyval) : dict :=
  [ ("name", VStr "cam1"); ("sensor_id", VStr "cam1");
    ("camerachain", VStr "retail=GPU");
    ("command", VStr "rtsp://10.0.0.7:8554/live");
    ("cv_subsystem", VStr "GPU");
    ("undistort", undistort_flag);
    ("intrinsics_fx", VFloat (S754_finite false 7958684393832448 (-43)));
    ("intrinsics_fy", VStr "904.8");
    ("intrinsics_cx", VInt 640); ("intrinsics_cy", VInt 360);
    ("distortion_k1", VStr "-0.12"); ("distortion_k2", VStr "0.03");
    ("distortion_p1", VInt 0); ("distortion_p2", VInt 0);
    ("distortion_k3", VStr "0.0") ].

Definition example_inference_stage : string :=
  "gvadetect scheduling-policy=latency batch-size=4 inference-interval=1 model=/home/pipeline-server/models/intel/retail.xml threshold=0.5 device=GPU pre-process-backend=va-surface-sharing".

Definition example_descriptor (undistort : list string) : string :=
  PyStr.join " ! "
    (["rtspsrc location=rtsp://10.0.0.7:8554/live latency=200 name=source";
      "rtph264depay"; "h264parse";
      "decodebin3"; "vapostproc";
      "video/x-raw(memory:VAMemory)"]
     ++ undistort
     ++ [timestamp_stage; example_inference_stage; "queue";
         metadata_conversion_stage;
         "vapostproc"; "video/x-raw,format=BGRA";
         "videoconvert"; "video/x-raw,format=BGR";
         "gvapython class=PostInferenceDataPublish function=processFrame module=/home/pipeline-server/user_scripts/gvapython/sscape/sscape_adapter.py name=datapublisher";
         "appsink sync=true"])%list.

End AssemblySpec.

(** Definitions of the statements that call the builtins. *)
Section ProgramSpec.
Context {B : Builtins}.

(** What [_load_params] does once the name is found in the mapping. *)
Definition load_found (folder : string) (config : pyval) : result Params :=
  input_format_dict <- call_get config "input-format" (VDict []) ;;
  color_space <- call_get input_format_dict "color-space" (VStr "") ;;
  raw_params <- call_get config "params" (VDict []) ;;
  resolved <- _resolve_paths folder raw_params ;;
  model_type <- call_get config "type" VNone ;;
  ret {| input_format :=
           if truthy color_space then "format=" ++ py_str color_space else "";
         model_type := model_type;
         model_params := _set_default_params resolved |}.

(** The error raised for a decode device outside CPU, GPU, AUTO. *)
Definition UnsupportedDecodeDevice (decode_device : pyval) (e : exn) : Prop :=
  e = ValueError ("Unsupported decode device: " ++ py_str decode_device
                  ++ ". Supported values are 'CPU', 'GPU', 'AUTO'.").

(** The values under [ks] convert, by [float], to the numbers [coefs]. *)
Definition Converts (cs : dict) (ks : list string) (coefs : list spec_float) : Prop :=
  Forall2 (fun k c => exists v, Dict.get k cs = Some v /\ py_float v = inr c) ks coefs.

(** The undistortion stages the constructor stores. *)
Definition undistort_choice (cs : dict) : result (list string) :=
  if truthy (Dict.get_default "undistort" VNone cs)
  then add_camera_undistort cs else ret [].

End ProgramSpec.

(* ===================================================================== *)
(** * Further properties: the definitions their statements use *)

Module More.

(** The expression that a parsed name and device stand for. *)
Definition rejoin (n : string) (od : option string) : string :=
  match od with
  | None => n
  | Some d => n ++ "=" ++ d
  end.

Definition is_path_key (k : string) : bool :=
  String.eqb k "model" || String.eqb k "model_proc".

(** A parameter as [_resolve_paths] leaves it. *)
Definition resolved_item (folder : string) (kv : string * pyval) : string * pyval :=
  match kv with
  | (k, VStr p) => if is_path_key k then (k, VStr (PurePath.join_str folder p)) else kv
  | _ => kv
  end.

(** A path parameter has to hold a string. *)
Definition path_item_ok (kv : string * pyval) : Prop :=
  is_path_key (fst kv) = true -> exists p, snd kv = VStr p.

Definition default_keys : list string :=
  ["scheduling-policy"; "batch-size"; "inference-interval"].

(** The keys of the camera settings that generation reads. *)
Definition read_keys : list string :=
  [ "camerachain"; "command"; "cv_subsystem"; "undistort";
    "intrinsics_fx"; "intrinsics_fy"; "intrinsics_cx"; "intrinsics_cy";
    "distortion_k1"; "distortion_k2"; "distortion_p1"; "distortion_p2";
    "distortion_k3" ].

(** The parameters of a model once the device of the expression is set. *)
Definition with_device (loaded : Params) (od : option string) : Params :=
  match od with
  | Some d => with_model_params loaded (Dict.set "device" (VStr d) (model_params loaded))
  | None => loaded
  end.


End More.

Module Document.

(** The configuration document with its five changing places filled: the
    template of the class with the pipeline's name and text, the undistort
    settings, the camera id and the metadata policy. *)
Definition document (name pipeline undistort_config camera_id policy : pyval) : pyval :=
  VDict
    [ ("config",
       VDict
         [ ("logging",
            VDict [ ("C_LOG_LEVEL", VStr "INFO"); ("PY_LOG_LEVEL", VStr "INFO") ]);
           ("pipelines",
            VList
              [ VDict
                  [ ("name", name);
                    ("source", VStr "gstreamer");
                    ("pipeline", pipeline);
                    ("auto_start", VBool true);
                    ("parameters",
                     VDict
                       [ ("type", VStr "object");
                         ("properties",
                          VDict
                            [ ("undistort_config",
                               VDict
                                 [ ("element",
                                    VDict [ ("name", VStr "cameraundistort0");
                                            ("property", VStr "settings");
                                            ("format", VStr "xml") ]);
                                   ("type", VStr "string") ]);
                              ("camera_config",
                               VDict
                                 [ ("element",
                                    VDict [ ("name", VStr "datapublisher");
                                            ("property", VStr "kwarg");
                                            ("format", VStr "json") ]);
                                   ("type", VStr "object");
                                   ("properties",
                                    VDict
                                      [ ("cameraid", VDict [ ("type", VStr "string") ]);
                                        ("metadatagenpolicy",
                                         VDict
                                           [ ("type", VStr "string");
                                             ("description",
                                              VStr "Meta data generation policy, one of detectionPolicy(default),reidPolicy,classificationPolicy") ]);
                                        ("publish_frame",
                                         VDict
                                           [ ("type", VStr "boolean");
                                             ("description", VStr "Publish frame to mqtt") ]) ]) ]) ]) ]);
                    ("payload",
                     VDict
                       [ ("parameters",
                          VDict
                            [ ("undistort_config", undistort_config);
                              ("camera_config",
                               VDict [ ("cameraid", camera_id);
                                       ("metadatagenpolicy", policy) ]) ]) ]) ] ]) ]) ].

(** The order in which the constructor reads the calibration. *)
Definition calibration_read_order : list string :=
  [ "intrinsics_fx"; "intrinsics_cx"; "intrinsics_fy"; "intrinsics_cy";
    "distortion_k1"; "distortion_k2"; "distortion_p1"; "distortion_p2";
    "distortion_k3" ].

(** The camera matrix and the coefficients read from the settings. *)
Definition camera_matrix (fx fy cx cy : pyval) : pyval :=
  VList [ VList [fx; VInt 0; cx]; VList [VInt 0; fy; cy];
          VList [VInt 0; VInt 0; VInt 1] ].

(** The [modelconfig] entry is absent or falsy. *)
Definition NoModelConfig (form : dict) : Prop :=
  Dict.get "modelconfig" form = None \/
  exists v, Dict.get "modelconfig" form = Some v /\ truthy v = false.

(** The file name the form asks for: the default one, or the non-empty
    string under [modelconfig]. *)
Inductive ConfigName (form : dict) : string -> Prop :=
| ConfigName_default :
    NoModelConfig form -> ConfigName form "model_config.json"
| ConfigName_given : forall n,
    Dict.get "modelconfig" form = Some (VStr n) -> n <> "" -> ConfigName form n.

Definition line_feed : string := String "010" EmptyString.
Definition carriage_return : string := String "013" EmptyString.

(** A host with the default configuration file and nothing else, whose
    OpenCV writes a storage over several lines. *)
Definition example_host : Host :=
  {| environ := fun _ => None;
     is_file := fun p => String.eqb p "/models/model_configs/model_config.json";
     load_json := fun _ => inr (VDict ConfigSpec.example_model_config);
     cv_write := fun _ _ =>
       inr ("<?xml version='1.0'?>" ++ line_feed ++ "<opencv_storage>"
            ++ carriage_return ++ line_feed ++ "</opencv_storage>" ++ line_feed) |}.

(** A host without any file. *)
Definition bare_host : Host :=
  {| environ := fun _ => Some "/srv/configs";
     is_file := fun _ => false;
     load_json := fun _ => inl (OSError "No such file or directory");
     cv_write := fun _ _ => inl (CvError "no storage") |}.

(** A camera whose stored pipeline text has the undistortion stage, with
    its calibration. *)
Definition door_camera : dict :=
  [ ("name", VStr "door"); ("sensor_id", VStr "cam1");
    ("camera_pipeline", VStr "videotestsrc ! cameraundistort settings=cameraundistort0 ! fakesink");
    ("intrinsics_fx", VInt 905); ("intrinsics_fy", VInt 905);
    ("intrinsics_cx", VInt 640); ("intrinsics_cy", VInt 360);
    ("distortion_k1", VInt 0); ("distortion_k2", VInt 0);
    ("distortion_p1", VInt 0); ("distortion_p2", VInt 0);
    ("distortion_k3", VInt 0) ].

(** A camera with only a name, an id and a pipeline text. *)
Definition plain_camera : dict :=
  [ ("name", VStr "yard"); ("sensor_id", VStr "cam2");
    ("camera_pipeline", VStr "videotestsrc ! fakesink") ].

(** A camera without a pipeline text, to be generated with the
    undistortion stage. *)
Definition generated_camera : dict :=
  ("name", VStr "gate") :: ("sensor_id", VStr "cam3")
  :: AssemblySpec.example_camera (VBool true).

End Document.

Section HostSpec.
Context {B : Builtins} {H : Host}.
Import Document.
Local Open Scope outcome_scope.

(** [os.environ.get('MODEL_CONFIGS_FOLDER', '/models/model_configs')] *)
Definition configs_folder : string :=
  match environ "MODEL_CONFIGS_FOLDER" with
  | Some f => f
  | None => "/models/model_configs"
  end.

(** The five assignments of the constructor, on the template. *)
Definition filled (n p : pyval) (u : option pyval) (c : pyval) : outcome pyval :=
  config_dict <~ store_at pipeline_cfg "name" n CONFIG_TEMPLATE ;;
  config_dict <~ store_at pipeline_cfg "pipeline" p config_dict ;;
  config_dict <~
    match u with
    | Some xml =>
        store_at (pipeline_cfg ++ [Key "payload"; Key "parameters"])%list
          "undistort_config" xml config_dict
    | None => inr config_dict
    end ;;
  config_dict <~
    store_at (pipeline_cfg ++ [Key "payload"; Key "parameters"; Key "camera_config"])%list
      "cameraid" c config_dict ;;
  store_at (pipeline_cfg ++ [Key "payload"; Key "parameters"; Key "camera_config"])%list
    "metadatagenpolicy" (VStr "detectionPolicy") config_dict.

(** The constructor, its three phases apart: the two identifiers, the
    pipeline text, the XML of the undistort settings. *)
Definition chosen_pipeline (cs : dict) : outcome pyval :=
  if negb (truthy (Dict.get_default "camera_pipeline" VNone cs)) then
    generated <~ generate_pipeline_string_from_dict cs ;;
    inr (VStr generated)
  else lift (Dict.getitem "camera_pipeline" cs).

Definition undistort_xml (cs : dict) (p : pyval) : outcome (option pyval) :=
  undistorted <~ py_contains "cameraundistort" p ;;
  if undistorted then
    intrinsics <~ get_camera_intrinsics_matrix cs ;;
    dist_coeffs <~ get_camera_dist_coeffs cs ;;
    xml <~ generate_xml intrinsics dist_coeffs ;;
    inr (Some (VStr xml))
  else inr None.

(** Where the pipeline text of a camera comes from: the settings hold one
    (any truthy value under [camera_pipeline]), or one is generated. *)
Inductive PipelineText (cs : dict) : pyval -> Prop :=
| PipelineText_given : forall p,
    Dict.get "camera_pipeline" cs = Some p -> truthy p = true ->
    PipelineText cs p
| PipelineText_generated : forall s,
    truthy (Dict.get_default "camera_pipeline" VNone cs) = false ->
    generate_pipeline_string_from_dict cs = inr s ->
    PipelineText cs (VStr s).

(** The first calibration key, in the order of reading, that the settings
    lack. *)
Definition first_missing (cs : dict) : option string :=
  find (fun k => negb (Dict.mem k cs)) calibration_read_order.

End HostSpec.

(* ===================================================================== *)
(** * Lemmas on strings *)

Section StringLemmas.
Import PyStr Spec.

Lemma append_nil_r (s : string) : s ++ "" = s.
Proof. induction s; simpl; congruence. Qed.

Lemma contains_app (c : ascii) (a b : string) :
  contains c (a ++ b) = contains c a || contains c b.
Proof.
  induction a as [|x a IH]; simpl; [reflexivity|].
  rewrite IH. now rewrite orb_assoc.
Qed.

Lemma split_once_app (c : ascii) (n d : string) :
  contains c n = false -> split_once c (n ++ String c d) = (n, d).
Proof.
  induction n as [|x n IH]; simpl; intros H.
  - now rewrite Ascii.eqb_refl.
  - apply orb_false_iff in H as [Hx Hn].
    rewrite Hx, (IH Hn). reflexivity.
Qed.

Lemma contains_split (c : ascii) (e : string) :
  contains c e = true ->
  exists n d, e = n ++ String c d /\ contains c n = false.
Proof.
  induction e as [|x e IH]; simpl; intros H; [discriminate|].
  destruct (Ascii.eqb x c) eqn:Hx.
  - apply Ascii.eqb_eq in Hx. subst. now exists "", e.
  - destruct (IH H) as (n & d & -> & Hn).
    exists (String x n), d. simpl. now rewrite Hx.
Qed.

Lemma contains_Occurs (c : ascii) (s : string) :
  contains c s = true <-> Occurs c s.
Proof.
  split.
  - intros H. destruct (contains_split _ _ H) as (n & d & E & _). now exists n, d.
  - intros (a & b & ->). rewrite contains_app. simpl.
    rewrite Ascii.eqb_refl. now rewrite orb_true_r.
Qed.

Lemma contains_false (c : ascii) (s : string) :
  contains c s = false <-> ~ Occurs c s.
Proof.
  rewrite <- contains_Occurs. destruct (contains c s); split; congruence.
Qed.

Lemma Segments_total (e : string) : exists n od, Segments e n od.
Proof.
  destruct (contains "=" e) eqn:H.
  - destruct (contains_split _ _ H) as (n & d & -> & Hn).
    exists n, (Some d). constructor. now apply contains_false.
  - exists e, None. constructor. now apply contains_false.
Qed.

Lemma lstrip_spaces (l s : string) :
  all_chars is_space l = true -> lstrip (l ++ s) = lstrip s.
Proof.
  induction l as [|x l IH]; simpl; intros H; [reflexivity|].
  apply andb_true_iff in H as [Hx Hl]. now rewrite Hx, IH.
Qed.

Lemma lstrip_all_space (r : string) :
  all_chars is_space r = true -> lstrip r = "".
Proof.
  intros H. rewrite <- (append_nil_r r). now rewrite lstrip_spaces.
Qed.

Lemma lstrip_fixed (t r : string) :
  (forall c, first_char t = Some c -> is_space c = false) ->
  all_chars is_space r = true ->
  lstrip (t ++ r) = match t with EmptyString => "" | _ => t ++ r end.
Proof.
  intros Hf Hr. destruct t as [|c t]; simpl.
  - now apply lstrip_all_space.
  - now rewrite (Hf c eq_refl).
Qed.

Lemma rstrip_all_space (r : string) :
  all_chars is_space r = true -> rstrip r = "".
Proof.
  induction r as [|x r IH]; simpl; intros H; [reflexivity|].
  apply andb_true_iff in H as [Hx Hr]. now rewrite (IH Hr), Hx.
Qed.

Lemma rstrip_fixed (t r : string) :
  (forall c, last_char t = Some c -> is_space c = false) ->
  all_chars is_space r = true ->
  rstrip (t ++ r) = t.
Proof.
  intros Hl Hr. induction t as [|c t IH]; simpl.
  - now apply rstrip_all_space.
  - destruct t as [|c' t].
    + simpl in *. rewrite (rstrip_all_space _ Hr). now rewrite (Hl c eq_refl).
    + rewrite IH by (intros c0 H0; apply Hl; exact H0).
      reflexivity.
Qed.

(** A trimmed form is what [strip] computes: the relation is functional. *)
Lemma Trimmed_strip (s t : string) : Trimmed s t -> strip s = t.
Proof.
  intros (l & r & -> & Hl & Hr & Hf & Hla). unfold strip.
  rewrite lstrip_spaces by assumption.
  rewrite lstrip_fixed by assumption.
  destruct t; [reflexivity|]. now apply rstrip_fixed.
Qed.

Lemma lstrip_decompose (s : string) :
  exists l, s = l ++ lstrip s /\ all_chars is_space l = true /\
            (forall c, first_char (lstrip s) = Some c -> is_space c = false).
Proof.
  induction s as [|x s (l & E & Hl & Hf)]; simpl.
  - exists "". repeat split. discriminate.
  - destruct (is_space x) eqn:Hx.
    + exists (String x l). simpl. rewrite Hx, Hl. repeat split; [congruence|assumption].
    + exists "". repeat split. simpl. intros c [= <-]. assumption.
Qed.

Lemma rstrip_decompose (s : string) :
  exists r, s = rstrip s ++ r /\ all_chars is_space r = true /\
            (forall c, last_char (rstrip s) = Some c -> is_space c = false).
Proof.
  induction s as [|x s (r & E & Hr & Hl)]; simpl.
  - exists "". repeat split. discriminate.
  - destruct (rstrip s) as [|y u] eqn:Hrs.
    + destruct (is_space x) eqn:Hx.
      * exists (String x r). simpl in *. rewrite Hx, Hr. repeat split; [congruence|discriminate].
      * exists r. simpl in *. repeat split; [congruence|assumption|].
        intros c [= <-]. assumption.
    + exists r. simpl in *. repeat split; [congruence|assumption|exact Hl].
Qed.

Lemma first_char_rstrip (s : string) (c : ascii) :
  first_char (rstrip s) = Some c -> first_char s = Some c.
Proof.
  destruct s as [|x s]; simpl; [discriminate|].
  destruct (rstrip s); [destruct (is_space x)|]; simpl; congruence.
Qed.

(** [strip] computes a trimmed form: the relation is total. *)
Lemma strip_Trimmed (s : string) : Trimmed s (strip s).
Proof.
  unfold strip.
  destruct (lstrip_decompose s) as (l & El & Hl & Hf).
  destruct (rstrip_decompose (lstrip s)) as (r & Er & Hr & Hla).
  exists l, r. repeat split; try assumption.
  - rewrite <- Er. exact El.
  - intros c Hc. apply Hf. now apply first_char_rstrip.
Qed.

End StringLemmas.

Section RegexLemmas.
Import PyStr Spec NameRegex.

Lemma match_tail_trimmed (s : string) :
  (forall c, last_char s = Some c -> is_space c = false) ->
  match_tail s = all_chars is_name_char s.
Proof.
  induction s as [|c s IH]; simpl; intros Hl; [reflexivity|].
  destruct (is_name_char c) eqn:Hc; simpl.
  - apply IH. intros c0 H0. apply Hl. destruct s; [discriminate|exact H0].
  - destruct (Ascii.eqb c newline) eqn:Hn; [|reflexivity].
    destruct s; simpl; [|reflexivity].
    apply Ascii.eqb_eq in Hn. subst c.
    specialize (Hl _ eq_refl). discriminate.
Qed.

Lemma last_char_cons (c : ascii) (s : string) (x : ascii) :
  last_char s = Some x -> last_char (String c s) = Some x.
Proof. destruct s; simpl; [discriminate|trivial]. Qed.

(** On a trimmed name, [re.match] with its lenient [$] decides the pattern. *)
Lemma re_match_trimmed (s : string) :
  (forall c, last_char s = Some c -> is_space c = false) ->
  re_match s = name_pattern s.
Proof.
  destruct s as [|c s]; simpl; intros Hl; [reflexivity|].
  f_equal. apply match_tail_trimmed.
  intros x Hx. apply Hl. now apply last_char_cons.
Qed.

Lemma re_match_strip (s : string) : re_match (strip s) = name_pattern (strip s).
Proof.
  apply re_match_trimmed.
  destruct (strip_Trimmed s) as (l & r & _ & _ & _ & _ & H). exact H.
Qed.

End RegexLemmas.

(* ===================================================================== *)
(** * ExpressionParser *)

Section ExpressionParser.
Import PyStr Spec.

Lemma parse_no_device (e : string) :
  contains "=" e = false ->
  _parse_model_expr e =
    if name_pattern (strip e) then inr (strip e, None)
    else inl (ValueError ("Invalid model name '" ++ strip e
      ++ "'. Model name must start with a letter and contain only letters, numbers, underscores, and hyphens.")).
Proof.
  intros H. unfold _parse_model_expr. rewrite H. simpl.
  rewrite re_match_strip. now destruct (name_pattern (strip e)).
Qed.

Lemma parse_with_device (n d : string) :
  contains "=" n = false ->
  _parse_model_expr (n ++ String "=" d) =
    if String.eqb (strip d) "" then
      inl (ValueError ("Device name cannot be empty in model expression '"
                       ++ (n ++ String "=" d) ++ "'"))
    else if name_pattern (strip n) then inr (strip n, Some (strip d))
    else inl (ValueError ("Invalid model name '" ++ strip n
      ++ "'. Model name must start with a letter and contain only letters, numbers, underscores, and hyphens.")).
Proof.
  intros H. unfold _parse_model_expr.
  assert (Hc : contains "=" (n ++ String "=" d) = true).
  { rewrite contains_app. simpl. now rewrite orb_true_r. }
  rewrite Hc, (split_once_app _ _ d H).
  destruct (String.eqb (strip d) "") eqn:Hd; simpl; [reflexivity|].
  rewrite re_match_strip. now destruct (name_pattern (strip n)).
Qed.

(** C5. Every model expression splits at its first ['='] into a name
    segment and an optional device segment, both trimmed of surrounding
    white space.  Parsing raises, and then a [ValueError]
    (MalformedExpression), exactly when the trimmed device is present and
    empty or the trimmed name fails the name pattern; otherwise it returns
    the trimmed name with the trimmed device, or with no device when the
    expression holds no ['=']. *)
Theorem parse_model_expr_spec (e : string) :
  exists n od name dev,
    Segments e n od /\ Trimmed n name /\ TrimmedOpt od dev /\
    (raises (_parse_model_expr e) <->
       dev = Some "" \/ name_pattern name = false) /\
    (forall err, _parse_model_expr e = inl err -> is_ValueError err) /\
    (~ (dev = Some "" \/ name_pattern name = false) ->
       _parse_model_expr e = inr (name, dev)).
Proof.
  destruct (Segments_total e) as (n & od & HS).
  exists n, od, (strip n), (option_map strip od).
  split; [exact HS|]. split; [apply strip_Trimmed|].
  destruct HS as [e He | n d Hn]; simpl.
  - apply contains_false in He.
    split; [exact I|]. rewrite (parse_no_device _ He).
    destruct (name_pattern (strip e)) eqn:Hp.
    + split; [|split].
      * split; [intros (err & Herr); discriminate|intros [H|H]; discriminate].
      * intros err Herr. discriminate.
      * reflexivity.
    + split; [|split].
      * split; [now right|intros _; eexists; reflexivity].
      * intros err [= <-]. eexists; reflexivity.
      * intros H. exfalso. apply H. now right.
  - apply contains_false in Hn.
    split; [apply strip_Trimmed|]. rewrite (parse_with_device _ d Hn).
    destruct (String.eqb (strip d) "") eqn:Hd.
    + apply String.eqb_eq in Hd. rewrite Hd. split; [|split].
      * split; [now left|intros _; eexists; reflexivity].
      * intros err [= <-]. eexists; reflexivity.
      * intros H. exfalso. apply H. now left.
    + apply String.eqb_neq in Hd.
      destruct (name_pattern (strip n)) eqn:Hp.
      * split; [|split].
        -- split; [intros (err & Herr); discriminate|].
           intros [[= H]|H]; [congruence|discriminate].
        -- intros err Herr. discriminate.
        -- reflexivity.
      * split; [|split].
        -- split; [now right|intros _; eexists; reflexivity].
        -- intros err [= <-]. eexists; reflexivity.
        -- intros H. exfalso. apply H. now right.
Qed.

(** The relations of the statement are functional, so it fixes the result. *)
Lemma Segments_functional (e n n' : string) (od od' : option string) :
  Segments e n od -> Segments e n' od' -> n = n' /\ od = od'.
Proof.
  intros H H'.
  assert (K : forall e n od, Segments e n od ->
            (contains "=" e = false /\ n = e /\ od = None) \/
            (exists d, od = Some d /\ contains "=" e = true /\
                       split_once "=" e = (n, d))).
  { intros e0 n0 od0 [e1 H1 | n1 d1 H1]; apply contains_false in H1; [now left|right].
    exists d1. split; [reflexivity|]. split.
    - rewrite contains_app. simpl. now rewrite orb_true_r.
    - now apply split_once_app. }
  destruct (K _ _ _ H) as [(A & -> & ->) | (d & -> & A & S1)];
    destruct (K _ _ _ H') as [(A' & -> & ->) | (d' & -> & A' & S2)];
    try congruence.
  - now split.
  - rewrite S1 in S2. inversion S2. now split.
Qed.

Example parse_detector_gpu :
  _parse_model_expr " detector = GPU " = inr ("detector", Some "GPU").
Proof. reflexivity. Qed.

Example parse_keeps_later_equals :
  _parse_model_expr "m=a=b" = inr ("m", Some "a=b").
Proof. reflexivity. Qed.

Example parse_empty_device :
  _parse_model_expr "detector= " =
    inl (ValueError "Device name cannot be empty in model expression 'detector= '").
Proof. reflexivity. Qed.

End ExpressionParser.

(* ===================================================================== *)
(** * Lemmas on the error monad and on dictionaries *)

Lemma bind_inr {A B : Type} (m : result A) (k : A -> result B) (b : B) :
  bind m k = inr b -> exists a, m = inr a /\ k a = inr b.
Proof. destruct m as [e|a]; simpl; [discriminate|]. intros H. now exists a. Qed.

Lemma bind_inl {A B : Type} (m : result A) (k : A -> result B) (e : exn) :
  bind m k = inl e -> m = inl e \/ exists a, m = inr a /\ k a = inl e.
Proof. destruct m as [e'|a]; simpl; intros H; [left; congruence|right; now exists a]. Qed.

Tactic Notation "inv_bind" hyp(H) "as" ident(a) ident(Ha) :=
  apply bind_inr in H; destruct H as (a & Ha & H).

Section DictLemmas.
Import Dict.

Lemma get_None_iff (k : string) (d : dict) : get k d = None <-> ~ In k (keys d).
Proof.
  induction d as [|[k' v] d IH]; simpl.
  - tauto.
  - destruct (String.eqb k' k) eqn:E.
    + apply String.eqb_eq in E. split; [discriminate|intros H; exfalso; auto].
    + apply String.eqb_neq in E. rewrite IH. tauto.
Qed.

Lemma mem_true_iff (k : string) (d : dict) : mem k d = true <-> In k (keys d).
Proof.
  unfold mem. destruct (get k d) eqn:E.
  - split; [intros _|reflexivity].
    destruct (in_dec string_dec k (keys d)) as [H|H]; [exact H|].
    apply get_None_iff in H. congruence.
  - apply get_None_iff in E. split; [discriminate|tauto].
Qed.

Lemma mem_false_iff (k : string) (d : dict) : mem k d = false <-> ~ In k (keys d).
Proof. rewrite <- mem_true_iff. destruct (mem k d); split; congruence. Qed.

Lemma get_cons_neq (k k' : string) (v : pyval) (d : dict) :
  k' <> k -> get k ((k', v) :: d) = get k d.
Proof. intros N. simpl. apply String.eqb_neq in N. now rewrite N. Qed.

Lemma get_set_eq (k : string) (v : pyval) (d : dict) : get k (set k v d) = Some v.
Proof.
  induction d as [|[k' v'] d IH]; simpl.
  - now rewrite String.eqb_refl.
  - destruct (String.eqb k' k) eqn:E; simpl; rewrite E; [reflexivity|exact IH].
Qed.

Lemma set_set_same (k : string) (v : pyval) (d : dict) :
  set k v (set k v d) = set k v d.
Proof.
  induction d as [|[k' v'] d IH]; simpl.
  - now rewrite String.eqb_refl.
  - destruct (String.eqb k' k) eqn:E; simpl; rewrite E; [reflexivity|now rewrite IH].
Qed.

Lemma get_set_neq (k k' : string) (v : pyval) (d : dict) :
  k <> k' -> get k (set k' v d) = get k d.
Proof.
  intros N. induction d as [|[k0 v0] d IH]; simpl.
  - apply not_eq_sym in N. apply String.eqb_neq in N. now rewrite N.
  - destruct (String.eqb k0 k') eqn:E; simpl.
    + apply String.eqb_eq in E. subst k0.
      apply not_eq_sym in N. apply String.eqb_neq in N. now rewrite N.
    + now rewrite IH.
Qed.

Lemma keys_set (k : string) (v : pyval) (d : dict) :
  keys (set k v d) = if mem k d then keys d else (keys d ++ [k])%list.
Proof.
  induction d as [|[k' v'] d IH]; simpl; [reflexivity|].
  unfold mem in *. simpl.
  destruct (String.eqb k' k) eqn:E; simpl; [reflexivity|].
  rewrite IH. unfold keys. destruct (get k d); reflexivity.
Qed.

Lemma wf_set (k : string) (v : pyval) (d : dict) : wf d -> wf (set k v d).
Proof.
  unfold wf. intros H. rewrite keys_set.
  destruct (mem k d) eqn:E; [exact H|].
  apply mem_false_iff in E.
  apply NoDup_rev in H. rewrite <- (rev_involutive (keys d ++ [k])).
  apply NoDup_rev. rewrite rev_app_distr. simpl. constructor; [|exact H].
  now rewrite <- in_rev.
Qed.

Lemma mem_set (k k' : string) (v : pyval) (d : dict) :
  mem k (set k' v d) = String.eqb k' k || mem k d.
Proof.
  unfold mem. destruct (String.eqb k' k) eqn:E; simpl.
  - apply String.eqb_eq in E. subst. now rewrite get_set_eq.
  - apply String.eqb_neq in E. rewrite get_set_neq by congruence. reflexivity.
Qed.

(** [update] with a dict: the other's value wins, the rest is kept. *)
Lemma get_update (k : string) (d o : dict) :
  wf o ->
  get k (update d o) = match get k o with Some v => Some v | None => get k d end.
Proof.
  unfold update, wf. revert d.
  induction o as [|[k1 v1] o IH]; simpl; intros d H; [reflexivity|].
  inversion H as [|? ? Hn Ho]; subst.
  rewrite (IH _ Ho).
  destruct (String.eqb k1 k) eqn:E.
  - apply String.eqb_eq in E. subst k1.
    apply get_None_iff in Hn. rewrite Hn. apply get_set_eq.
  - apply String.eqb_neq in E.
    destruct (get k o); [reflexivity|]. apply get_set_neq. congruence.
Qed.

(** [update] keeps the keys in place and appends the new ones in order. *)
Lemma keys_update (d o : dict) :
  wf o ->
  keys (update d o) = (keys d ++ filter (fun k => negb (mem k d)) (keys o))%list.
Proof.
  unfold update, wf. revert d.
  induction o as [|[k1 v1] o IH]; simpl; intros d H.
  - now rewrite app_nil_r.
  - inversion H as [|? ? Hn Ho]; subst.
    rewrite (IH _ Ho), keys_set.
    destruct (mem k1 d) eqn:E; simpl.
    + f_equal. apply filter_ext. intros k. rewrite mem_set.
      destruct (String.eqb k1 k) eqn:E1; [|reflexivity].
      apply String.eqb_eq in E1. subst. now rewrite E.
    + rewrite <- app_assoc. simpl. do 2 f_equal.
      apply filter_ext_in. intros k Hk. rewrite mem_set.
      destruct (String.eqb k1 k) eqn:E1; [|reflexivity].
      apply String.eqb_eq in E1. subst. contradiction.
Qed.

End DictLemmas.

(* ===================================================================== *)
(** * ConfigResolver *)

Section ConfigResolver.
Context {B : Builtins}.
Import ConfigSpec.

Lemma resolve_loop_wf (folder : string) (items : list (string * pyval)) :
  forall acc r,
    Dict.wf acc -> _resolve_paths_loop folder items acc = inr r -> Dict.wf r.
Proof.
  induction items as [|[k v] items IH]; cbn [_resolve_paths_loop]; intros acc r Hacc H.
  - inversion H; subst; exact Hacc.
  - destruct (existsb (String.eqb k) ["model"; "model_proc"]).
    + destruct v; try discriminate. eapply IH; [|exact H]. now apply wf_set.
    + eapply IH; [|exact H]. now apply wf_set.
Qed.

Lemma resolve_loop_keys (folder : string) (items : list (string * pyval)) :
  forall acc r,
    NoDup (Dict.keys items) ->
    (forall k, In k (Dict.keys items) -> ~ In k (Dict.keys acc)) ->
    _resolve_paths_loop folder items acc = inr r ->
    Dict.keys r = (Dict.keys acc ++ Dict.keys items)%list.
Proof.
  induction items as [|[k v] items IH]; cbn [_resolve_paths_loop]; intros acc r Hnd Hdis H.
  - inversion H. now rewrite app_nil_r.
  - inversion Hnd as [|? ? Hk Hnd']; subst.
    assert (Hset : forall w, Dict.keys (Dict.set k w acc) = (Dict.keys acc ++ [k])%list).
    { intros w. rewrite keys_set.
      destruct (Dict.mem k acc) eqn:E; [|reflexivity].
      apply mem_true_iff in E. exfalso. eapply Hdis; [left; reflexivity|exact E]. }
    assert (Hdis' : forall w k0, In k0 (Dict.keys items) ->
                                 ~ In k0 (Dict.keys (Dict.set k w acc))).
    { intros w k0 H0. rewrite Hset. intros Hin. apply in_app_or in Hin.
      destruct Hin as [Hin|[<-|[]]]; [|contradiction].
      eapply Hdis; [right; exact H0|exact Hin]. }
    assert (Hfin : forall w, _resolve_paths_loop folder items (Dict.set k w acc) = inr r ->
              Dict.keys r = (Dict.keys acc ++ k :: Dict.keys items)%list).
    { intros w Hw. rewrite (IH _ _ Hnd' (Hdis' w) Hw), Hset, <- app_assoc. reflexivity. }
    destruct (existsb (String.eqb k) ["model"; "model_proc"]).
    + destruct v; try discriminate. eapply Hfin; exact H.
    + eapply Hfin; exact H.
Qed.

Lemma resolve_loop_error (folder : string) (items : list (string * pyval)) :
  forall acc e, _resolve_paths_loop folder items acc = inl e -> e = TypeError.
Proof.
  induction items as [|[k v] items IH]; cbn [_resolve_paths_loop]; intros acc e H; [discriminate|].
  destruct (existsb (String.eqb k) ["model"; "model_proc"]).
  - destruct v; try (inversion H; reflexivity). eapply IH; exact H.
  - eapply IH; exact H.
Qed.

Lemma resolve_paths_error (folder : string) (v : pyval) (e : exn) :
  _resolve_paths folder v = inl e -> e = TypeError \/ e = AttributeError.
Proof.
  destruct v; simpl; intros H; try (inversion H; now right).
  left. eapply resolve_loop_error; exact H.
Qed.

Lemma call_get_error (v : pyval) (k : string) (dflt : pyval) (e : exn) :
  call_get v k dflt = inl e -> e = AttributeError.
Proof. destruct v; simpl; intros H; inversion H; reflexivity. Qed.

Lemma call_get_inr (v : pyval) (k : string) (dflt r : pyval) :
  call_get v k dflt = inr r ->
  exists d, v = VDict d /\ r = Dict.get_default k dflt d.
Proof. destruct v; simpl; intros H; inversion H. now eexists. Qed.

Lemma load_params_cases (folder : string) (mc : dict) (name : string) :
  _load_params folder mc name =
    if String.eqb name "" then
      inl (ValueError "No model name provided for model expression")
    else match Dict.get name mc with
         | Some config => load_found folder config
         | None => inl (ValueError ("Model " ++ name
                                    ++ " not found in model config file."))
         end.
Proof.
  unfold _load_params, load_found.
  destruct (String.eqb name ""); [reflexivity|].
  destruct (Dict.get name mc); reflexivity.
Qed.

Lemma load_found_error (folder : string) (config : pyval) (e : exn) :
  load_found folder config = inl e -> e = TypeError \/ e = AttributeError.
Proof.
  unfold load_found. intros H.
  repeat (apply bind_inl in H;
          destruct H as [H|(? & _ & H)];
          [first [ apply call_get_error in H; now right
                 | now apply resolve_paths_error in H ] |]).
  discriminate.
Qed.

(** C7. Resolving a model name against a configuration mapping raises one
    of the two ModelNotFound errors exactly when the name is empty or is
    not a key of the mapping; for a non-empty name that is a key, whatever
    goes wrong later is no [ValueError] at all. *)
Theorem load_params_model_not_found (folder : string) (mc : dict) (name : string) :
  ((exists err, _load_params folder mc name = inl err /\ ModelNotFound name err)
     <-> (name = "" \/ ~ In name (Dict.keys mc)))
  /\ (name <> "" /\ In name (Dict.keys mc) ->
      forall err, _load_params folder mc name = inl err -> ~ is_ValueError err).
Proof.
  rewrite load_params_cases.
  destruct (String.eqb name "") eqn:En.
  - apply String.eqb_eq in En. split.
    + split; [now left|]. intros _. eexists. split; [reflexivity|now left].
    + intros [Hn _]. contradiction.
  - apply String.eqb_neq in En.
    destruct (Dict.get name mc) as [config|] eqn:Eg.
    + assert (Hin : In name (Dict.keys mc)).
      { apply mem_true_iff. unfold Dict.mem. now rewrite Eg. }
      assert (Hnv : forall err, load_found folder config = inl err -> ~ is_ValueError err).
      { intros err H (msg & ->). apply load_found_error in H.
        destruct H; discriminate. }
      split; [|intros _; exact Hnv].
      split.
      * intros (err & H & [Hm|Hm]); exfalso; apply (Hnv _ H); eexists; exact Hm.
      * intros [H|H]; contradiction.
    + apply get_None_iff in Eg. split.
      * split; [now right|]. intros _. eexists. split; [reflexivity|now right].
      * intros [_ Hin]. contradiction.
Qed.

Lemma set_default_params_overlay (params : dict) :
  Dict.wf params -> Overlay default_set params (_set_default_params params).
Proof.
  intros Hwf. unfold _set_default_params, Overlay.
  change DEFAULT_PARAMS with default_set.
  split; [|split].
  - intros k v H. rewrite get_update by assumption. now rewrite H.
  - intros k H. rewrite get_update by assumption. now rewrite H.
  - now apply keys_update.
Qed.

(** C4. When resolution succeeds, the resulting [model_params] is the
    default set (scheduling-policy=latency, batch-size=1,
    inference-interval=1) overlaid with the entry's resolved parameters:
    the entry wins on every shared key, the defaults fill the rest, the
    default keys come first and the remaining entry keys follow in entry
    order; an entry without parameters yields exactly the default set. *)
Theorem default_params_merge (folder : string) (mc : dict) (name : string)
  (p : Params) :
  _load_params folder mc name = inr p ->
  exists config items resolved,
    Dict.get name mc = Some (VDict config) /\
    Dict.get_default "params" (VDict []) config = VDict items /\
    _resolve_paths folder (VDict items) = inr resolved /\
    Overlay default_set resolved (model_params p) /\
    (Dict.wf items -> Dict.keys resolved = Dict.keys items) /\
    (items = [] -> model_params p = default_set).
Proof.
  rewrite load_params_cases.
  destruct (String.eqb name ""); [discriminate|].
  destruct (Dict.get name mc) as [config|]; [|discriminate].
  unfold load_found. intros H.
  inv_bind H as ifd Hifd. apply call_get_inr in Hifd as (cfg & -> & _).
  inv_bind H as cs Hcs. clear Hcs.
  inv_bind H as raw Hraw. apply call_get_inr in Hraw as (cfg' & [= <-] & ->).
  inv_bind H as resolved Ha0.
  inv_bind H as mt Hmt. inversion H; subst p; clear H. simpl.
  destruct (Dict.get_default "params" (VDict []) cfg) as [| | | | |?|items] eqn:Ei;
    try discriminate.
  exists cfg, items, resolved.
  repeat split; try assumption.
  - apply set_default_params_overlay.
    eapply resolve_loop_wf; [|exact Ha0]. constructor.
  - apply set_default_params_overlay.
    eapply resolve_loop_wf; [|exact Ha0]. constructor.
  - apply set_default_params_overlay.
    eapply resolve_loop_wf; [|exact Ha0]. constructor.
  - intros Hwf. simpl in Ha0.
    now rewrite (resolve_loop_keys folder items [] resolved Hwf (fun _ _ F => F) Ha0).
  - intros ->. simpl in Ha0. inversion Ha0. reflexivity.
Qed.

Example set_default_params_empty : _set_default_params [] = default_set.
Proof. reflexivity. Qed.

End ConfigResolver.

Lemma default_params_merge_witness :
  _load_params (B := literal_builtins) PipelineGenerator_models_folder
    ConfigSpec.example_model_config "retail" = inr ConfigSpec.example_loaded /\
  ConfigSpec.Overlay ConfigSpec.default_set
    [ ("model", VStr "/home/pipeline-server/models/intel/retail.xml");
      ("batch-size", VInt 4);
      ("threshold", VStr "0.5") ]
    (model_params ConfigSpec.example_loaded).
Proof.
  split; [reflexivity|].
  destruct (default_params_merge (B := literal_builtins) PipelineGenerator_models_folder
              ConfigSpec.example_model_config "retail" ConfigSpec.example_loaded
              eq_refl)
    as (config & items & resolved & Hc & Hi & Hr & Ho & _).
  simpl in Hc. injection Hc as <-. simpl in Hi. injection Hi as <-.
  simpl in Hr. injection Hr as <-. exact Ho.
Defined.

(* ===================================================================== *)
(** * InferenceStageBuilder *)

Section InferenceStageBuilder.
Context {B : Builtins}.
Import PyStr Spec SerializeSpec.

Lemma quoting_test (s : string) :
  any_in " ;!" s || String.eqb s "" = true <-> NeedsQuotes s.
Proof.
  unfold NeedsQuotes. simpl. rewrite orb_false_r.
  rewrite !orb_true_iff, !contains_Occurs, String.eqb_eq. tauto.
Qed.

Lemma format_value_quoted (s : string) :
  NeedsQuotes s -> _format_value (VStr s) = dquote ++ s ++ dquote.
Proof.
  intros H. apply quoting_test in H. unfold _format_value. now rewrite H.
Qed.

Lemma format_value_plain (s : string) :
  ~ NeedsQuotes s -> _format_value (VStr s) = s.
Proof.
  intros H. unfold _format_value.
  destruct (any_in " ;!" s || String.eqb s "") eqn:E; [|reflexivity].
  apply quoting_test in E. contradiction.
Qed.

(** C9. [serialize] returns one stage: the element name, a space, and the
    parameters in their insertion order as [key=value] tokens joined by
    spaces.  A string value is wrapped in double quotes exactly when it
    holds a space, [;] or [!] or is empty; any other value is written as
    [str] writes it.  So ["a b"] gives [key="a b"] and the number [1]
    gives [key=1]. *)
Theorem serialize_spec (self : InferenceModel) :
  (exists tokens,
      serialize self = [inference_element self ++ " " ++ join " " tokens] /\
      Forall2 (fun kv token => token = fst kv ++ "=" ++ _format_value (snd kv))
              (model_params (params self)) tokens) /\
  (forall s, NeedsQuotes s -> _format_value (VStr s) = dquote ++ s ++ dquote) /\
  (forall s, ~ NeedsQuotes s -> _format_value (VStr s) = s) /\
  (forall v, (forall s, v <> VStr s) -> _format_value v = py_str v) /\
  "key" ++ "=" ++ _format_value (VStr "a b") = "key=" ++ dquote ++ "a b" ++ dquote /\
  "key" ++ "=" ++ _format_value (VInt 1) = "key=1".
Proof.
  split; [|split; [|split; [|split; [|split]]]].
  - exists (map (fun kv => fst kv ++ "=" ++ _format_value (snd kv))
                (model_params (params self))).
    split; [reflexivity|].
    induction (model_params (params self)); simpl; constructor; auto.
  - exact format_value_quoted.
  - exact format_value_plain.
  - intros v Hv. destruct v; try reflexivity. now elim (Hv s).
  - reflexivity.
  - reflexivity.
Qed.

Example format_value_bool : _format_value (VBool true) = "True".
Proof. reflexivity. Qed.

Example format_value_empty : _format_value (VStr "") = dquote ++ dquote.
Proof. reflexivity. Qed.

Example format_value_path :
  _format_value (VStr "/home/pipeline-server/models/a.xml")
  = "/home/pipeline-server/models/a.xml".
Proof. reflexivity. Qed.

End InferenceStageBuilder.

(* ===================================================================== *)
(** * DeviceRuleResolver *)

Section DeviceRuleResolver.
Context {B : Builtins}.
Import DeviceSpec.

Lemma in_strs_devices (v : pyval) :
  in_strs v ["CPU"; "GPU"; "AUTO"] = true <-> exists d, v = VStr (decode_name d).
Proof.
  unfold in_strs. simpl. rewrite orb_false_r. split.
  - destruct v; simpl; try discriminate. intros H.
    apply orb_true_iff in H as [H|H]; [|apply orb_true_iff in H as [H|H]];
      apply String.eqb_eq in H; subst;
      [exists CPU|exists GPU|exists AUTO]; reflexivity.
  - intros ([| |] & ->); reflexivity.
Qed.

Lemma Selects_get_default (cs : dict) (d : DecodeDevice) :
  Selects cs d ->
  Dict.get_default "cv_subsystem" (VStr "AUTO") cs = VStr (decode_name d).
Proof.
  unfold Dict.get_default. intros [H|[-> H]]; now rewrite H.
Qed.

Lemma get_default_Selects (cs : dict) (d : DecodeDevice) :
  Dict.get_default "cv_subsystem" (VStr "AUTO") cs = VStr (decode_name d) ->
  Selects cs d.
Proof.
  unfold Dict.get_default, Selects.
  destruct (Dict.get "cv_subsystem" cs) as [v|].
  - intros ->. now left.
  - destruct d; simpl; intros H; try discriminate. now right.
Qed.

(** The whole decision for a supported decode device, as one equation. *)
Lemma device_rules_table (cs : dict) (im : InferenceModel) (d : DecodeDevice) :
  Selects cs d ->
  _apply_device_rule_set cs im =
    let gpu := String.eqb (get_target_device im) "GPU" in
    let sharing := match d with CPU => false | _ => gpu end in
    inr {| rule_decode := decode_stages d;
           rule_memory_uses_va_surfaces := sharing;
           rule_memory_caps :=
             if sharing then [device_surface_marker] else [raw_frame_marker];
           rule_preprocessing_backend :=
             if sharing then "va-surface-sharing"
             else if gpu then "opencv" else "";
           rule_post_gpu_inference_conversion := gpu |}.
Proof.
  intros H. apply Selects_get_default in H.
  unfold _apply_device_rule_set. rewrite H.
  destruct d; simpl; destruct (String.eqb (get_target_device im) "GPU"); reflexivity.
Qed.

(** C8. The device rules raise exactly when the camera settings select
    none of CPU, GPU, AUTO (unset counting as AUTO), and then the error is
    the UnsupportedDecodeDevice [ValueError] naming the offending value;
    for each of the three devices and any inference model they return a
    decision whose decode stages follow the table. *)
Theorem device_rules_total (cs : dict) (im : InferenceModel) :
  (raises (_apply_device_rule_set cs im) <-> ~ exists d, Selects cs d) /\
  (forall e, _apply_device_rule_set cs im = inl e ->
     exists v, Dict.get "cv_subsystem" cs = Some v /\ UnsupportedDecodeDevice v e) /\
  (forall d, Selects cs d ->
     exists r, _apply_device_rule_set cs im = inr r /\
               rule_decode r = decode_stages d).
Proof.
  assert (Hok : forall d, Selects cs d ->
            exists r, _apply_device_rule_set cs im = inr r /\
                      rule_decode r = decode_stages d).
  { intros d H. rewrite (device_rules_table cs im d H). eexists. split; reflexivity. }
  assert (Hbad : (~ exists d, Selects cs d) ->
            exists v, Dict.get "cv_subsystem" cs = Some v /\
              _apply_device_rule_set cs im =
                inl (ValueError ("Unsupported decode device: " ++ py_str v
                       ++ ". Supported values are 'CPU', 'GPU', 'AUTO'."))).
  { intros Hn. unfold _apply_device_rule_set.
    destruct (in_strs (Dict.get_default "cv_subsystem" (VStr "AUTO") cs)
                      ["CPU"; "GPU"; "AUTO"]) eqn:E.
    - apply in_strs_devices in E as (d & E). exfalso. apply Hn.
      exists d. now apply get_default_Selects.
    - simpl. unfold Dict.get_default in *.
      destruct (Dict.get "cv_subsystem" cs) as [v|]; [|discriminate].
      exists v. split; reflexivity. }
  split; [|split].
  - split.
    + intros (e & He) (d & Hd). destruct (Hok d Hd) as (r & Hr & _). congruence.
    + intros Hn. destruct (Hbad Hn) as (v & _ & Hv). eexists. exact Hv.
  - intros e He.
    assert (Hn : ~ exists d, Selects cs d).
    { intros (d & Hd). destruct (Hok d Hd) as (r & Hr & _). congruence. }
    destruct (Hbad Hn) as (v & Hg & Hv). exists v. split; [exact Hg|].
    unfold UnsupportedDecodeDevice. congruence.
  - exact Hok.
Qed.

(** C2, as the code has it: the backend under surface sharing is
    [va-surface-sharing].  For a decode device among CPU, GPU, AUTO and
    any inference model, surface sharing holds exactly when the decode
    device is not CPU and the inference device is GPU; then the memory
    marker is the device-surface marker and the backend is
    [va-surface-sharing]; otherwise the marker is the raw-frame marker and
    the backend is [opencv] for a GPU inference device and empty for any
    other; post-inference conversion is on exactly for a GPU inference
    device. *)
Theorem device_rules_surface_sharing (cs : dict) (im : InferenceModel)
  (d : DecodeDevice) :
  Selects cs d ->
  exists r,
    _apply_device_rule_set cs im = inr r /\
    (rule_memory_uses_va_surfaces r = true <->
       d <> CPU /\ get_target_device im = "GPU") /\
    (rule_memory_uses_va_surfaces r = true ->
       rule_memory_caps r = [device_surface_marker] /\
       rule_preprocessing_backend r = "va-surface-sharing") /\
    (rule_memory_uses_va_surfaces r = false ->
       rule_memory_caps r = [raw_frame_marker] /\
       (get_target_device im = "GPU" -> rule_preprocessing_backend r = "opencv") /\
       (get_target_device im <> "GPU" -> rule_preprocessing_backend r = "")) /\
    (rule_post_gpu_inference_conversion r = true <-> get_target_device im = "GPU").
Proof.
  intros H. rewrite (device_rules_table cs im d H).
  eexists. split; [reflexivity|]. cbn zeta. simpl.
  destruct (String.eqb (get_target_device im) "GPU") eqn:E.
  - apply String.eqb_eq in E.
    destruct d; simpl; repeat split; try congruence; try discriminate;
      intros; try tauto; try (destruct H0; congruence).
  - apply String.eqb_neq in E.
    destruct d; simpl; repeat split; try congruence; try discriminate;
      intros; try tauto; try (destruct H0; congruence).
Qed.

End DeviceRuleResolver.

Lemma device_rules_surface_sharing_witness :
  DeviceSpec.Selects [("cv_subsystem", VStr "AUTO")] DeviceSpec.AUTO /\
  exists r,
    _apply_device_rule_set (B := literal_builtins)
      [("cv_subsystem", VStr "AUTO")] DeviceSpec.example_model_gpu = inr r /\
    rule_memory_uses_va_surfaces r = true /\
    rule_memory_caps r = [DeviceSpec.device_surface_marker] /\
    rule_preprocessing_backend r = "va-surface-sharing" /\
    rule_post_gpu_inference_conversion r = true.
Proof.
  assert (S : DeviceSpec.Selects [("cv_subsystem", VStr "AUTO")] DeviceSpec.AUTO)
    by (left; reflexivity).
  split; [exact S|].
  destruct (device_rules_surface_sharing (B := literal_builtins)
              [("cv_subsystem", VStr "AUTO")] DeviceSpec.example_model_gpu
              DeviceSpec.AUTO S)
    as (r & Hr & Hs & Hyes & _ & Hpost).
  exists r. split; [exact Hr|].
  assert (Hsh : rule_memory_uses_va_surfaces r = true).
  { apply Hs. split; [discriminate|reflexivity]. }
  split; [exact Hsh|]. destruct (Hyes Hsh) as [Hc Hb].
  split; [exact Hc|]. split; [exact Hb|]. apply Hpost. reflexivity.
Defined.

(** C2, as the design document words it, fails on the backend name: decode
    on GPU with inference on GPU shares surfaces, and the backend chosen is
    [va-surface-sharing], not [surface-sharing]. *)
Lemma device_rules_backend_counterexample :
  exists r,
    _apply_device_rule_set (B := literal_builtins)
      [("cv_subsystem", VStr "GPU")] DeviceSpec.example_model_gpu = inr r /\
    rule_memory_uses_va_surfaces r = true /\
    rule_preprocessing_backend r = "va-surface-sharing" /\
    rule_preprocessing_backend r <> "surface-sharing".
Proof.
  eexists. split; [reflexivity|]. simpl.
  split; [reflexivity|]. split; [reflexivity|]. discriminate.
Qed.

Example scenario_gpu_inference_cpu_decode :
  _apply_device_rule_set (B := literal_builtins)
    [("cv_subsystem", VStr "CPU")] DeviceSpec.example_model_gpu
  = inr {| rule_decode := ["decodebin force-sw-decoders=true"; "videoconvert"];
           rule_memory_uses_va_surfaces := false;
           rule_memory_caps := ["video/x-raw"];
           rule_preprocessing_backend := "opencv";
           rule_post_gpu_inference_conversion := true |}.
Proof. reflexivity. Qed.

Example scenario_cpu_inference_gpu_decode :
  (im <- InferenceModel_init (B := literal_builtins) PipelineGenerator_models_folder
           (VStr "retail") ConfigSpec.example_model_config ;;
   _apply_device_rule_set (B := literal_builtins) [("cv_subsystem", VStr "GPU")] im)
  = inr {| rule_decode := ["decodebin3"; "vapostproc"];
           rule_memory_uses_va_surfaces := false;
           rule_memory_caps := ["video/x-raw"];
           rule_preprocessing_backend := "";
           rule_post_gpu_inference_conversion := false |}.
Proof. reflexivity. Qed.

Example scenario_unset_decode_device :
  _apply_device_rule_set (B := literal_builtins) [] DeviceSpec.example_model_gpu
  = inr {| rule_decode := ["decodebin3"];
           rule_memory_uses_va_surfaces := true;
           rule_memory_caps := ["video/x-raw(memory:VAMemory)"];
           rule_preprocessing_backend := "va-surface-sharing";
           rule_post_gpu_inference_conversion := true |}.
Proof. reflexivity. Qed.

Example scenario_null_decode_device :
  _apply_device_rule_set (B := literal_builtins)
    [("cv_subsystem", VNone)] DeviceSpec.example_model_gpu
  = inl (ValueError
      "Unsupported decode device: None. Supported values are 'CPU', 'GPU', 'AUTO'.").
Proof. reflexivity. Qed.

Example example_model_gpu_built :
  InferenceModel_init (B := literal_builtins) PipelineGenerator_models_folder
    (VStr "retail=GPU") ConfigSpec.example_model_config
  = inr DeviceSpec.example_model_gpu.
Proof. reflexivity. Qed.

(* ===================================================================== *)
(** * SourceResolver *)

Section SourceResolver.
Import PyStr SourceSpec.

Lemma startswith_app (p rest : string) : startswith p (p ++ rest) = true.
Proof.
  induction p as [|c p IH]; simpl; [reflexivity|].
  now rewrite Ascii.eqb_refl.
Qed.

Lemma startswith_inv (p s : string) :
  startswith p s = true -> exists rest, s = p ++ rest.
Proof.
  revert s. induction p as [|c p IH]; simpl; intros s H.
  - now exists s.
  - destruct s as [|c' s]; [discriminate|].
    apply andb_true_iff in H as [Hc H].
    apply Ascii.eqb_eq in Hc. subst c'.
    destruct (IH _ H) as (rest & ->). now exists rest.
Qed.

Lemma drop_app (p rest : string) : drop (String.length p) (p ++ rest) = rest.
Proof. induction p; simpl; [now destruct rest|assumption]. Qed.

(** C6. A source beginning with [rtsp://] gives the RTSP source with the
    URI as location and latency 200, the depacketizer and the H.264
    parser; one beginning with [file://] gives one looped multi-file
    source located at the video root joined with what follows the prefix;
    one beginning with [http://] or [https://] gives the HTTP source and
    the multipart demultiplexer; any other string raises a [ValueError]
    whose message names the source and the three supported families. *)
Theorem parse_source_spec (source video_root : string) :
  (forall rest, source = "rtsp://" ++ rest ->
     _parse_source source video_root =
       inr [ "rtspsrc location=" ++ source ++ " latency=200 name=source";
             "rtph264depay"; "h264parse" ]) /\
  (forall rest, source = "file://" ++ rest ->
     _parse_source source video_root =
       inr [ "multifilesrc loop=TRUE location="
             ++ PurePath.join_str video_root rest ++ " name=source" ]) /\
  (forall rest, source = "http://" ++ rest \/ source = "https://" ++ rest ->
     _parse_source source video_root =
       inr [ "curlhttpsrc location=" ++ source ++ " name=source";
             "multipartdemux" ]) /\
  ((forall rest, source <> "rtsp://" ++ rest /\ source <> "file://" ++ rest /\
                 source <> "http://" ++ rest /\ source <> "https://" ++ rest) ->
     _parse_source source video_root =
       inl (ValueError ("Unsupported source type in " ++ source ++ supported_sources))) /\
  has_substring "'rtsp://...'" supported_sources = true /\
  has_substring "'http(s)://...'" supported_sources = true /\
  has_substring "'file://..." supported_sources = true.
Proof.
  split; [|split; [|split; [|split; [|repeat split]]]].
  - intros rest ->. reflexivity.
  - intros rest ->. unfold _parse_source.
    change (startswith "rtsp://" ("file://" ++ rest)) with false.
    rewrite startswith_app. cbn iota.
    now rewrite drop_app.
  - intros rest [-> | ->]; reflexivity.
  - intros H. unfold _parse_source.
    destruct (startswith "rtsp://" source) eqn:E1.
    { apply startswith_inv in E1 as (rest & E). now destruct (H rest). }
    destruct (startswith "file://" source) eqn:E2.
    { apply startswith_inv in E2 as (rest & E). now destruct (H rest) as (_ & ? & _). }
    destruct (startswith "http://" source) eqn:E3.
    { apply startswith_inv in E3 as (rest & E). now destruct (H rest) as (_ & _ & ? & _). }
    destruct (startswith "https://" source) eqn:E4.
    { apply startswith_inv in E4 as (rest & E). now destruct (H rest) as (_ & _ & _ & ?). }
    reflexivity.
Qed.

Example source_file_scenario :
  _parse_source "file://cam1.mp4" "/videos"
  = inr ["multifilesrc loop=TRUE location=/videos/cam1.mp4 name=source"].
Proof. reflexivity. Qed.

Example source_file_absolute :
  _parse_source "file:///srv/clips/a.mp4" video_path
  = inr ["multifilesrc loop=TRUE location=/srv/clips/a.mp4 name=source"].
Proof. reflexivity. Qed.

Example source_usb_unsupported :
  _parse_source "/dev/video0" video_path
  = inl (ValueError ("Unsupported source type in /dev/video0" ++ supported_sources)).
Proof. reflexivity. Qed.

End SourceResolver.

(* ===================================================================== *)
(** * UndistortionStageBuilder *)

Section UndistortionStageBuilder.
Context {B : Builtins}.
Import UndistortSpec.

Lemma all_in_KeysPresent (ks : list string) (cs : dict) :
  all_in ks cs = true <-> KeysPresent ks cs.
Proof.
  unfold all_in, KeysPresent. rewrite forallb_forall. split; intros H k Hk.
  - specialize (H k Hk). unfold Dict.mem in H.
    destruct (Dict.get k cs) as [v|]; [now exists v|discriminate].
  - destruct (H k Hk) as (v & Hv). unfold Dict.mem. now rewrite Hv.
Qed.

Lemma list_comp_Forall2 {A : Type} (f : string -> result A) (ks : list string)
  (l : list A) :
  list_comp f ks = inr l <-> Forall2 (fun k a => f k = inr a) ks l.
Proof.
  revert l. induction ks as [|k ks IH]; simpl; intros l.
  - split; [intros [= <-]; constructor|intros H; now inversion H].
  - split.
    + intros H. inv_bind H as a Ha. inv_bind H as l' Hl. inversion H; subst.
      constructor; [exact Ha|now apply IH].
    + intros H. inversion H as [|? a ? l' Ha Hl]; subst.
      rewrite Ha. simpl. apply IH in Hl. now rewrite Hl.
Qed.

Lemma float_lookup (cs : dict) (k : string) (c : spec_float) :
  (v <- Dict.getitem k cs ;; py_float v) = inr c <->
  exists v, Dict.get k cs = Some v /\ py_float v = inr c.
Proof.
  unfold Dict.getitem. destruct (Dict.get k cs) as [v|]; simpl.
  - split; [intros H; now exists v|intros (v' & [= <-] & H); exact H].
  - split; [discriminate|intros (v' & [=] & _)].
Qed.

Lemma list_comp_Converts (cs : dict) (ks : list string) (coefs : list spec_float) :
  list_comp (fun key => v <- Dict.getitem key cs ;; py_float v) ks = inr coefs
  <-> Converts cs ks coefs.
Proof.
  rewrite list_comp_Forall2. unfold Converts.
  split; intros H; induction H; constructor; auto; now apply float_lookup.
Qed.

Lemma forallb_AllZero (coefs : list spec_float) :
  forallb (fun coef => SFeqb coef float_zero) coefs = true <-> AllZero coefs.
Proof. unfold AllZero. now rewrite forallb_forall, Forall_forall. Qed.

Lemma Converts_functional (cs : dict) (ks : list string) (c c' : list spec_float) :
  Converts cs ks c -> Converts cs ks c' -> c = c'.
Proof.
  intros H. revert c'. induction H as [|k a ks l (v & Hv & Ha) _ IH]; intros c' H'.
  - now inversion H'.
  - inversion H' as [|? a' ? l' (v' & Hv' & Ha') Hl']; subst.
    f_equal; [congruence|now apply IH].
Qed.

(** The builder never raises and returns at most the one stage. *)
Lemma add_camera_undistort_stages (cs : dict) :
  exists stages,
    add_camera_undistort cs = inr stages /\
    (stages = [] \/ stages = [undistort_element]).
Proof.
  unfold add_camera_undistort.
  destruct (all_in intrinsics_keys cs); cbn [negb]; [|eexists; split; eauto].
  destruct (all_in dist_coeffs_keys cs); cbn [negb]; [|eexists; split; eauto].
  destruct (list_comp (fun key => v <- Dict.getitem key cs ;; py_float v)
                      dist_coeffs_keys) as [e|coefs];
    cbn [bind try_except ret]; [eexists; split; eauto|].
  destruct (forallb (fun coef => SFeqb coef float_zero) coefs);
    eexists; split; eauto.
Qed.

(** C3, as the code has it: only the five distortion values are converted
    to numbers.  The builder never raises; it returns either the empty
    list or the single undistortion stage, and the stage exactly when the
    four intrinsics keys and the five distortion keys are present, the
    five distortion values convert to numbers, and those numbers are not
    all zero. *)
Theorem add_camera_undistort_spec (cs : dict) :
  exists stages,
    add_camera_undistort cs = inr stages /\
    (stages = [] \/ stages = ["cameraundistort settings=cameraundistort0"]) /\
    (stages = ["cameraundistort settings=cameraundistort0"] <->
       KeysPresent ["intrinsics_fx"; "intrinsics_fy"; "intrinsics_cx"; "intrinsics_cy"] cs /\
       KeysPresent ["distortion_k1"; "distortion_k2"; "distortion_p1";
                    "distortion_p2"; "distortion_k3"] cs /\
       exists coefs,
         Converts cs ["distortion_k1"; "distortion_k2"; "distortion_p1";
                      "distortion_p2"; "distortion_k3"] coefs /\
         ~ AllZero coefs).
Proof.
  unfold add_camera_undistort.
  change ["intrinsics_fx"; "intrinsics_fy"; "intrinsics_cx"; "intrinsics_cy"]
    with intrinsics_keys.
  change ["distortion_k1"; "distortion_k2"; "distortion_p1";
          "distortion_p2"; "distortion_k3"] with dist_coeffs_keys.
  change ["cameraundistort settings=cameraundistort0"] with [undistort_element].
  destruct (all_in intrinsics_keys cs) eqn:Ei; cbn [negb].
  2:{ exists []. split; [reflexivity|]. split; [now left|].
      split; [discriminate|]. intros (H & _).
      apply all_in_KeysPresent in H. congruence. }
  destruct (all_in dist_coeffs_keys cs) eqn:Ed; cbn [negb].
  2:{ exists []. split; [reflexivity|]. split; [now left|].
      split; [discriminate|]. intros (_ & H & _).
      apply all_in_KeysPresent in H. congruence. }
  apply all_in_KeysPresent in Ei, Ed.
  destruct (list_comp (fun key => v <- Dict.getitem key cs ;; py_float v)
                      dist_coeffs_keys) as [e|coefs] eqn:Ec;
    cbn [bind try_except ret].
  - exists []. split; [reflexivity|]. split; [now left|].
    split; [discriminate|]. intros (_ & _ & coefs & Hc & _).
    apply list_comp_Converts in Hc. congruence.
  - apply list_comp_Converts in Ec.
    destruct (forallb (fun coef => SFeqb coef float_zero) coefs) eqn:Ez.
    + apply forallb_AllZero in Ez.
      exists []. split; [reflexivity|]. split; [now left|].
      split; [discriminate|]. intros (_ & _ & coefs' & Hc & Hnz).
      rewrite (Converts_functional _ _ _ _ Hc Ec) in Hnz. contradiction.
    + exists [undistort_element]. split; [reflexivity|]. split; [now right|].
      split; [|reflexivity]. intros _. repeat split; try assumption.
      exists coefs. split; [exact Ec|]. intros Hz.
      apply forallb_AllZero in Hz. congruence.
Qed.

End UndistortionStageBuilder.

(** C3, as the design document words it, fails on the intrinsics: with the
    nine keys present and a non-zero distortion coefficient the stage is
    emitted although two intrinsics values are no numbers. *)
Lemma add_camera_undistort_counterexample :
  add_camera_undistort (B := literal_builtins) UndistortSpec.example_bad_intrinsics
    = inr ["cameraundistort settings=cameraundistort0"] /\
  Dict.get "intrinsics_fx" UndistortSpec.example_bad_intrinsics = Some (VStr "wide") /\
  Dict.get "intrinsics_fy" UndistortSpec.example_bad_intrinsics = Some VNone /\
  py_float (B := literal_builtins) (VStr "wide")
    = inl (ValueError "could not convert string to float: 'wide'") /\
  py_float (B := literal_builtins) VNone = inl TypeError.
Proof. repeat split. Qed.

Example undistort_missing_key :
  add_camera_undistort (B := literal_builtins)
    [ ("intrinsics_fx", VInt 900); ("intrinsics_fy", VInt 900);
      ("intrinsics_cx", VInt 320); ("intrinsics_cy", VInt 240);
      ("distortion_k1", VStr "-0.12"); ("distortion_k2", VInt 0);
      ("distortion_p1", VInt 0); ("distortion_p2", VInt 0) ]
  = inr [].
Proof. reflexivity. Qed.

Example undistort_all_zero :
  add_camera_undistort (B := literal_builtins)
    [ ("intrinsics_fx", VInt 900); ("intrinsics_fy", VInt 900);
      ("intrinsics_cx", VInt 320); ("intrinsics_cy", VInt 240);
      ("distortion_k1", VStr "0.0"); ("distortion_k2", VInt 0);
      ("distortion_p1", VStr "-0"); ("distortion_p2", VBool false);
      ("distortion_k3", VFloat (S754_zero true)) ]
  = inr [].
Proof. reflexivity. Qed.

Example undistort_not_a_number :
  add_camera_undistort (B := literal_builtins)
    [ ("intrinsics_fx", VInt 900); ("intrinsics_fy", VInt 900);
      ("intrinsics_cx", VInt 320); ("intrinsics_cy", VInt 240);
      ("distortion_k1", VStr "0.1"); ("distortion_k2", VStr "n/a");
      ("distortion_p1", VInt 0); ("distortion_p2", VInt 0);
      ("distortion_k3", VInt 0) ]
  = inr [].
Proof. reflexivity. Qed.

(* ===================================================================== *)
(** * PipelineAssembler *)

Example example_camera_pipeline_on :
  generate_pipeline (B := literal_builtins)
    (AssemblySpec.example_camera (VBool true)) ConfigSpec.example_model_config
  = inr (AssemblySpec.example_descriptor ["cameraundistort settings=cameraundistort0"]).
Proof. vm_compute. reflexivity. Qed.

Example example_camera_pipeline_off :
  generate_pipeline (B := literal_builtins)
    (AssemblySpec.example_camera (VBool false)) ConfigSpec.example_model_config
  = inr (AssemblySpec.example_descriptor []).
Proof. vm_compute. reflexivity. Qed.

Section PipelineAssembler.
Context {B : Builtins}.
Import AssemblySpec DeviceSpec.

Lemma init_inv (cs mc : dict) (self : PipelineGenerator) :
  PipelineGenerator_init cs mc = inr self ->
  exists im uri source rules und,
    InferenceModel_init PipelineGenerator_models_folder
      (Dict.get_default "camerachain" VNone cs) mc = inr im /\
    Dict.get "command" cs = Some (VStr uri) /\
    _parse_source uri video_path = inr source /\
    _apply_device_rule_set cs im = inr rules /\
    undistort_choice cs = inr und /\
    self = built cs im source rules und.
Proof.
  unfold PipelineGenerator_init. intros H.
  inv_bind H as im Him. inv_bind H as command Hcmd.
  inv_bind H as source Hsrc. inv_bind H as rules Hrules.
  inv_bind H as und Hund.
  unfold Dict.getitem in Hcmd.
  destruct (Dict.get "command" cs) as [v|] eqn:Eg; [|discriminate].
  inversion Hcmd; subst v.
  destruct command; try discriminate. simpl in Hsrc.
  exists im, s, source, rules, und.
  repeat split; try assumption. inversion H. reflexivity.
Qed.

Lemma backend_applied (self : PipelineGenerator) :
  serialize
    (inference_model
       (if negb (String.eqb (preprocessing_backend self) "")
        then with_inference_model self
               (set_preprocessing_backend (inference_model self)
                  (preprocessing_backend self))
        else self))
  = serialize (set_preprocessing_backend (inference_model self)
                 (preprocessing_backend self)).
Proof.
  unfold set_preprocessing_backend.
  destruct (negb (String.eqb (preprocessing_backend self) "")); reflexivity.
Qed.

(** [generate] on any object: the fields in the fixed order. *)
Lemma generate_components_order (self : PipelineGenerator) :
  snd (generate_components self) =
    (input self ++ decode self ++ memory_caps self ++ undistort self
     ++ timestamp self
     ++ serialize (set_preprocessing_backend (inference_model self)
                     (preprocessing_backend self))
     ++ ["queue"] ++ metadata_conversion self
     ++ (if post_gpu_inference_conversion self
         then ["vapostproc"; "video/x-raw,format=BGRA"] else [])
     ++ adapter self ++ sink self)%list.
Proof.
  unfold generate_components. cbn [snd app].
  rewrite backend_applied.
  destruct (negb (String.eqb (preprocessing_backend self) ""));
    destruct (post_gpu_inference_conversion self) eqn:E;
    cbn [post_gpu_inference_conversion metadata_conversion adapter sink
         with_inference_model]; rewrite ?E; rewrite <- ?app_assoc; reflexivity.
Qed.

Lemma generate_join (self : PipelineGenerator) :
  snd (generate self) = PyStr.join " ! " (snd (generate_components self)).
Proof. unfold generate. now destruct (generate_components self). Qed.

Lemma device_rules_inv (cs : dict) (im : InferenceModel) (r : DeviceRules) :
  _apply_device_rule_set cs im = inr r ->
  exists d, Selects cs d /\
    rule_decode r = decode_stages d /\
    (rule_memory_caps r = [device_surface_marker] \/
     rule_memory_caps r = [raw_frame_marker]) /\
    rule_post_gpu_inference_conversion r = String.eqb (get_target_device im) "GPU".
Proof.
  intros H.
  assert (Hd : exists d, Selects cs d).
  { unfold _apply_device_rule_set in H.
    destruct (in_strs (Dict.get_default "cv_subsystem" (VStr "AUTO") cs)
                      ["CPU"; "GPU"; "AUTO"]) eqn:E; [|discriminate].
    apply in_strs_devices in E as (d & E). exists d. now apply get_default_Selects. }
  destruct Hd as (d & Hd). exists d. split; [exact Hd|].
  rewrite (device_rules_table cs im d Hd) in H. cbn zeta in H.
  inversion H; subst r; clear H. cbn.
  split; [reflexivity|]. split; [|reflexivity].
  destruct d; try (now right);
    destruct (String.eqb (get_target_device im) "GPU"); auto.
Qed.

Lemma serialize_single (im : InferenceModel) :
  exists stage, serialize im = [stage].
Proof. unfold serialize. eexists. reflexivity. Qed.

Lemma undistort_choice_cases (cs : dict) (und : list string) :
  undistort_choice cs = inr und ->
  (und = [] \/ und = [undistort_element]) /\
  (und = [undistort_element] <->
     truthy (Dict.get_default "undistort" VNone cs) = true /\
     add_camera_undistort cs = inr [undistort_element]).
Proof.
  unfold undistort_choice.
  destruct (truthy (Dict.get_default "undistort" VNone cs)).
  - intros H.
    destruct (add_camera_undistort_stages cs) as (l & Hl & Hc).
    rewrite Hl in H. inversion H; subst l. split; [exact Hc|].
    split; [intros ->; now split|intros [_ H']; congruence].
  - intros [= <-]. split; [now left|].
    split; [discriminate|intros [? _]; discriminate].
Qed.

Lemma generate_pipeline_unfold (cs mc : dict) :
  generate_pipeline cs mc =
    (im <- InferenceModel_init PipelineGenerator_models_folder
             (Dict.get_default "camerachain" VNone cs) mc ;;
     command <- Dict.getitem "command" cs ;;
     source <- _parse_source_dyn command video_path ;;
     rules <- _apply_device_rule_set cs im ;;
     und <- undistort_choice cs ;;
     ret (snd (generate (built cs im source rules und)))).
Proof.
  unfold generate_pipeline, PipelineGenerator_init, undistort_choice.
  destruct (InferenceModel_init _ _ _) as [e|im]; [reflexivity|]. cbn [bind].
  destruct (Dict.getitem "command" cs) as [e|command]; [reflexivity|]. cbn [bind].
  destruct (_parse_source_dyn command video_path) as [e|source]; [reflexivity|].
  cbn [bind].
  destruct (_apply_device_rule_set cs im) as [e|rules]; [reflexivity|]. cbn [bind].
  destruct (if truthy (Dict.get_default "undistort" VNone cs)
            then add_camera_undistort cs else ret []) as [e|und]; reflexivity.
Qed.

Lemma generate_built (cs : dict) (im : InferenceModel) (source : list string)
  (rules : DeviceRules) (und : list string) :
  snd (generate (built cs im source rules und)) =
    PyStr.join " ! "
      (source ++ rule_decode rules ++ rule_memory_caps rules ++ und
       ++ [timestamp_stage]
       ++ serialize (set_preprocessing_backend im (rule_preprocessing_backend rules))
       ++ [queue_stage] ++ [metadata_conversion_stage]
       ++ (if rule_post_gpu_inference_conversion rules
           then post_inference_conversion else [])
       ++ adapter_stages ++ [sink_stage])%list.
Proof. rewrite generate_join, generate_components_order. reflexivity. Qed.

(** C1. Whenever generation succeeds, the descriptor is the stages in the
    fixed order (source stages, decode stages, memory marker, the
    undistortion stage when emitted, timestamp, the one inference stage
    serialized after the backend is applied, queue, metadata conversion,
    the post-inference conversion exactly when the inference device is
    GPU, adapter stages, sink) joined by the chain link, and nothing
    else. *)
Theorem generate_stage_order (cs mc : dict) (descriptor : string) :
  generate_pipeline cs mc = inr descriptor ->
  exists model uri source rules memory undist inference,
    InferenceModel_init PipelineGenerator_models_folder
      (Dict.get_default "camerachain" VNone cs) mc = inr model /\
    Dict.get "command" cs = Some (VStr uri) /\
    _parse_source uri video_path = inr source /\
    _apply_device_rule_set cs model = inr rules /\
    rule_memory_caps rules = [memory] /\
    (undist = [] \/ undist = [undistort_element]) /\
    (undist = [undistort_element] <->
       truthy (Dict.get_default "undistort" VNone cs) = true /\
       add_camera_undistort cs = inr [undistort_element]) /\
    serialize (set_preprocessing_backend model (rule_preprocessing_backend rules))
      = [inference] /\
    descriptor =
      PyStr.join chain_link
        (stage_order source (rule_decode rules) memory undist inference
           (String.eqb (get_target_device model) "GPU")).
Proof.
  unfold generate_pipeline. intros H. inv_bind H as self Hinit.
  assert (Hd : descriptor = snd (generate self)) by (unfold ret in H; congruence).
  clear H. subst descriptor.
  apply init_inv in Hinit
    as (im & uri & source & rules & und & Him & Huri & Hsrc & Hrules & Hund & ->).
  destruct (device_rules_inv _ _ _ Hrules) as (d & _ & _ & Hcaps & Hpost).
  destruct (undistort_choice_cases _ _ Hund) as (Hu1 & Hu2).
  destruct (serialize_single
              (set_preprocessing_backend im (rule_preprocessing_backend rules)))
    as (stage & Hstage).
  assert (Hm : exists memory, rule_memory_caps rules = [memory]).
  { destruct Hcaps as [-> | ->]; eexists; reflexivity. }
  destruct Hm as (memory & Hm).
  exists im, uri, source, rules, memory, und, stage.
  split; [exact Him|]. split; [exact Huri|]. split; [exact Hsrc|].
  split; [exact Hrules|]. split; [exact Hm|]. split; [exact Hu1|].
  split; [exact Hu2|]. split; [exact Hstage|].
  rewrite generate_built, Hm, Hstage, Hpost. reflexivity.
Qed.

Lemma backend_applied_twice (im : InferenceModel) (backend : string) :
  set_preprocessing_backend (set_preprocessing_backend im backend) backend
  = set_preprocessing_backend im backend.
Proof.
  unfold set_preprocessing_backend.
  destruct (negb (String.eqb backend "")); [|reflexivity].
  unfold set_model_param, with_params, with_model_params. cbn.
  now rewrite set_set_same.
Qed.

(** [generate] writes the backend into the model it holds; calling it again
    on the same object gives the same descriptor. *)
Lemma generate_idempotent (self : PipelineGenerator) :
  snd (generate (fst (generate self))) = snd (generate self).
Proof.
  assert (E : fst (generate self) = fst (generate_components self)).
  { unfold generate. now destruct (generate_components self). }
  rewrite E, !generate_join, !generate_components_order.
  unfold generate_components. cbn [fst].
  destruct (negb (String.eqb (preprocessing_backend self) "")) eqn:Eb;
    [|reflexivity].
  cbn [with_inference_model input decode memory_caps undistort timestamp
       inference_model preprocessing_backend metadata_conversion
       post_gpu_inference_conversion adapter sink].
  now rewrite backend_applied_twice.
Qed.

End PipelineAssembler.

Lemma generate_stage_order_witness :
  generate_pipeline (B := literal_builtins)
    (AssemblySpec.example_camera (VBool true)) ConfigSpec.example_model_config
  = inr (AssemblySpec.example_descriptor [undistort_element]) /\
  exists undist inference,
    AssemblySpec.example_descriptor [undistort_element] =
      PyStr.join AssemblySpec.chain_link
        (AssemblySpec.stage_order
           ["rtspsrc location=rtsp://10.0.0.7:8554/live latency=200 name=source";
            "rtph264depay"; "h264parse"]
           ["decodebin3"; "vapostproc"]
           "video/x-raw(memory:VAMemory)" undist inference true).
Proof.
  assert (E : generate_pipeline (B := literal_builtins)
                (AssemblySpec.example_camera (VBool true))
                ConfigSpec.example_model_config
              = inr (AssemblySpec.example_descriptor [undistort_element]))
    by (vm_compute; reflexivity).
  split; [exact E|].
  destruct (generate_stage_order (B := literal_builtins) _ _ _ E)
    as (model & uri & source & rules & memory & undist & inference
        & Hm & Hu & Hs & Hr & Hc & _ & _ & _ & Hd).
  vm_compute in Hm. injection Hm as <-.
  vm_compute in Hu. injection Hu as <-.
  vm_compute in Hs. injection Hs as <-.
  vm_compute in Hr. injection Hr as <-.
  vm_compute in Hc. injection Hc as <-.
  exists undist, inference. exact Hd.
Defined.

Section UndistortGate.
Context {B : Builtins}.
Import AssemblySpec DeviceSpec.

Lemma UndistortOff_truthy (cs : dict) :
  UndistortOff cs <-> truthy (Dict.get_default "undistort" VNone cs) = false.
Proof.
  unfold UndistortOff, Dict.get_default.
  destruct (Dict.get "undistort" cs) as [v|]; simpl.
  - split; [intros [H|(v' & [= <-] & H)]; [discriminate|exact H]|].
    intros H. right. now exists v.
  - split; [reflexivity|now left].
Qed.

Lemma parse_source_other (uri root : string) (source : list string) :
  _parse_source uri root = inr source -> Forall other_stage source.
Proof.
  unfold _parse_source. intros H.
  destruct (PyStr.startswith "rtsp://" uri);
    [|destruct (PyStr.startswith "file://" uri);
      [|destruct (PyStr.startswith "http://" uri || PyStr.startswith "https://" uri);
        [|discriminate]]];
    inversion H; repeat constructor.
Qed.

Lemma inference_element_names (model_type : pyval) (e : string) :
  _get_inference_element_name model_type = inr e ->
  e = "gvadetect" \/ e = "gvaclassify".
Proof.
  unfold _get_inference_element_name.
  destruct (eq_str model_type "detect"); [intros [= <-]; now left|].
  destruct (eq_str model_type "classify"); [intros [= <-]; now right|discriminate].
Qed.

Lemma init_model_element (folder : string) (e : pyval) (mc : dict)
  (im : InferenceModel) :
  InferenceModel_init folder e mc = inr im ->
  inference_element im = "gvadetect" \/ inference_element im = "gvaclassify".
Proof.
  unfold InferenceModel_init. intros H.
  inv_bind H as nd Hnd. destruct nd as [name dev].
  inv_bind H as loaded Hl. inv_bind H as el Hel.
  apply inference_element_names in Hel.
  unfold ret in H. injection H as <-. exact Hel.
Qed.

Lemma serialize_other (im : InferenceModel) (backend : string) :
  inference_element im = "gvadetect" \/ inference_element im = "gvaclassify" ->
  Forall other_stage (serialize (set_preprocessing_backend im backend)).
Proof.
  intros H.
  assert (E : inference_element (set_preprocessing_backend im backend)
              = inference_element im).
  { unfold set_preprocessing_backend.
    destruct (negb (String.eqb backend "")); reflexivity. }
  unfold serialize. rewrite E. constructor; [|constructor].
  destruct H as [-> | ->]; reflexivity.
Qed.

Lemma device_rules_ext (cs cs' : dict) (im : InferenceModel) :
  Dict.get "cv_subsystem" cs' = Dict.get "cv_subsystem" cs ->
  _apply_device_rule_set cs' im = _apply_device_rule_set cs im.
Proof.
  intros H. unfold _apply_device_rule_set, Dict.get_default. now rewrite H.
Qed.

Lemma Forall_app_intro {A : Type} (P : A -> Prop) (l1 l2 : list A) :
  Forall P l1 -> Forall P l2 -> Forall P (l1 ++ l2)%list.
Proof. intros H1 H2. apply Forall_app. now split. Qed.

Lemma generate_built_settings (cs cs' : dict) (im : InferenceModel)
  (source : list string) (rules : DeviceRules) (und : list string) :
  snd (generate (built cs' im source rules und))
  = snd (generate (built cs im source rules und)).
Proof. now rewrite !generate_built. Qed.

(** C10. With the ['undistort'] entry absent or falsy, the object built
    has no undistortion stage and none of the stages that [generate]
    lists is the undistortion stage; and changing, adding or removing the
    nine calibration entries changes nothing in the outcome of
    generation, so those entries are not consulted. *)
Theorem undistort_flag_gates (cs mc : dict) :
  UndistortOff cs ->
  (forall self, PipelineGenerator_init cs mc = inr self ->
     undistort self = [] /\
     ~ In "cameraundistort settings=cameraundistort0"
          (snd (generate_components self))) /\
  (forall cs',
     (forall k, ~ In k calibration_keys -> Dict.get k cs' = Dict.get k cs) ->
     generate_pipeline cs' mc = generate_pipeline cs mc).
Proof.
  intros Hoff. apply UndistortOff_truthy in Hoff. split.
  - intros self Hinit.
    apply init_inv in Hinit
      as (im & uri & source & rules & und & Him & Huri & Hsrc & Hrules & Hund & ->).
    unfold undistort_choice in Hund. rewrite Hoff in Hund.
    unfold ret in Hund. injection Hund as <-.
    split; [reflexivity|].
    intros Hin.
    assert (Hall : Forall other_stage (snd (generate_components (built cs im source rules [])))).
    { rewrite generate_components_order. cbn [built input decode memory_caps
        undistort timestamp inference_model preprocessing_backend
        metadata_conversion post_gpu_inference_conversion adapter sink].
      destruct (device_rules_inv _ _ _ Hrules) as (d & _ & Hdec & Hcaps & _).
      apply Forall_app_intro; [eapply parse_source_other; exact Hsrc|].
      apply Forall_app_intro; [rewrite Hdec; destruct d; repeat constructor|].
      apply Forall_app_intro; [destruct Hcaps as [-> | ->]; repeat constructor|].
      apply Forall_app_intro; [constructor|].
      apply Forall_app_intro; [repeat constructor|].
      apply Forall_app_intro;
        [apply serialize_other; eapply init_model_element; exact Him|].
      apply Forall_app_intro; [repeat constructor|].
      apply Forall_app_intro; [repeat constructor|].
      apply Forall_app_intro;
        [destruct (rule_post_gpu_inference_conversion rules); repeat constructor|].
      apply Forall_app_intro; repeat constructor. }
    rewrite Forall_forall in Hall. specialize (Hall _ Hin). discriminate.
  - intros cs' Hk.
    assert (Hget : forall k, In k ["camerachain"; "command"; "cv_subsystem"; "undistort"] ->
              Dict.get k cs' = Dict.get k cs).
    { intros k Hin. apply Hk. intros Hc.
      simpl in Hin, Hc.
      repeat (destruct Hin as [<-|Hin];
              [repeat (destruct Hc as [Hc|Hc]; [discriminate|]); exact Hc|]).
      exact Hin. }
    assert (Hoff' : truthy (Dict.get_default "undistort" VNone cs') = false).
    { unfold Dict.get_default in *. rewrite Hget by (simpl; tauto). exact Hoff. }
    rewrite !generate_pipeline_unfold.
    unfold undistort_choice, Dict.get_default, Dict.getitem.
    unfold Dict.get_default in Hoff, Hoff'. rewrite Hoff, Hoff'.
    rewrite !(Hget "camerachain"), !(Hget "command") by (simpl; tauto).
    destruct (InferenceModel_init _ _ _) as [e|im]; [reflexivity|]. cbn [bind].
    destruct (Dict.get "command" cs) as [command|]; [|reflexivity]. cbn [bind ret].
    destruct (_parse_source_dyn command video_path) as [e|source]; [reflexivity|].
    cbn [bind].
    rewrite (device_rules_ext cs cs' im) by (apply Hget; simpl; tauto).
    destruct (_apply_device_rule_set cs im) as [e|rules]; [reflexivity|]. cbn [bind].
    f_equal. apply generate_built_settings.
Qed.

End UndistortGate.

Lemma undistort_flag_gates_witness :
  AssemblySpec.UndistortOff (AssemblySpec.example_camera (VBool false)) /\
  UndistortSpec.KeysPresent AssemblySpec.calibration_keys
    (AssemblySpec.example_camera (VBool false)) /\
  add_camera_undistort (B := literal_builtins)
    (AssemblySpec.example_camera (VBool false)) = inr [undistort_element] /\
  generate_pipeline (B := literal_builtins)
    (("intrinsics_fx", VStr "none") :: AssemblySpec.example_camera (VBool false))
    ConfigSpec.example_model_config
  = inr (AssemblySpec.example_descriptor []).
Proof.
  assert (Off : AssemblySpec.UndistortOff (AssemblySpec.example_camera (VBool false))).
  { right. exists (VBool false). split; reflexivity. }
  split; [exact Off|]. split.
  { intros k Hk. simpl in Hk.
    repeat (destruct Hk as [<-|Hk]; [eexists; reflexivity|]). contradiction. }
  split; [reflexivity|].
  destruct (undistort_flag_gates (B := literal_builtins)
              (AssemblySpec.example_camera (VBool false))
              ConfigSpec.example_model_config Off) as [_ Hsame].
  rewrite (Hsame (("intrinsics_fx", VStr "none")
                  :: AssemblySpec.example_camera (VBool false))).
  - vm_compute. reflexivity.
  - intros k Hk. apply get_cons_neq. intros <-. apply Hk. left. reflexivity.
Defined.

(* ===================================================================== *)
(** * Further properties of the generator *)

Section MoreOnExpressions.
Import PyStr Spec More.

Lemma strip_fixed (t : string) :
  (forall c, first_char t = Some c -> is_space c = false) ->
  (forall c, last_char t = Some c -> is_space c = false) ->
  strip t = t.
Proof.
  intros Hf Hl. apply Trimmed_strip. exists "", "". simpl.
  rewrite append_nil_r. repeat split; assumption.
Qed.

Lemma strip_idempotent (s : string) : strip (strip s) = strip s.
Proof.
  destruct (strip_Trimmed s) as (l & r & _ & _ & _ & Hf & Hl).
  now apply strip_fixed.
Qed.

Lemma all_chars_contains (p : ascii -> bool) (c : ascii) (s : string) :
  all_chars p s = true -> p c = false -> contains c s = false.
Proof.
  intros Hs Hc. induction s as [|a s IH]; simpl in *; [reflexivity|].
  apply andb_true_iff in Hs as [Ha Hs]. rewrite (IH Hs), orb_false_r.
  destruct (Ascii.eqb a c) eqn:E; [|reflexivity].
  apply Ascii.eqb_eq in E. subst. congruence.
Qed.

Lemma name_pattern_no_equals (n : string) :
  name_pattern n = true -> contains "=" n = false.
Proof.
  destruct n as [|c n]; simpl; [discriminate|]. intros H.
  apply andb_true_iff in H as [Hc Hn].
  rewrite (all_chars_contains _ "=" _ Hn eq_refl), orb_false_r.
  destruct (Ascii.eqb c "=") eqn:E; [|reflexivity].
  apply Ascii.eqb_eq in E. subst. discriminate.
Qed.

(** What a successful parse tells about the expression. *)
Lemma parse_inr_inv (e n : string) (od : option string) :
  _parse_model_expr e = inr (n, od) ->
  name_pattern n = true /\ strip n = n /\
  match od with
  | None => contains "=" e = false /\ n = strip e
  | Some d => d <> "" /\ strip d = d /\
              exists n0 d0, e = n0 ++ String "=" d0 /\ contains "=" n0 = false /\
                            n = strip n0 /\ d = strip d0
  end.
Proof.
  intros H. destruct (contains "=" e) eqn:Hc.
  - destruct (contains_split _ _ Hc) as (n0 & d0 & -> & Hn0).
    rewrite (parse_with_device _ d0 Hn0) in H.
    destruct (String.eqb (strip d0) "") eqn:Hd; [discriminate|].
    destruct (name_pattern (strip n0)) eqn:Hp; [|discriminate].
    injection H as <- <-. apply String.eqb_neq in Hd.
    repeat split; try assumption; try apply strip_idempotent.
    now exists n0, d0.
  - rewrite (parse_no_device _ Hc) in H.
    destruct (name_pattern (strip e)) eqn:Hp; [|discriminate].
    injection H as <- <-.
    repeat split; try assumption; apply strip_idempotent.
Qed.

(** X1. Parsing loses nothing but white space: joining the parsed name and
    device again with ['='] gives an expression that parses to the same
    name and device. *)
Theorem parse_rejoin (e n : string) (od : option string) :
  _parse_model_expr e = inr (n, od) ->
  _parse_model_expr (rejoin n od) = inr (n, od).
Proof.
  intros H. destruct (parse_inr_inv _ _ _ H) as (Hp & Hs & Hod).
  pose proof (name_pattern_no_equals _ Hp) as Hne.
  destruct od as [d|]; simpl.
  - destruct Hod as (Hd & Hsd & _).
    change (n ++ "=" ++ d) with (n ++ String "=" d).
    rewrite (parse_with_device _ d Hne), Hs, Hsd, Hp.
    apply String.eqb_neq in Hd. now rewrite Hd.
  - now rewrite (parse_no_device _ Hne), Hs, Hp.
Qed.

End MoreOnExpressions.

Lemma parse_rejoin_witness :
  _parse_model_expr "  retail-v2 = GPU.0 " = inr ("retail-v2", Some "GPU.0") /\
  _parse_model_expr "retail-v2=GPU.0" = inr ("retail-v2", Some "GPU.0").
Proof.
  assert (E : _parse_model_expr "  retail-v2 = GPU.0 "
              = inr ("retail-v2", Some "GPU.0")) by reflexivity.
  split; [exact E|]. exact (parse_rejoin _ _ _ E).
Defined.

Section MoreOnConfigResolver.
Context {B : Builtins}.
Import More.

Lemma set_fresh (k : string) (v : pyval) (d : dict) :
  ~ In k (Dict.keys d) -> Dict.set k v d = (d ++ [(k, v)])%list.
Proof.
  induction d as [|[k' v'] d IH]; simpl; intros H; [reflexivity|].
  destruct (String.eqb k' k) eqn:E.
  - apply String.eqb_eq in E. exfalso. apply H. now left.
  - f_equal. apply IH. intros Hin. apply H. now right.
Qed.

Lemma resolve_loop_step (folder k : string) (v : pyval)
  (items : list (string * pyval)) (acc : dict) :
  path_item_ok (k, v) ->
  _resolve_paths_loop folder ((k, v) :: items) acc =
  _resolve_paths_loop folder items
    (Dict.set k (snd (resolved_item folder (k, v))) acc).
Proof.
  unfold path_item_ok, resolved_item, is_path_key. cbn [_resolve_paths_loop fst snd existsb].
  rewrite orb_false_r. intros H.
  destruct (String.eqb k "model" || String.eqb k "model_proc") eqn:E.
  - destruct (H eq_refl) as (p & ->). reflexivity.
  - destruct v; reflexivity.
Qed.

Lemma resolved_item_key (folder : string) (kv : string * pyval) :
  fst (resolved_item folder kv) = fst kv.
Proof.
  destruct kv as [k v]. unfold resolved_item.
  destruct v; try reflexivity. now destruct (is_path_key k).
Qed.

Lemma resolve_loop_map (folder : string) (items : list (string * pyval)) :
  forall acc,
    NoDup (Dict.keys items) ->
    (forall k, In k (Dict.keys items) -> ~ In k (Dict.keys acc)) ->
    Forall path_item_ok items ->
    _resolve_paths_loop folder items acc
    = inr (acc ++ map (resolved_item folder) items)%list.
Proof.
  induction items as [|[k v] items IH]; intros acc Hnd Hdis Hok.
  - simpl. now rewrite app_nil_r.
  - inversion Hnd as [|? ? Hk Hnd']; subst.
    inversion Hok as [|? ? Hkv Hok']; subst.
    rewrite (resolve_loop_step _ _ _ _ _ Hkv).
    assert (Hfresh : ~ In k (Dict.keys acc)) by (apply Hdis; now left).
    rewrite (set_fresh _ _ _ Hfresh).
    rewrite IH; try assumption.
    + rewrite <- app_assoc. cbn [map app]. do 3 f_equal.
      pose proof (resolved_item_key folder (k, v)) as Hkey.
      destruct (resolved_item folder (k, v)) as [k' v']. simpl in *. now subst.
    + intros k0 H0. unfold Dict.keys. rewrite map_app. simpl.
      intros Hin. apply in_app_or in Hin. destruct Hin as [Hin|[<-|[]]].
      * apply (Hdis k0); [now right|exact Hin].
      * contradiction.
Qed.

Lemma resolve_loop_inr_ok (folder : string) (items : list (string * pyval)) :
  forall acc r,
    _resolve_paths_loop folder items acc = inr r -> Forall path_item_ok items.
Proof.
  induction items as [|[k v] items IH]; intros acc r H; [constructor|].
  cbn [_resolve_paths_loop] in H.
  destruct (existsb (String.eqb k) ["model"; "model_proc"]) eqn:E.
  - destruct v; try discriminate. constructor; [|eapply IH; exact H].
    intros _. now eexists.
  - constructor; [|eapply IH; exact H].
    unfold path_item_ok, is_path_key. simpl in *. rewrite orb_false_r in E.
    rewrite E. discriminate.
Qed.

(** X2. On the parameters of an entry (a dict: no key twice),
    [_resolve_paths] keeps every key in its place, puts the values of
    [model] and [model_proc] under the models folder and leaves every other
    value alone; it fails, with a [TypeError], exactly when [model] or
    [model_proc] holds something that is no string. *)
Theorem resolve_paths_entries (folder : string) (items : list (string * pyval)) :
  Dict.wf items ->
  (Forall path_item_ok items ->
   _resolve_paths folder (VDict items) = inr (map (resolved_item folder) items)) /\
  (~ Forall path_item_ok items ->
   _resolve_paths folder (VDict items) = inl TypeError).
Proof.
  intros Hwf. split.
  - intros Hok. cbn [_resolve_paths].
    rewrite (resolve_loop_map folder items [] Hwf (fun _ _ F => F) Hok). reflexivity.
  - intros Hbad. cbn [_resolve_paths].
    destruct (_resolve_paths_loop folder items []) as [e|r] eqn:E.
    + now rewrite (resolve_loop_error _ _ _ _ E).
    + exfalso. apply Hbad. eapply resolve_loop_inr_ok; exact E.
Qed.

End MoreOnConfigResolver.

Lemma resolve_paths_entries_witness :
  _resolve_paths "/home/pipeline-server/models"
    (VDict [ ("model", VStr "intel/retail.xml");
             ("threshold", VStr "0.5");
             ("model_proc", VStr "/opt/proc/retail.json") ])
  = inr [ ("model", VStr "/home/pipeline-server/models/intel/retail.xml");
          ("threshold", VStr "0.5");
          ("model_proc", VStr "/opt/proc/retail.json") ] /\
  _resolve_paths "/home/pipeline-server/models"
    (VDict [ ("model", VInt 7); ("threshold", VStr "0.5") ]) = inl TypeError.
Proof.
  split.
  - apply (resolve_paths_entries "/home/pipeline-server/models"
             [ ("model", VStr "intel/retail.xml");
               ("threshold", VStr "0.5");
               ("model_proc", VStr "/opt/proc/retail.json") ]).
    + repeat constructor; simpl; intuition discriminate.
    + repeat constructor; intros _; eexists; reflexivity.
  - apply (resolve_paths_entries "/home/pipeline-server/models"
             [ ("model", VInt 7); ("threshold", VStr "0.5") ]).
    + repeat constructor; simpl; intuition discriminate.
    + intros H. inversion H as [|? ? Hm _]; subst.
      destruct (Hm eq_refl) as (p & Hp). discriminate.
Defined.

Section MoreOnModels.
Context {B : Builtins}.
Import More ConfigSpec.

Lemma load_params_inv (folder : string) (mc : dict) (n : string) (loaded : Params) :
  _load_params folder mc n = inr loaded ->
  n <> "" /\
  exists cfg fmt items resolved,
    Dict.get n mc = Some (VDict cfg) /\
    Dict.get_default "input-format" (VDict []) cfg = VDict fmt /\
    Dict.get_default "params" (VDict []) cfg = VDict items /\
    _resolve_paths_loop folder items [] = inr resolved /\
    loaded =
      {| input_format :=
           if truthy (Dict.get_default "color-space" (VStr "") fmt)
           then "format=" ++ py_str (Dict.get_default "color-space" (VStr "") fmt)
           else "";
         model_type := Dict.get_default "type" VNone cfg;
         model_params := _set_default_params resolved |}.
Proof.
  rewrite load_params_cases.
  destruct (String.eqb n "") eqn:En; [discriminate|].
  apply String.eqb_neq in En.
  destruct (Dict.get n mc) as [config|]; [|discriminate].
  unfold load_found. intros H. split; [exact En|].
  inv_bind H as ifd Hifd. apply call_get_inr in Hifd as (cfg & -> & ->).
  inv_bind H as cs Hcs. apply call_get_inr in Hcs as (fmt & Hfmt & ->).
  inv_bind H as raw Hraw. apply call_get_inr in Hraw as (cfg' & [= <-] & ->).
  inv_bind H as resolved Hres.
  inv_bind H as mt Hmt. apply call_get_inr in Hmt as (cfg'' & [= <-] & ->).
  destruct (Dict.get_default "params" (VDict []) cfg) as [| | | | |?|items] eqn:Ei;
    try discriminate.
  exists cfg, fmt, items, resolved.
  unfold ret in H. injection H as <-. repeat split; assumption.
Qed.

Lemma parse_dyn_inv (expr : pyval) (n : string) (od : option string) :
  _parse_model_expr_dyn expr = inr (n, od) ->
  exists e, expr = VStr e /\ _parse_model_expr e = inr (n, od).
Proof. destruct expr; simpl; try discriminate. intros H. now exists s. Qed.

Lemma model_init_inv (folder : string) (expr : pyval) (mc : dict) (im : InferenceModel) :
  InferenceModel_init folder expr mc = inr im ->
  exists e loaded,
    expr = VStr e /\
    _parse_model_expr e = inr (model_name im, device im) /\
    _load_params folder mc (model_name im) = inr loaded /\
    _get_inference_element_name (model_type loaded) = inr (inference_element im) /\
    params im = with_device loaded (device im).
Proof.
  unfold InferenceModel_init. intros H.
  inv_bind H as nd Hnd. destruct nd as [n od].
  inv_bind H as loaded Hl. inv_bind H as el Hel.
  unfold ret in H. injection H as <-. cbn [model_name device params inference_element].
  apply parse_dyn_inv in Hnd as (e & -> & He).
  exists e, loaded. split; [reflexivity|]. split; [exact He|]. split; [exact Hl|].
  destruct (parse_inr_inv _ _ _ He) as (_ & _ & Hod).
  destruct od as [d|]; unfold _set_target_device in *; cbn [device] in *.
  - destruct Hod as (Hd & _). apply String.eqb_neq in Hd. rewrite Hd in *.
    cbn [negb] in *. split; [exact Hel|reflexivity].
  - split; [exact Hel|reflexivity].
Qed.

(** X3. A device given in the expression is written under [device],
    whatever the entry said there, is the target device, and no other
    parameter changes; with no device in the expression the parameters are
    the resolved ones and the target device is CPU, whatever the entry says
    under [device]. *)
Theorem explicit_device_overrides (folder : string) (expr : pyval) (mc : dict)
  (im : InferenceModel) :
  InferenceModel_init folder expr mc = inr im ->
  exists loaded,
    _load_params folder mc (model_name im) = inr loaded /\
    match device im with
    | Some d =>
        d <> "" /\ get_target_device im = d /\
        Dict.get "device" (model_params (params im)) = Some (VStr d) /\
        (forall k, k <> "device" ->
           Dict.get k (model_params (params im)) = Dict.get k (model_params loaded))
    | None => get_target_device im = "CPU" /\ params im = loaded
    end.
Proof.
  intros H. destruct (model_init_inv _ _ _ _ H) as (e & loaded & _ & He & Hl & _ & Hp).
  exists loaded. split; [exact Hl|].
  destruct (parse_inr_inv _ _ _ He) as (_ & _ & Hod).
  unfold get_target_device. rewrite Hp.
  destruct (device im) as [d|]; cbn [with_device with_model_params model_params].
  - destruct Hod as (Hd & _). split; [exact Hd|].
    apply String.eqb_neq in Hd. rewrite Hd. cbn [negb].
    split; [reflexivity|]. split; [apply get_set_eq|].
    intros k Hk. now apply get_set_neq.
  - split; reflexivity.
Qed.

Lemma element_name_inv (mt : pyval) (el : string) :
  _get_inference_element_name mt = inr el ->
  (mt = VStr "detect" /\ el = "gvadetect") \/
  (mt = VStr "classify" /\ el = "gvaclassify").
Proof.
  unfold _get_inference_element_name.
  destruct mt; simpl; try discriminate.
  destruct (String.eqb s "detect") eqn:E1.
  - apply String.eqb_eq in E1. subst. intros [= <-]. now left.
  - destruct (String.eqb s "classify") eqn:E2; [|discriminate].
    apply String.eqb_eq in E2. subst. intros [= <-]. now right.
Qed.

(** X4. A model is only ever built from an entry whose [type] is the string
    [detect] or [classify], and its element is [gvadetect] for the first
    and [gvaclassify] for the second. *)
Theorem model_type_selects_element (folder : string) (expr : pyval) (mc : dict)
  (im : InferenceModel) :
  InferenceModel_init folder expr mc = inr im ->
  exists cfg,
    Dict.get (model_name im) mc = Some (VDict cfg) /\
    ((Dict.get "type" cfg = Some (VStr "detect") /\
      inference_element im = "gvadetect") \/
     (Dict.get "type" cfg = Some (VStr "classify") /\
      inference_element im = "gvaclassify")).
Proof.
  intros H. destruct (model_init_inv _ _ _ _ H) as (e & loaded & _ & _ & Hl & Hel & _).
  destruct (load_params_inv _ _ _ _ Hl) as (_ & cfg & fmt & items & resolved
                                               & Hc & _ & _ & _ & ->).
  exists cfg. split; [exact Hc|]. cbn [model_type] in Hel.
  unfold Dict.get_default in Hel.
  destruct (element_name_inv _ _ Hel) as [[Ht ->]|[Ht ->]];
    destruct (Dict.get "type" cfg); try discriminate; subst; auto.
Qed.

Lemma wf_update (d o : dict) : Dict.wf d -> Dict.wf (Dict.update d o).
Proof.
  unfold Dict.update. revert d.
  induction o as [|[k1 v1] o IH]; simpl; intros d H; [exact H|].
  apply IH. now apply wf_set.
Qed.

Lemma keys_update_prefix (d o : dict) :
  exists rest, Dict.keys (Dict.update d o) = (Dict.keys d ++ rest)%list.
Proof.
  unfold Dict.update. revert d.
  induction o as [|[k1 v1] o IH]; simpl; intros d.
  - exists []. now rewrite app_nil_r.
  - destruct (IH (Dict.set k1 v1 d)) as (rest & ->). rewrite keys_set.
    destruct (Dict.mem k1 d); [now exists rest|].
    exists (k1 :: rest). now rewrite <- app_assoc.
Qed.

Lemma keys_set_prefix (k : string) (v : pyval) (d : dict) (front rest : list string) :
  Dict.keys d = (front ++ rest)%list ->
  exists rest', Dict.keys (Dict.set k v d) = (front ++ rest')%list.
Proof.
  intros H. rewrite keys_set, H.
  destruct (Dict.mem k d); [now exists rest|].
  exists (rest ++ [k])%list. now rewrite app_assoc.
Qed.

(** X5. In the stage of a built model no parameter comes twice, also after
    a backend is set, and the three default keys come first, in the order
    scheduling-policy, batch-size, inference-interval. *)
Theorem model_params_keys (folder : string) (expr : pyval) (mc : dict)
  (im : InferenceModel) (backend : string) :
  InferenceModel_init folder expr mc = inr im ->
  let served := model_params (params (set_preprocessing_backend im backend)) in
  NoDup (Dict.keys served) /\
  exists rest, Dict.keys served = (default_keys ++ rest)%list.
Proof.
  intros H served.
  destruct (model_init_inv _ _ _ _ H) as (e & loaded & _ & _ & Hl & _ & Hp).
  destruct (load_params_inv _ _ _ _ Hl) as (_ & cfg & fmt & items & resolved
                                               & _ & _ & _ & _ & ->).
  assert (W0 : Dict.wf (_set_default_params resolved)).
  { unfold _set_default_params. apply wf_update.
    unfold Dict.wf, DEFAULT_PARAMS. simpl.
    repeat constructor; simpl; intuition discriminate. }
  assert (K0 : exists rest, Dict.keys (_set_default_params resolved)
                            = (default_keys ++ rest)%list).
  { unfold _set_default_params. apply (keys_update_prefix DEFAULT_PARAMS). }
  assert (W1 : Dict.wf (model_params (params im)) /\
               exists rest, Dict.keys (model_params (params im))
                            = (default_keys ++ rest)%list).
  { rewrite Hp. destruct (device im) as [d|]; cbn [with_device with_model_params model_params].
    - split; [now apply wf_set|]. destruct K0 as (rest & K0).
      eapply keys_set_prefix; exact K0.
    - split; assumption. }
  destruct W1 as (W1 & rest & K1).
  subst served. unfold set_preprocessing_backend.
  destruct (negb (String.eqb backend "")).
  - cbn [set_model_param with_params with_model_params params model_params].
    split; [now apply wf_set|]. eapply keys_set_prefix; exact K1.
  - split; [exact W1|now exists rest].
Qed.

End MoreOnModels.

Lemma explicit_device_overrides_witness :
  exists im,
    InferenceModel_init (B := literal_builtins) PipelineGenerator_models_folder
      (VStr "edge=GPU")
      [ ("edge", VDict [ ("type", VStr "classify");
                         ("params", VDict [ ("device", VStr "NPU");
                                            ("model", VStr "edge.xml") ]) ]) ]
    = inr im /\
    get_target_device im = "GPU" /\
    Dict.get "device" (model_params (params im)) = Some (VStr "GPU") /\
    serialize (B := literal_builtins) im
    = ["gvaclassify scheduling-policy=latency batch-size=1 inference-interval=1 device=GPU model=/home/pipeline-server/models/edge.xml"].
Proof.
  eexists. split; [reflexivity|].
  match goal with
  | |- get_target_device ?m = _ /\ _ =>
      destruct (explicit_device_overrides (B := literal_builtins)
                  PipelineGenerator_models_folder (VStr "edge=GPU")
                  [ ("edge", VDict [ ("type", VStr "classify");
                                     ("params", VDict [ ("device", VStr "NPU");
                                                        ("model", VStr "edge.xml") ]) ]) ]
                  m eq_refl) as (loaded & _ & Hd)
  end.
  cbn [device] in Hd. destruct Hd as (_ & Ht & Hg & _).
  split; [exact Ht|]. split; [exact Hg|]. reflexivity.
Defined.

Lemma model_type_selects_element_witness :
  exists cfg,
    Dict.get "retail" ConfigSpec.example_model_config = Some (VDict cfg) /\
    ((Dict.get "type" cfg = Some (VStr "detect") /\
      inference_element DeviceSpec.example_model_gpu = "gvadetect") \/
     (Dict.get "type" cfg = Some (VStr "classify") /\
      inference_element DeviceSpec.example_model_gpu = "gvaclassify")).
Proof.
  exact (model_type_selects_element (B := literal_builtins)
           PipelineGenerator_models_folder (VStr "retail=GPU")
           ConfigSpec.example_model_config DeviceSpec.example_model_gpu eq_refl).
Defined.

Lemma model_params_keys_witness :
  NoDup (Dict.keys (model_params (params
           (set_preprocessing_backend DeviceSpec.example_model_gpu "opencv")))) /\
  exists rest,
    Dict.keys (model_params (params
      (set_preprocessing_backend DeviceSpec.example_model_gpu "opencv")))
    = (More.default_keys ++ rest)%list.
Proof.
  exact (model_params_keys (B := literal_builtins)
           PipelineGenerator_models_folder (VStr "retail=GPU")
           ConfigSpec.example_model_config DeviceSpec.example_model_gpu "opencv"
           eq_refl).
Defined.

Example entry_device_is_not_the_target :
  (im <- InferenceModel_init (B := literal_builtins) PipelineGenerator_models_folder
           (VStr "edge")
           [ ("edge", VDict [ ("type", VStr "detect");
                              ("params", VDict [ ("device", VStr "GPU") ]) ]) ] ;;
   ret (get_target_device im, serialize (B := literal_builtins) im))%result
  = inr ("CPU",
         ["gvadetect scheduling-policy=latency batch-size=1 inference-interval=1 device=GPU"]).
Proof. reflexivity. Qed.

Section MoreOnAssembly.
Context {B : Builtins}.
Import More AssemblySpec.


(** X7. [override_sink] replaces the sink and nothing else: the stages up to
    the sink stay as they were and the new sink comes last; of two
    overrides the later one counts. *)
Theorem override_sink_last (self : PipelineGenerator) (new_sink : string) :
  (exists front,
     snd (generate_components self) = (front ++ sink self)%list /\
     snd (generate_components (override_sink self new_sink))
       = (front ++ [new_sink])%list /\
     snd (generate (override_sink self new_sink))
       = PyStr.join " ! " (front ++ [new_sink])) /\
  (forall later,
     override_sink (override_sink self new_sink) later = override_sink self later).
Proof.
  split; [|reflexivity].
  exists (input self ++ decode self ++ memory_caps self ++ undistort self
          ++ timestamp self
          ++ serialize (set_preprocessing_backend (inference_model self)
                          (preprocessing_backend self))
          ++ ["queue"] ++ metadata_conversion self
          ++ (if post_gpu_inference_conversion self
              then ["vapostproc"; "video/x-raw,format=BGRA"] else [])
          ++ adapter self)%list.
  assert (E : snd (generate_components (override_sink self new_sink))
              = ((input self ++ decode self ++ memory_caps self ++ undistort self
                  ++ timestamp self
                  ++ serialize (set_preprocessing_backend (inference_model self)
                                  (preprocessing_backend self))
                  ++ ["queue"] ++ metadata_conversion self
                  ++ (if post_gpu_inference_conversion self
                      then ["vapostproc"; "video/x-raw,format=BGRA"] else [])
                  ++ adapter self) ++ [new_sink])%list).
  { rewrite generate_components_order. cbn [override_sink input decode memory_caps
      undistort timestamp inference_model preprocessing_backend metadata_conversion
      post_gpu_inference_conversion adapter sink].
    now rewrite <- !app_assoc. }
  split; [|split].
  - rewrite generate_components_order. now rewrite <- !app_assoc.
  - exact E.
  - now rewrite generate_join, E.
Qed.





Lemma add_camera_undistort_ext (cs cs' : dict) :
  (forall k, In k calibration_keys -> Dict.get k cs' = Dict.get k cs) ->
  add_camera_undistort cs' = add_camera_undistort cs.
Proof.
  intros Hk. unfold add_camera_undistort, all_in, intrinsics_keys, dist_coeffs_keys.
  cbn [forallb list_comp]. unfold Dict.mem, Dict.getitem.
  rewrite !Hk by (simpl; tauto). reflexivity.
Qed.

Lemma generate_reads_keys_lemma (cs cs' mc : dict) :
  (forall k, In k read_keys -> Dict.get k cs' = Dict.get k cs) ->
  generate_pipeline cs' mc = generate_pipeline cs mc.
Proof.
  intros Hk. rewrite !generate_pipeline_unfold.
  unfold undistort_choice, Dict.get_default, Dict.getitem.
  rewrite !(Hk "camerachain"), !(Hk "command"), !(Hk "undistort")
    by (simpl; tauto).
  rewrite (add_camera_undistort_ext cs cs')
    by (intros k Hin; apply Hk; simpl in *; tauto).
  destruct (InferenceModel_init _ _ _) as [e|im]; [reflexivity|]. cbn [bind].
  destruct (Dict.get "command" cs) as [command|]; [|reflexivity]. cbn [bind ret].
  destruct (_parse_source_dyn command video_path) as [e|source]; [reflexivity|].
  cbn [bind].
  rewrite (device_rules_ext cs cs' im) by (apply Hk; simpl; tauto).
  destruct (_apply_device_rule_set cs im) as [e|rules]; [reflexivity|]. cbn [bind].
  destruct (if truthy _ then _ else _) as [e|und]; [reflexivity|]. cbn [bind].
  f_equal. apply generate_built_settings.
Qed.

(** X9. Generation reads thirteen keys of the camera settings and no other:
    settings that agree on the model expression, the command, the decode
    device, the undistort flag and the nine calibration values give the
    same outcome, descriptor or exception. *)
Theorem generate_reads_keys (cs cs' mc : dict) :
  (forall k, In k read_keys -> Dict.get k cs' = Dict.get k cs) ->
  generate_pipeline cs' mc = generate_pipeline cs mc.
Proof. exact (generate_reads_keys_lemma cs cs' mc). Qed.

End MoreOnAssembly.


Lemma generate_reads_keys_witness :
  generate_pipeline (B := literal_builtins)
    (("name", VStr "door") :: ("modelconfig", VNone)
     :: AssemblySpec.example_camera (VBool true))
    ConfigSpec.example_model_config
  = generate_pipeline (B := literal_builtins)
      (AssemblySpec.example_camera (VBool true)) ConfigSpec.example_model_config.
Proof.
  apply (generate_reads_keys (B := literal_builtins)).
  intros k Hk. rewrite !get_cons_neq; [reflexivity| |];
    intros <-; simpl in Hk; intuition discriminate.
Defined.

Section MoreOnInputFormat.
Context {B : Builtins}.
Import More AssemblySpec.

Lemma generate_pipeline_inv (cs mc : dict) (d : string) :
  generate_pipeline cs mc = inr d ->
  exists im uri source rules und,
    InferenceModel_init PipelineGenerator_models_folder
      (Dict.get_default "camerachain" VNone cs) mc = inr im /\
    Dict.get "command" cs = Some (VStr uri) /\
    _parse_source uri video_path = inr source /\
    _apply_device_rule_set cs im = inr rules /\
    undistort_choice cs = inr und /\
    d = snd (generate (built cs im source rules und)).
Proof.
  unfold generate_pipeline. intros H. inv_bind H as self Hinit.
  assert (Hd : d = snd (generate self)) by (unfold ret in H; congruence).
  apply init_inv in Hinit
    as (im & uri & source & rules & und & Him & Huri & Hsrc & Hrules & Hund & ->).
  now exists im, uri, source, rules, und.
Qed.

Lemma device_rules_model_ext (cs : dict) (im im' : InferenceModel) :
  device im' = device im ->
  _apply_device_rule_set cs im' = _apply_device_rule_set cs im.
Proof.
  intros H. unfold _apply_device_rule_set, get_target_device. now rewrite H.
Qed.

Lemma serialize_ext (im im' : InferenceModel) (backend : string) :
  inference_element im' = inference_element im ->
  model_params (params im') = model_params (params im) ->
  serialize (set_preprocessing_backend im' backend)
  = serialize (set_preprocessing_backend im backend).
Proof.
  intros He Hp. unfold set_preprocessing_backend.
  destruct (negb (String.eqb backend "")); unfold serialize;
    cbn [set_model_param with_params with_model_params params model_params
         inference_element]; now rewrite He, Hp.
Qed.

(** X10. The [input-format] of a configuration entry never reaches the
    descriptor: two configurations whose entries agree on every key but
    [input-format] give, where both generate, the same descriptor. *)
Theorem input_format_ignored (cs mc mc' : dict) (d d' : string) :
  generate_pipeline cs mc = inr d ->
  generate_pipeline cs mc' = inr d' ->
  (forall n cfg cfg',
     Dict.get n mc = Some (VDict cfg) -> Dict.get n mc' = Some (VDict cfg') ->
     forall k, k <> "input-format" -> Dict.get k cfg' = Dict.get k cfg) ->
  d = d'.
Proof.
  intros H H' Hsame.
  apply generate_pipeline_inv in H
    as (im & uri & source & rules & und & Him & Huri & Hsrc & Hrules & Hund & ->).
  apply generate_pipeline_inv in H'
    as (im' & uri' & source' & rules' & und' & Him' & Huri' & Hsrc' & Hrules' & Hund' & ->).
  assert (uri' = uri) by congruence. subst uri'.
  assert (source' = source) by congruence. subst source'.
  assert (und' = und) by congruence. subst und'.
  destruct (model_init_inv _ _ _ _ Him) as (e & loaded & He & Hparse & Hl & Hel & Hp).
  destruct (model_init_inv _ _ _ _ Him') as (e' & loaded' & He' & Hparse' & Hl' & Hel' & Hp').
  assert (e' = e) by congruence. subst e'.
  assert (Hnd : (model_name im', device im') = (model_name im, device im)) by congruence.
  injection Hnd as Hn Hd.
  rewrite Hn in Hl'.
  destruct (load_params_inv _ _ _ _ Hl) as (_ & cfg & fmt & items & resolved
                                              & Hc & _ & Hi & Hr & ->).
  destruct (load_params_inv _ _ _ _ Hl') as (_ & cfg' & fmt' & items' & resolved'
                                               & Hc' & _ & Hi' & Hr' & ->).
  pose proof (Hsame _ _ _ Hc Hc') as Hk.
  unfold Dict.get_default in *.
  rewrite (Hk "params") in Hi' by discriminate.
  assert (items' = items) by congruence. subst items'.
  assert (resolved' = resolved) by congruence. subst resolved'.
  cbn [model_type] in Hel, Hel'.
  rewrite (Hk "type") in Hel' by discriminate.
  assert (Hele : inference_element im' = inference_element im) by congruence.
  assert (Hmp : model_params (params im') = model_params (params im)).
  { rewrite Hp, Hp', Hd. destruct (device im); reflexivity. }
  rewrite (device_rules_model_ext cs im im' Hd) in Hrules'.
  assert (rules' = rules) by congruence. subst rules'.
  rewrite !generate_built.
  now rewrite (serialize_ext im im' _ Hele Hmp).
Qed.

End MoreOnInputFormat.

Lemma input_format_ignored_witness :
  generate_pipeline (B := literal_builtins)
    (AssemblySpec.example_camera (VBool true))
    [ ("retail",
       VDict [ ("input-format", VDict [ ("color-space", VStr "BGR") ]);
               ("type", VStr "detect");
               ("params", VDict [ ("model", VStr "intel/retail.xml");
                                  ("batch-size", VInt 4);
                                  ("threshold", VStr "0.5") ]) ]) ]
  = inr (AssemblySpec.example_descriptor [undistort_element]).
Proof.
  destruct (generate_pipeline (B := literal_builtins)
              (AssemblySpec.example_camera (VBool true))
              [ ("retail",
                 VDict [ ("input-format", VDict [ ("color-space", VStr "BGR") ]);
                         ("type", VStr "detect");
                         ("params", VDict [ ("model", VStr "intel/retail.xml");
                                            ("batch-size", VInt 4);
                                            ("threshold", VStr "0.5") ]) ]) ])
    as [err|d'] eqn:E'; [vm_compute in E'; discriminate|].
  f_equal. symmetry.
  apply (input_format_ignored (B := literal_builtins)
           (AssemblySpec.example_camera (VBool true))
           ConfigSpec.example_model_config _ _ _
           example_camera_pipeline_on E').
  intros n cfg cfg' Hc Hc' k Hk.
  destruct (string_dec "retail" n) as [<-|Hne].
  - simpl in Hc, Hc'. injection Hc as <-. injection Hc' as <-.
    apply get_cons_neq. congruence.
  - rewrite get_cons_neq in Hc' by exact Hne. discriminate.
Defined.

(* ===================================================================== *)
(** * Further properties: the model configuration file *)

Lemma obind_inr {A C : Type} (m : outcome A) (k : A -> outcome C) (c : C) :
  obind m k = inr c -> exists a, m = inr a /\ k a = inr c.
Proof. destruct m as [e|a]; simpl; [discriminate|]. intros H. now exists a. Qed.

Tactic Notation "inv_obind" hyp(H) "as" ident(a) ident(Ha) :=
  apply obind_inr in H; destruct H as (a & Ha & H).

Section MoreOnConfigFile.
Context {B : Builtins} {H : Host}.
Import More Document.

Lemma NoModelConfig_truthy (form : dict) :
  NoModelConfig form <-> truthy (Dict.get_default "modelconfig" VNone form) = false.
Proof.
  unfold NoModelConfig, Dict.get_default.
  destruct (Dict.get "modelconfig" form) as [v|]; simpl.
  - split; [intros [F|(v' & [= <-] & F)]; [discriminate|exact F]|].
    intros F. right. now exists v.
  - split; [reflexivity|now left].
Qed.

(** What the function does once the file name is known. *)
Lemma from_dict_named (form : dict) (n : string) :
  ConfigName form n ->
  generate_pipeline_string_from_dict form =
    if is_file (PurePath.join_str configs_folder n) then
      obind (load_json (PurePath.join_str configs_folder n))
            (fun model_config => lift (generate_with_config form model_config))
    else
      inl (Raised (ValueError ("Model config file '"
                               ++ PurePath.join_str configs_folder n
                               ++ "' does not exist."))).
Proof.
  intros Hn. unfold generate_pipeline_string_from_dict. fold configs_folder.
  destruct Hn as [Hno | n Hg Hne].
  - apply NoModelConfig_truthy in Hno. rewrite Hno.
    now destruct (is_file _).
  - unfold Dict.get_default. rewrite Hg. cbn [truthy].
    apply String.eqb_neq in Hne. rewrite Hne. cbn [negb].
    now destruct (is_file _).
Qed.

(** X11. A form asks for the file named under [modelconfig], or for
    [model_config.json] when that entry is absent, null or empty, in the
    folder of the environment or, without one, /models/model_configs; when
    that path is no file the call ends in the [ValueError] that names the
    path, whatever else the form holds, and nothing is read or generated. *)
Theorem config_file_missing (form : dict) (n : string) :
  ConfigName form n ->
  is_file (PurePath.join_str configs_folder n) = false ->
  generate_pipeline_string_from_dict form =
    inl (Raised (ValueError ("Model config file '"
                             ++ PurePath.join_str configs_folder n
                             ++ "' does not exist."))).
Proof.
  intros Hn Hf. rewrite (from_dict_named form n Hn). now rewrite Hf.
Qed.

Lemma generate_with_config_ext (form form' : dict) (config : pyval) :
  (forall k, In k read_keys -> Dict.get k form' = Dict.get k form) ->
  generate_with_config form' config = generate_with_config form config.
Proof.
  intros Hk. destruct config; cbn [generate_with_config];
    try (unfold Dict.get_default; rewrite (Hk "camerachain") by (simpl; tauto);
         reflexivity).
  now apply generate_reads_keys_lemma.
Qed.

(** X12. The outcome for a form depends on the file it names and on the
    thirteen keys generation reads, and on nothing else in the form: in
    particular a null [modelconfig] is the same as none. *)
Theorem from_dict_reads_keys (form form' : dict) (n : string) :
  ConfigName form n -> ConfigName form' n ->
  (forall k, In k read_keys -> Dict.get k form' = Dict.get k form) ->
  generate_pipeline_string_from_dict form' = generate_pipeline_string_from_dict form.
Proof.
  intros Hn Hn' Hk.
  rewrite (from_dict_named form n Hn), (from_dict_named form' n Hn').
  destruct (is_file _); [|reflexivity].
  destruct (load_json _) as [e|config]; [reflexivity|]. cbn [obind].
  now rewrite (generate_with_config_ext form form' config Hk).
Qed.

End MoreOnConfigFile.

Lemma config_file_missing_witness :
  generate_pipeline_string_from_dict (B := literal_builtins) (H := Document.bare_host)
    [ ("modelconfig", VStr "yolo.json"); ("camerachain", VNone) ]
  = inl (Raised (ValueError "Model config file '/srv/configs/yolo.json' does not exist.")).
Proof.
  apply (config_file_missing (B := literal_builtins) (H := Document.bare_host)
           [ ("modelconfig", VStr "yolo.json"); ("camerachain", VNone) ] "yolo.json").
  - apply Document.ConfigName_given; [reflexivity|discriminate].
  - reflexivity.
Defined.

Lemma from_dict_reads_keys_witness :
  generate_pipeline_string_from_dict (B := literal_builtins) (H := Document.example_host)
    (("modelconfig", VNone) :: AssemblySpec.example_camera (VBool true))
  = generate_pipeline_string_from_dict (B := literal_builtins) (H := Document.example_host)
      (AssemblySpec.example_camera (VBool true)).
Proof.
  apply (from_dict_reads_keys (B := literal_builtins) (H := Document.example_host)
           (AssemblySpec.example_camera (VBool true))
           (("modelconfig", VNone) :: AssemblySpec.example_camera (VBool true))
           "model_config.json").
  - apply Document.ConfigName_default. left. reflexivity.
  - apply Document.ConfigName_default. right. exists VNone. split; reflexivity.
  - intros k Hk. apply get_cons_neq. intros <-. simpl in Hk. intuition discriminate.
Defined.

Example from_dict_example :
  generate_pipeline_string_from_dict (B := literal_builtins) (H := Document.example_host)
    (AssemblySpec.example_camera (VBool true))
  = inr (AssemblySpec.example_descriptor [undistort_element]).
Proof. vm_compute. reflexivity. Qed.

(* ===================================================================== *)
(** * Further properties: the configuration document *)

Section MoreOnDocuments.
Context {B : Builtins} {H : Host}.
Import More Document AssemblySpec.
Local Open Scope outcome_scope.

Lemma filled_document (n p : pyval) (u : option pyval) (c : pyval) :
  filled n p u c =
    inr (document n p (match u with Some xml => xml | None => VStr "" end) c
           (VStr "detectionPolicy")).
Proof. destruct u; reflexivity. Qed.

Lemma config_init_phases (cs : dict) :
  PipelineConfigGenerator_init cs =
    (n <~ lift (Dict.getitem "name" cs) ;;
     c <~ lift (Dict.getitem "sensor_id" cs) ;;
     p <~ chosen_pipeline cs ;;
     u <~ undistort_xml cs p ;;
     inr {| name := n; camera_id := c; pipeline := p;
            metadata_policy := "detectionPolicy";
            config_dict := document n p
                             (match u with Some xml => xml | None => VStr "" end) c
                             (VStr "detectionPolicy") |}).
Proof.
  unfold PipelineConfigGenerator_init, chosen_pipeline, undistort_xml.
  destruct (lift (Dict.getitem "name" cs)) as [e|n]; [reflexivity|]. cbn [obind].
  destruct (lift (Dict.getitem "sensor_id" cs)) as [e|c]; [reflexivity|]. cbn [obind].
  destruct (if negb (truthy (Dict.get_default "camera_pipeline" VNone cs))
            then _ else _) as [e|p]; [reflexivity|]. cbn [obind].
  change (store_at pipeline_cfg "name" n CONFIG_TEMPLATE)
    with (inr (document n (VStr "") (VStr "") (VStr "") (VStr "")) : outcome pyval).
  cbn [obind].
  change (store_at pipeline_cfg "pipeline" p
            (document n (VStr "") (VStr "") (VStr "") (VStr "")))
    with (inr (document n p (VStr "") (VStr "") (VStr "")) : outcome pyval).
  cbn [obind].
  destruct (py_contains "cameraundistort" p) as [e|[|]]; [reflexivity| |];
    cbn [obind].
  - destruct (get_camera_intrinsics_matrix cs) as [e|intr]; [reflexivity|].
    cbn [obind].
    destruct (get_camera_dist_coeffs cs) as [e|dist]; [reflexivity|]. cbn [obind].
    destruct (generate_xml intr dist) as [e|xml]; reflexivity.
  - reflexivity.
Qed.

Lemma chosen_pipeline_text (cs : dict) (p : pyval) :
  chosen_pipeline cs = inr p <-> PipelineText cs p.
Proof.
  unfold chosen_pipeline, Dict.get_default, Dict.getitem. split.
  - destruct (Dict.get "camera_pipeline" cs) as [v|] eqn:Eg.
    + destruct (truthy v) eqn:Et; cbn [negb].
      * intros [= <-]. now constructor.
      * intros Hg. inv_obind Hg as s Hs. injection Hg as <-.
        constructor; [|exact Hs]. unfold Dict.get_default. now rewrite Eg.
    + cbn [truthy negb]. intros Hg. inv_obind Hg as s Hs. injection Hg as <-.
      constructor; [|exact Hs]. unfold Dict.get_default. now rewrite Eg.
  - intros [p0 Hg Ht | s Hf Hs].
    + rewrite Hg, Ht. reflexivity.
    + unfold Dict.get_default in Hf.
      destruct (Dict.get "camera_pipeline" cs) as [v|]; rewrite Hf; cbn [negb];
        now rewrite Hs.
Qed.

(** X13. The document a constructed object holds is the template with five
    places filled and nothing else changed: the name and the sensor id of
    the settings, the pipeline text (the one given, or else the generated
    one), the policy [detectionPolicy], and the undistort settings, which
    are the XML of the calibration when the text holds [cameraundistort]
    and stay empty when it does not. *)
Theorem config_document (cs : dict) (self : PipelineConfigGenerator) :
  PipelineConfigGenerator_init cs = inr self ->
  Dict.get "name" cs = Some (name self) /\
  Dict.get "sensor_id" cs = Some (camera_id self) /\
  metadata_policy self = "detectionPolicy" /\
  PipelineText cs (pipeline self) /\
  exists u,
    config_dict self =
      document (name self) (pipeline self) (VStr u) (camera_id self)
        (VStr "detectionPolicy") /\
    ((py_contains "cameraundistort" (pipeline self) = inr false /\ u = "") \/
     (py_contains "cameraundistort" (pipeline self) = inr true /\
      exists intrinsics dist_coeffs,
        get_camera_intrinsics_matrix cs = inr intrinsics /\
        get_camera_dist_coeffs cs = inr dist_coeffs /\
        generate_xml intrinsics dist_coeffs = inr u)).
Proof.
  rewrite config_init_phases. intros Hi.
  inv_obind Hi as n Hn. inv_obind Hi as c Hc. inv_obind Hi as p Hp.
  inv_obind Hi as u Hu. injection Hi as <-.
  cbn [name camera_id pipeline metadata_policy config_dict].
  unfold Dict.getitem in Hn, Hc.
  destruct (Dict.get "name" cs) as [n'|]; [|discriminate]. injection Hn as ->.
  destruct (Dict.get "sensor_id" cs) as [c'|]; [|discriminate]. injection Hc as ->.
  apply chosen_pipeline_text in Hp.
  split; [reflexivity|]. split; [reflexivity|]. split; [reflexivity|].
  split; [exact Hp|].
  unfold undistort_xml in Hu. inv_obind Hu as b Hb. destruct b.
  - inv_obind Hu as intr Hintr. inv_obind Hu as dist Hdist.
    inv_obind Hu as xml Hxml. injection Hu as <-.
    exists xml. split; [reflexivity|]. right. split; [exact Hb|].
    now exists intr, dist.
  - injection Hu as <-. exists "". split; [reflexivity|]. left. now split.
Qed.

(** X14. A pipeline text given in the settings that does not hold
    [cameraundistort] is taken as it is, on any host: no file is looked for,
    nothing is generated, the model expression and the calibration are not
    read, and the object is built whenever the name and the sensor id are
    there. *)
Theorem given_pipeline_verbatim (cs : dict) (n i : pyval) (p : string) :
  Dict.get "name" cs = Some n ->
  Dict.get "sensor_id" cs = Some i ->
  Dict.get "camera_pipeline" cs = Some (VStr p) ->
  p <> "" ->
  PyStr.has_substring "cameraundistort" p = false ->
  PipelineConfigGenerator_init cs =
    inr {| name := n; camera_id := i; pipeline := VStr p;
           metadata_policy := "detectionPolicy";
           config_dict := document n (VStr p) (VStr "") i (VStr "detectionPolicy") |}.
Proof.
  intros Hn Hi Hp Hne Hsub. rewrite config_init_phases.
  unfold chosen_pipeline, undistort_xml, Dict.get_default, Dict.getitem.
  rewrite Hn, Hi, Hp. cbn [lift ret obind truthy].
  apply String.eqb_neq in Hne. rewrite Hne. cbn [negb lift obind py_contains].
  rewrite Hsub. reflexivity.
Qed.

Lemma getitem_inl (k : string) (cs : dict) :
  Dict.get k cs = None -> lift (Dict.getitem k cs) = inl (Raised (KeyError k)).
Proof. intros E. unfold Dict.getitem. now rewrite E. Qed.

Lemma getitem_inr (k : string) (cs : dict) (v : pyval) :
  Dict.get k cs = Some v -> lift (Dict.getitem k cs) = inr v.
Proof. intros E. unfold Dict.getitem. now rewrite E. Qed.

Lemma calibration_read (cs : dict) :
  match first_missing cs with
  | Some k =>
      (intrinsics <~ get_camera_intrinsics_matrix cs ;;
       get_camera_dist_coeffs cs) = inl (Raised (KeyError k))
  | None =>
      exists fx fy cx cy k1 k2 p1 p2 k3,
        get_camera_intrinsics_matrix cs = inr (camera_matrix fx fy cx cy) /\
        get_camera_dist_coeffs cs = inr (VList [k1; k2; p1; p2; k3])
  end.
Proof.
  unfold first_missing, calibration_read_order, get_camera_intrinsics_matrix,
    get_camera_dist_coeffs, Dict.mem.
  cbn [find].
  repeat match goal with
  | |- context [Dict.get ?k cs] =>
      lazymatch goal with
      | E : Dict.get k cs = _ |- _ => fail
      | _ => idtac
      end;
      let E := fresh "E" in
      destruct (Dict.get k cs) eqn:E; cbn [negb];
      [rewrite (getitem_inr _ _ _ E); cbn [obind]
      |rewrite (getitem_inl _ _ E); reflexivity]
  end.
  do 9 eexists. split; reflexivity.
Qed.

(** X15. When the pipeline text holds [cameraundistort], the constructor
    reads the nine calibration values in the order fx, cx, fy, cy, k1, k2,
    p1, p2, k3 and ends in the [KeyError] of the first one the settings
    lack: this is so for a text given in the settings and for a generated
    one alike, whatever the undistort flag says. *)
Theorem missing_calibration_key (cs : dict) (n i p : pyval) (k : string) :
  Dict.get "name" cs = Some n ->
  Dict.get "sensor_id" cs = Some i ->
  PipelineText cs p ->
  py_contains "cameraundistort" p = inr true ->
  first_missing cs = Some k ->
  PipelineConfigGenerator_init cs = inl (Raised (KeyError k)).
Proof.
  intros Hn Hi Hp Hc Hk. rewrite config_init_phases.
  rewrite (getitem_inr _ _ _ Hn), (getitem_inr _ _ _ Hi). cbn [obind].
  apply chosen_pipeline_text in Hp. rewrite Hp. cbn [obind].
  unfold undistort_xml. rewrite Hc. cbn [obind].
  pose proof (calibration_read cs) as Hr. rewrite Hk in Hr.
  destruct (get_camera_intrinsics_matrix cs) as [e|intr]; cbn [obind] in *.
  - now injection Hr as ->.
  - now rewrite Hr.
Qed.

Lemma startswith_app_l (p s post : string) :
  PyStr.startswith p s = true -> PyStr.startswith p (s ++ post) = true.
Proof.
  revert s. induction p as [|a p IH]; intros s Hp; [reflexivity|].
  destruct s as [|b s]; [discriminate|].
  cbn [PyStr.startswith String.append] in *.
  apply andb_true_iff in Hp as [Ha Hp]. rewrite Ha. now apply IH.
Qed.

Lemma has_substring_app_l (sub s post : string) :
  PyStr.has_substring sub s = true -> PyStr.has_substring sub (s ++ post) = true.
Proof.
  induction s as [|a s IH]; cbn [PyStr.has_substring String.append]; intros Hs.
  - rewrite orb_false_r in Hs. destruct sub; [|discriminate].
    destruct post; reflexivity.
  - apply orb_true_iff in Hs as [Hs|Hs].
    + apply (startswith_app_l _ _ post) in Hs. cbn [String.append] in Hs.
      now rewrite Hs.
    + rewrite (IH Hs). apply orb_true_r.
Qed.

Lemma has_substring_app_r (sub pre s : string) :
  PyStr.has_substring sub s = true -> PyStr.has_substring sub (pre ++ s) = true.
Proof.
  intros Hs. induction pre as [|a pre IH]; cbn [PyStr.has_substring String.append].
  - exact Hs.
  - rewrite IH. apply orb_true_r.
Qed.

Lemma has_substring_join (sub sep x : string) (l : list string) :
  In x l -> PyStr.has_substring sub x = true ->
  PyStr.has_substring sub (PyStr.join sep l) = true.
Proof.
  unfold PyStr.join. intros Hin Hx.
  induction l as [|y l IH]; [destruct Hin|].
  cbn [String.concat]. destruct l as [|z l].
  - destruct Hin as [->|[]]. exact Hx.
  - destruct Hin as [->|Hin].
    + now apply has_substring_app_l.
    + apply has_substring_app_r, has_substring_app_r. now apply IH.
Qed.

(** A generated text comes from generation on a JSON document that is a
    dict. *)
Lemma from_dict_inr (form : dict) (s : string) :
  generate_pipeline_string_from_dict form = inr s ->
  exists d, generate_pipeline form d = inr s.
Proof.
  unfold generate_pipeline_string_from_dict. intros Hg.
  destruct (if truthy (Dict.get_default "modelconfig" VNone form)
            then Dict.get_default "modelconfig" VNone form
            else VStr "model_config.json"); try discriminate.
  destruct (negb (is_file _)); [discriminate|].
  inv_obind Hg as config Hc.
  destruct config as [| | | | |l|d]; cbn [generate_with_config] in Hg;
    try (destruct (_parse_model_expr_dyn _); discriminate).
  exists d. unfold lift in Hg. destruct (generate_pipeline form d); congruence.
Qed.

Lemma first_missing_present (cs : dict) :
  all_in intrinsics_keys cs = true -> all_in dist_coeffs_keys cs = true ->
  first_missing cs = None.
Proof.
  intros Hi Hd. unfold first_missing.
  destruct (find _ calibration_read_order) as [k|] eqn:Ef; [|reflexivity].
  apply find_some in Ef as [Hin Hk].
  apply all_in_KeysPresent in Hi. apply all_in_KeysPresent in Hd.
  assert (Hm : Dict.mem k cs = true).
  { unfold Dict.mem.
    assert (Hv : exists v, Dict.get k cs = Some v).
    { cbn [calibration_read_order In] in Hin.
      repeat (destruct Hin as [<-|Hin];
              [first [apply Hi; simpl; tauto | apply Hd; simpl; tauto]|]).
      destruct Hin. }
    destruct Hv as (v & ->). reflexivity. }
  rewrite Hm in Hk. discriminate.
Qed.

(** X16. A generated pipeline text that was given the undistortion stage
    always finds its calibration: the stage is emitted only with the nine
    keys there, the text then holds [cameraundistort], and the constructor
    goes on to the XML of the matrix and the coefficients, so that its
    outcome is that of the XML writer, with the document built around the
    XML when it succeeds. *)
Theorem generated_undistort_document (cs : dict) (n i : pyval) (s : string) :
  Dict.get "name" cs = Some n ->
  Dict.get "sensor_id" cs = Some i ->
  truthy (Dict.get_default "camera_pipeline" VNone cs) = false ->
  generate_pipeline_string_from_dict cs = inr s ->
  truthy (Dict.get_default "undistort" VNone cs) = true ->
  add_camera_undistort cs = inr [undistort_element] ->
  PyStr.has_substring "cameraundistort" s = true /\
  exists intrinsics dist_coeffs,
    get_camera_intrinsics_matrix cs = inr intrinsics /\
    get_camera_dist_coeffs cs = inr dist_coeffs /\
    PipelineConfigGenerator_init cs =
      (xml <~ generate_xml intrinsics dist_coeffs ;;
       inr {| name := n; camera_id := i; pipeline := VStr s;
              metadata_policy := "detectionPolicy";
              config_dict := document n (VStr s) (VStr xml) i
                               (VStr "detectionPolicy") |}).
Proof.
  intros Hn Hi Hnone Hs Hflag Hadd.
  assert (Hsub : PyStr.has_substring "cameraundistort" s = true).
  { destruct (from_dict_inr cs s Hs) as (d & Hd).
    apply generate_pipeline_inv in Hd
      as (im & uri & source & rules & und & _ & _ & _ & _ & Hund & ->).
    apply undistort_choice_cases in Hund as [_ Hund].
    assert (E : und = [undistort_element]) by (apply Hund; now split).
    subst und. rewrite generate_built.
    apply (has_substring_join _ _ undistort_element); [|reflexivity].
    rewrite !in_app_iff. right. right. right. left. now left. }
  split; [exact Hsub|].
  assert (Hmiss : first_missing cs = None).
  { unfold add_camera_undistort in Hadd.
    destruct (all_in intrinsics_keys cs) eqn:Ei; [|discriminate].
    destruct (all_in dist_coeffs_keys cs) eqn:Ed; [|discriminate].
    now apply first_missing_present. }
  pose proof (calibration_read cs) as Hr. rewrite Hmiss in Hr.
  destruct Hr as (fx & fy & cx & cy & k1 & k2 & p1 & p2 & k3 & Hintr & Hdist).
  exists (camera_matrix fx fy cx cy), (VList [k1; k2; p1; p2; k3]).
  split; [exact Hintr|]. split; [exact Hdist|].
  rewrite config_init_phases.
  rewrite (getitem_inr _ _ _ Hn), (getitem_inr _ _ _ Hi). cbn [obind].
  assert (Hp : chosen_pipeline cs = inr (VStr s))
    by (apply chosen_pipeline_text; now constructor).
  rewrite Hp. cbn [obind]. unfold undistort_xml. cbn [py_contains].
  rewrite Hsub. cbn [obind]. rewrite Hintr, Hdist. cbn [obind].
  destruct (generate_xml _ _); reflexivity.
Qed.

Lemma contains_remove_same (c : ascii) (s : string) :
  PyStr.contains c (remove_char c s) = false.
Proof.
  induction s as [|a s IH]; cbn [remove_char]; [reflexivity|].
  destruct (Ascii.eqb a c) eqn:E; [exact IH|].
  cbn [PyStr.contains]. now rewrite E.
Qed.

Lemma contains_remove_other (c c' : ascii) (s : string) :
  PyStr.contains c s = false -> PyStr.contains c (remove_char c' s) = false.
Proof.
  induction s as [|a s IH]; cbn [remove_char PyStr.contains]; [reflexivity|].
  intros Hc. apply orb_false_iff in Hc as [Ha Hs].
  destruct (Ascii.eqb a c'); [now apply IH|].
  cbn [PyStr.contains]. rewrite Ha. now apply IH.
Qed.

Lemma remove_absent (c : ascii) (s : string) :
  PyStr.contains c s = false -> remove_char c s = s.
Proof.
  induction s as [|a s IH]; cbn [remove_char PyStr.contains]; [reflexivity|].
  intros Hc. apply orb_false_iff in Hc as [Ha Hs].
  rewrite Ha. now rewrite IH.
Qed.

(** X17. The XML text that [generate_xml] returns is on one line: it holds
    no line feed and no carriage return, whatever the writer produced; and a
    text of the writer that has neither is returned as it is. *)
Theorem generate_xml_one_line (camera_intrinsics dist_coeffs : pyval) (xml : string) :
  generate_xml camera_intrinsics dist_coeffs = inr xml ->
  PyStr.contains "010" xml = false /\
  PyStr.contains "013" xml = false /\
  (forall raw,
     cv_write camera_intrinsics dist_coeffs = inr raw ->
     PyStr.contains "010" raw = false -> PyStr.contains "013" raw = false ->
     xml = raw).
Proof.
  unfold generate_xml. intros Hx. inv_obind Hx as raw Hraw. injection Hx as <-.
  split; [|split].
  - apply contains_remove_other, contains_remove_same.
  - apply contains_remove_same.
  - intros raw' Hraw' Hlf Hcr. assert (raw' = raw) by congruence. subst raw'.
    now rewrite (remove_absent _ _ Hlf), (remove_absent _ _ Hcr).
Qed.

End MoreOnDocuments.

Lemma config_document_witness :
  exists self,
    PipelineConfigGenerator_init (B := literal_builtins) (H := Document.example_host)
      Document.door_camera = inr self /\
    Dict.get "name" Document.door_camera = Some (name self) /\
    Dict.get "sensor_id" Document.door_camera = Some (camera_id self) /\
    metadata_policy self = "detectionPolicy" /\
    PipelineText (B := literal_builtins) (H := Document.example_host)
      Document.door_camera (pipeline self) /\
    exists u,
      config_dict self =
        Document.document (name self) (pipeline self) (VStr u) (camera_id self)
          (VStr "detectionPolicy") /\
      ((py_contains "cameraundistort" (pipeline self) = inr false /\ u = "") \/
       (py_contains "cameraundistort" (pipeline self) = inr true /\
        exists intrinsics dist_coeffs,
          get_camera_intrinsics_matrix Document.door_camera = inr intrinsics /\
          get_camera_dist_coeffs Document.door_camera = inr dist_coeffs /\
          generate_xml (H := Document.example_host) intrinsics dist_coeffs = inr u)).
Proof.
  eexists. split; [vm_compute; reflexivity|].
  apply (config_document (B := literal_builtins) (H := Document.example_host)
           Document.door_camera).
  vm_compute. reflexivity.
Defined.

Lemma given_pipeline_verbatim_witness :
  PipelineConfigGenerator_init (B := literal_builtins) (H := Document.bare_host)
    Document.plain_camera =
    inr {| name := VStr "yard"; camera_id := VStr "cam2";
           pipeline := VStr "videotestsrc ! fakesink";
           metadata_policy := "detectionPolicy";
           config_dict :=
             Document.document (VStr "yard") (VStr "videotestsrc ! fakesink")
               (VStr "") (VStr "cam2") (VStr "detectionPolicy") |}.
Proof.
  apply (given_pipeline_verbatim (B := literal_builtins) (H := Document.bare_host)
           Document.plain_camera (VStr "yard") (VStr "cam2")
           "videotestsrc ! fakesink");
    [reflexivity|reflexivity|reflexivity|discriminate|reflexivity].
Defined.

Lemma missing_calibration_key_witness :
  PipelineConfigGenerator_init (B := literal_builtins) (H := Document.example_host)
    [ ("name", VStr "door"); ("sensor_id", VStr "cam1");
      ("camera_pipeline", VStr "videotestsrc ! cameraundistort ! fakesink");
      ("intrinsics_fx", VInt 905); ("intrinsics_fy", VInt 905);
      ("intrinsics_cy", VInt 360) ]
  = inl (Raised (KeyError "intrinsics_cx")).
Proof.
  apply (missing_calibration_key (B := literal_builtins) (H := Document.example_host)
           _ (VStr "door") (VStr "cam1")
           (VStr "videotestsrc ! cameraundistort ! fakesink") "intrinsics_cx");
    [reflexivity|reflexivity| |reflexivity|reflexivity].
  apply PipelineText_given; reflexivity.
Defined.

Lemma generated_undistort_document_witness :
  exists s,
    generate_pipeline_string_from_dict (B := literal_builtins)
      (H := Document.example_host) Document.generated_camera = inr s /\
    PyStr.has_substring "cameraundistort" s = true /\
    exists intrinsics dist_coeffs,
      get_camera_intrinsics_matrix Document.generated_camera = inr intrinsics /\
      get_camera_dist_coeffs Document.generated_camera = inr dist_coeffs /\
      PipelineConfigGenerator_init (B := literal_builtins) (H := Document.example_host)
        Document.generated_camera =
        obind (generate_xml (H := Document.example_host) intrinsics dist_coeffs)
          (fun xml =>
             inr {| name := VStr "gate"; camera_id := VStr "cam3"; pipeline := VStr s;
                    metadata_policy := "detectionPolicy";
                    config_dict :=
                      Document.document (VStr "gate") (VStr s) (VStr xml) (VStr "cam3")
                        (VStr "detectionPolicy") |}).
Proof.
  eexists. split; [vm_compute; reflexivity|].
  apply (generated_undistort_document (B := literal_builtins)
           (H := Document.example_host) Document.generated_camera
           (VStr "gate") (VStr "cam3"));
    vm_compute; reflexivity.
Defined.

Lemma generate_xml_one_line_witness :
  PyStr.contains "010" "<?xml version='1.0'?><opencv_storage></opencv_storage>" = false /\
  PyStr.contains "013" "<?xml version='1.0'?><opencv_storage></opencv_storage>" = false /\
  (forall raw,
     cv_write (Host := Document.example_host) (VList []) (VList []) = inr raw ->
     PyStr.contains "010" raw = false -> PyStr.contains "013" raw = false ->
     "<?xml version='1.0'?><opencv_storage></opencv_storage>" = raw).
Proof.
  apply (generate_xml_one_line (H := Document.example_host) (VList []) (VList [])).
  reflexivity.
Defined.
